(** * comfy-mcp-server: the workflow graph tools, embedded in Rocq

    The development follows [comfy_mcp_server/tools/workflow.py] and
    [comfy_mcp_server/models.py].

    Modelling conventions.
    - A Python [str] is a Rocq [string] holding its UTF-8 bytes.
    - A Python [int] is a [Z]; a [float] is carried by its [repr] text.
    - A Python [dict] is an association list in insertion order whose keys are
      pairwise distinct ([dict_ok]); the tools receive JSON documents, so keys
      are strings.
    - Values that arrive as tool arguments are JSON trees ([json]).  The module
      global [TEMPLATES] is shared by all calls and lives in a store of
      mutable cells (section Store below).
    - A Python exception is the [Raise] outcome of [result].
    - The tools' optional logging context [ctx] is left out: it only records
      messages.
    - [json.loads], [json.dumps], [str], [repr] and the validation that
      pydantic does for [WorkflowNode] are library code; they are embedded
      here as far as the tools use them.
    - Interpreter resource limits (recursion depth, the digit limit of [int],
      memory) are left out: [str], [repr], [json.dumps] and [json.loads] are
      embedded as what the call gives when it returns.  The interpreter makes
      such a call raise [ValueError] for an [int] of more digits than
      [sys.get_int_max_str_digits()] allows, and [RecursionError] for a value
      nested deeper than its stack allows.  A statement that needs one of these
      calls to return is therefore stated for the runs that return, or for
      data on which the call cannot raise: a string given to [str], a text
      without nesting and of digits below the threshold given to
      [json.loads]. *)

From Stdlib Require Import ZArith NArith Ascii String List Lia Permutation.
From stdpp Require Import base tactics option list strings pretty.

Local Open Scope string_scope.
Local Open Scope list_scope.

(** ** Outcomes of a call *)

Inductive exn : Type :=
| TypeError
| KeyError
| AttributeError
| ValueError
| JSONDecodeError
| ValidationError
| OSError (msg : string).

Inductive result (A : Type) : Type :=
| Ok (a : A)
| Raise (e : exn).

Arguments Ok {A} a.
Arguments Raise {A} e.

Definition bind {A B : Type} (r : result A) (k : A -> result B) : result B :=
  match r with
  | Ok a => k a
  | Raise e => Raise e
  end.

Notation "x <- r ;; k" := (bind r (fun x => k))
  (at level 100, r at next level, right associativity).

Definition returns {A : Type} (r : result A) : Prop := exists a, r = Ok a.

(** A [for] loop whose body may raise: the accumulator is threaded through,
    the first exception ends the loop. *)
Fixpoint for_each {A S : Type} (body : S -> A -> result S) (xs : list A) (s : S)
  : result S :=
  match xs with
  | [] => Ok s
  | x :: xs' =>
      match body s x with
      | Ok s' => for_each body xs' s'
      | Raise e => Raise e
      end
  end.

(** ** Python values *)

Record PyFloat : Type := mkFloat { float_repr : string }.

#[local] Unset Elimination Schemes.
Inductive json : Type :=
| JNull
| JBool (b : bool)
| JInt (z : Z)
| JFloat (f : PyFloat)
| JStr (s : string)
| JList (xs : list json)
| JDict (kvs : list (string * json)).
#[local] Set Elimination Schemes.

(** Induction over a JSON tree, with the hypothesis available for every
    element of a list and every value of a dictionary. *)
Section json_nested_induction.
Variable P : json -> Prop.
Hypothesis HNull : P JNull.
Hypothesis HBool : forall b, P (JBool b).
Hypothesis HInt : forall z, P (JInt z).
Hypothesis HFloat : forall f, P (JFloat f).
Hypothesis HStr : forall s, P (JStr s).
Hypothesis HList : forall xs, Forall P xs -> P (JList xs).
Hypothesis HDict : forall kvs, Forall (fun kv => P (snd kv)) kvs -> P (JDict kvs).

Fixpoint json_nested_ind (j : json) : P j :=
  match j with
  | JNull => HNull
  | JBool b => HBool b
  | JInt z => HInt z
  | JFloat f => HFloat f
  | JStr s => HStr s
  | JList xs =>
      HList xs
        ((fix all (l : list json) : Forall P l :=
            match l with
            | [] => @List.Forall_nil _ P
            | x :: l' => @List.Forall_cons _ P x l' (json_nested_ind x) (all l')
            end) xs)
  | JDict kvs =>
      HDict kvs
        ((fix all (l : list (string * json)) : Forall (fun kv => P (snd kv)) l :=
            match l with
            | [] => @List.Forall_nil _ _
            | kv :: l' => @List.Forall_cons _ _ kv l' (json_nested_ind (snd kv)) (all l')
            end) kvs)
  end.
End json_nested_induction.

(** Primitives of the interpreter that the repository relies on and that are
    not defined by it. *)
Class PyRuntime : Type := {
  (** [float(text)] for a number token with a fraction or an exponent *)
  float_of_literal : string -> PyFloat;
  (** [str.isprintable] on one code point above the ASCII range *)
  unicode_isprintable : N -> bool
}.

(** ** Dictionaries *)

Definition dict (A : Type) : Type := list (string * A).

Fixpoint dict_get {A : Type} (k : string) (d : dict A) : option A :=
  match d with
  | [] => None
  | (k', v) :: d' => if String.eqb k' k then Some v else dict_get k d'
  end.

Definition dict_has {A : Type} (k : string) (d : dict A) : bool :=
  match dict_get k d with
  | Some _ => true
  | None => false
  end.

(** [d[k] = v]: an existing key keeps its position, a new key goes last. *)
Fixpoint dict_set {A : Type} (k : string) (v : A) (d : dict A) : dict A :=
  match d with
  | [] => [(k, v)]
  | (k', v') :: d' =>
      if String.eqb k' k then (k', v) :: d' else (k', v') :: dict_set k v d'
  end.

(** [del d[k]] *)
Fixpoint dict_del {A : Type} (k : string) (d : dict A) : dict A :=
  match d with
  | [] => []
  | (k', v') :: d' =>
      if String.eqb k' k then dict_del k d' else (k', v') :: dict_del k d'
  end.

Definition dict_keys {A : Type} (d : dict A) : list string := map fst d.

Definition dict_ok {A : Type} (d : dict A) : Prop := List.NoDup (dict_keys d).

Fixpoint str_in (s : string) (l : list string) : bool :=
  match l with
  | [] => false
  | x :: l' => if String.eqb x s then true else str_in s l'
  end.

(** ** Text *)

Definition dquote : ascii := "034"%char.
Definition backslash : ascii := "092"%char.
Definition str1 (c : ascii) : string := String c EmptyString.

Definition has_char (c : ascii) (s : string) : bool :=
  existsb (Ascii.eqb c) (list_ascii_of_string s).

(** [needle in s] on two strings *)
Fixpoint str_contains (needle s : string) : bool :=
  String.prefix needle s ||
  match s with
  | EmptyString => false
  | String _ s' => str_contains needle s'
  end.

Definition hex_digit (n : N) : ascii :=
  nth (N.to_nat n) (list_ascii_of_string "0123456789abcdef") "0"%char.

(** Lowercase hexadecimal, zero padded to [width] digits *)
Fixpoint hex_pad (width : nat) (n : N) : string :=
  match width with
  | O => EmptyString
  | S w => hex_pad w (n / 16) +:+ str1 (hex_digit (n mod 16))
  end.

Definition is_cont (c : ascii) : bool :=
  let b := N_of_ascii c in (128 <=? b)%N && (b <? 192)%N.

Definition cont_bits (c : ascii) : N := (N_of_ascii c - 128)%N.

(** The code points of a string.  A byte that does not start a well-formed
    sequence is taken as a code point of its own. *)
Fixpoint utf8_decode (s : string) : list N :=
  match s with
  | EmptyString => []
  | String c0 r0 =>
      let b0 := N_of_ascii c0 in
      let one := b0 :: utf8_decode r0 in
      if (b0 <? 192)%N then one
      else
        match r0 with
        | String c1 r1 =>
            if negb (is_cont c1) then one
            else if (b0 <? 224)%N
            then ((b0 - 192) * 64 + cont_bits c1)%N :: utf8_decode r1
            else
              match r1 with
              | String c2 r2 =>
                  if negb (is_cont c2) then one
                  else if (b0 <? 240)%N
                  then ((b0 - 224) * 4096 + cont_bits c1 * 64 + cont_bits c2)%N
                       :: utf8_decode r2
                  else
                    match r2 with
                    | String c3 r3 =>
                        if negb (is_cont c3) then one
                        else ((b0 - 240) * 262144 + cont_bits c1 * 4096
                              + cont_bits c2 * 64 + cont_bits c3)%N
                             :: utf8_decode r3
                    | EmptyString => one
                    end
              | EmptyString => one
              end
        | EmptyString => one
        end
  end.

Definition utf8_encode (cp : N) : string :=
  let byte (n : N) := str1 (ascii_of_N n) in
  (if cp <? 128 then byte cp
   else if cp <? 2048 then byte (192 + cp / 64) +:+ byte (128 + cp mod 64)
   else if cp <? 65536
   then byte (224 + cp / 4096) +:+ byte (128 + (cp / 64) mod 64)
        +:+ byte (128 + cp mod 64)
   else byte (240 + cp / 262144) +:+ byte (128 + (cp / 4096) mod 64)
        +:+ byte (128 + (cp / 64) mod 64) +:+ byte (128 + cp mod 64))%N.

Section Values.
Context {rt : PyRuntime}.

(** [repr] of a [str] *)
Definition repr_quote (s : string) : ascii :=
  if has_char "'"%char s && negb (has_char dquote s) then dquote else "'"%char.

Definition repr_char (q : ascii) (cp : N) : string :=
  if (cp =? N_of_ascii q)%N || (cp =? 92)%N
  then String backslash (str1 (ascii_of_N cp))
  else if (cp =? 9)%N then String backslash "t"
  else if (cp =? 10)%N then String backslash "n"
  else if (cp =? 13)%N then String backslash "r"
  else if (cp <? 32)%N || (cp =? 127)%N then String backslash "x" +:+ hex_pad 2 cp
  else if (cp <? 127)%N then str1 (ascii_of_N cp)
  else if unicode_isprintable cp then utf8_encode cp
  else if (cp <? 256)%N then String backslash "x" +:+ hex_pad 2 cp
  else if (cp <? 65536)%N then String backslash "u" +:+ hex_pad 4 cp
  else String backslash "U" +:+ hex_pad 8 cp.

Definition py_repr_str (s : string) : string :=
  let q := repr_quote s in
  String q (String.concat EmptyString (map (repr_char q) (utf8_decode s)) +:+ str1 q).

(** [repr] of a JSON value, when the call returns (it raises instead for an
    [int] above the digit limit or a value nested too deep) *)
Fixpoint py_repr (j : json) : string :=
  match j with
  | JNull => "None"
  | JBool true => "True"
  | JBool false => "False"
  | JInt z => pretty z
  | JFloat f => float_repr f
  | JStr s => py_repr_str s
  | JList xs => "[" +:+ String.concat ", " (map py_repr xs) +:+ "]"
  | JDict kvs =>
      "{" +:+ String.concat ", "
                (map (fun kv => py_repr_str (fst kv) +:+ ": " +:+ py_repr (snd kv)) kvs)
          +:+ "}"
  end.

(** [str(j)], when the call returns; a string is returned as it is, and
    for it the call cannot raise *)
Definition py_str (j : json) : string :=
  match j with
  | JStr s => s
  | _ => py_repr j
  end.

End Values.

(** ** Operators of the language on JSON values *)

(** [x in c] for a [str] x *)
Definition py_in (x : string) (c : json) : result bool :=
  match c with
  | JDict kvs => Ok (dict_has x kvs)
  | JList xs =>
      Ok (existsb (fun e => match e with JStr s => String.eqb s x | _ => false end) xs)
  | JStr s => Ok (str_contains x s)
  | _ => Raise TypeError
  end.

(** [c[k]] for a [str] k *)
Definition py_getitem (c : json) (k : string) : result json :=
  match c with
  | JDict kvs =>
      match dict_get k kvs with
      | Some v => Ok v
      | None => Raise KeyError
      end
  | _ => Raise TypeError
  end.

(** [c[k] = v] for a [str] k; the outcome is the container after the store *)
Definition py_setitem (c : json) (k : string) (v : json) : result json :=
  match c with
  | JDict kvs => Ok (JDict (dict_set k v kvs))
  | _ => Raise TypeError
  end.

(** [c.items()] *)
Definition py_items (c : json) : result (dict json) :=
  match c with
  | JDict kvs => Ok kvs
  | _ => Raise AttributeError
  end.

(** ** [validate_workflow] *)

Record validation : Type := mkValidation {
  valid : bool;
  node_count : nat;
  issues : list string
}.

Section Validate.
Context {rt : PyRuntime}.

(** The body of the loop over [node["inputs"].items()] *)
Definition check_input (node_ids : list string) (node_id : string)
    (issues : list string) (item : string * json) : list string :=
  let '(input_name, value) := item in
  match value with
  | JList [v0; _] =>
      let ref_node := py_str v0 in
      if negb (str_in ref_node node_ids)
      then issues ++ ["Node " +:+ node_id +:+ "." +:+ input_name +:+ ": "
                      +:+ "references non-existent node " +:+ ref_node]
      else issues
  | _ => issues
  end.

(** The body of the loop over [workflow.items()] *)
Definition check_node (node_ids : list string) (issues : list string)
    (item : string * json) : result (list string) :=
  let '(node_id, node) := item in
  has_class <- py_in "class_type" node ;;
  let issues :=
    if negb has_class then issues ++ ["Node " +:+ node_id +:+ ": missing class_type"]
    else issues in
  has_inputs <- py_in "inputs" node ;;
  let issues :=
    if negb has_inputs then issues ++ ["Node " +:+ node_id +:+ ": missing inputs"]
    else issues in
  has_inputs <- py_in "inputs" node ;;
  if has_inputs then
    inputs <- py_getitem node "inputs" ;;
    items <- py_items inputs ;;
    Ok (fold_left (check_input node_ids node_id) items issues)
  else Ok issues.

Definition validate_workflow (workflow : dict json) : result validation :=
  let node_ids := dict_keys workflow in
  issues <- for_each (check_node node_ids) workflow [] ;;
  Ok {| valid := Nat.eqb (length issues) 0;
        node_count := length workflow;
        issues := issues |}.

End Validate.

(** ** Graph mutators of [workflow.py] *)

Definition create_workflow : dict json := [].

Definition add_node (workflow : dict json) (node_id node_type : string)
    (inputs : dict json) : dict json :=
  dict_set node_id (JDict [("class_type", JStr node_type); ("inputs", JDict inputs)])
    workflow.

Definition remove_node (workflow : dict json) (node_id : string) : dict json :=
  if dict_has node_id workflow then dict_del node_id workflow else workflow.

(** ** The [json] module: [dumps] *)

Definition newline : ascii := "010"%char.

Fixpoint spaces (n : nat) : string :=
  match n with
  | O => EmptyString
  | S n' => String " " (spaces n')
  end.

(** One code point of [encode_basestring_ascii] *)
Definition escape_ascii (cp : N) : string :=
  (if cp =? 34 then String backslash (str1 dquote)
   else if cp =? 92 then String backslash (str1 backslash)
   else if cp =? 8 then String backslash "b"
   else if cp =? 12 then String backslash "f"
   else if cp =? 10 then String backslash "n"
   else if cp =? 13 then String backslash "r"
   else if cp =? 9 then String backslash "t"
   else if (32 <=? cp) && (cp <=? 126) then str1 (ascii_of_N cp)
   else if cp <? 65536 then String backslash "u" +:+ hex_pad 4 cp
   else
     let n := cp - 65536 in
     String backslash "u" +:+ hex_pad 4 (55296 + (n / 1024) mod 1024)
     +:+ String backslash "u" +:+ hex_pad 4 (56320 + n mod 1024))%N.

Definition encode_basestring_ascii (s : string) : string :=
  String dquote
    (String.concat EmptyString (map escape_ascii (utf8_decode s)) +:+ str1 dquote).

Definition floatstr (f : PyFloat) : string :=
  let r := float_repr f in
  if String.eqb r "nan" then "NaN"
  else if String.eqb r "inf" then "Infinity"
  else if String.eqb r "-inf" then "-Infinity"
  else r.

(** [_iterencode]: [indent = None] is the compact form with separators
    [", "] and [": "]; [indent = Some n] puts every item on a line of its own,
    [n] spaces per level, with separators [","] and [": "].  This is the text
    the encoder writes when it returns; it raises instead for an [int] above
    the digit limit or a value nested too deep. *)
Fixpoint iterencode (indent : option nat) (level : nat) (j : json) : string :=
  let newline_indent (lvl : nat) : string :=
    match indent with
    | Some n => String newline (spaces (n * lvl))
    | None => EmptyString
    end in
  let item_separator : string :=
    match indent with
    | Some _ => "," +:+ newline_indent (S level)
    | None => ", "
    end in
  match j with
  | JNull => "null"
  | JBool true => "true"
  | JBool false => "false"
  | JInt z => pretty z
  | JFloat f => floatstr f
  | JStr s => encode_basestring_ascii s
  | JList [] => "[]"
  | JList xs =>
      "[" +:+ newline_indent (S level)
      +:+ String.concat item_separator (map (iterencode indent (S level)) xs)
      +:+ newline_indent level +:+ "]"
  | JDict [] => "{}"
  | JDict kvs =>
      "{" +:+ newline_indent (S level)
      +:+ String.concat item_separator
            (map (fun kv => encode_basestring_ascii (fst kv) +:+ ": "
                            +:+ iterencode indent (S level) (snd kv)) kvs)
      +:+ newline_indent level +:+ "}"
  end.

(** [json.dumps(obj)] and [json.dumps(obj, indent=n)] *)
Definition json_dumps (obj : json) : string := iterencode None 0 obj.
Definition json_dumps_indent (n : nat) (obj : json) : string := iterencode (Some n) 0 obj.

(** ** The [json] module: [loads] *)

Definition is_ws (c : ascii) : bool :=
  let n := N_of_ascii c in ((n =? 32) || (n =? 9) || (n =? 10) || (n =? 13))%N.

Definition is_digit (c : ascii) : bool :=
  let n := N_of_ascii c in ((48 <=? n) && (n <=? 57))%N.

Fixpoint skip_ws (s : string) : string :=
  match s with
  | String c s' => if is_ws c then skip_ws s' else s
  | EmptyString => s
  end.

(** The longest prefix of digits, and what follows it *)
Fixpoint take_digits (s : string) : string * string :=
  match s with
  | String c s' =>
      if is_digit c then let '(ds, rest) := take_digits s' in (String c ds, rest)
      else (EmptyString, s)
  | EmptyString => (EmptyString, s)
  end.

Definition hex_val (c : ascii) : option N :=
  let n := N_of_ascii c in
  (if (48 <=? n) && (n <=? 57) then Some (n - 48)
   else if (97 <=? n) && (n <=? 102) then Some (n - 87)
   else if (65 <=? n) && (n <=? 70) then Some (n - 55)
   else None)%N.

Definition take_hex4 (s : string) : option (N * string) :=
  match s with
  | String a (String b (String c (String d rest))) =>
      match hex_val a, hex_val b, hex_val c, hex_val d with
      | Some x, Some y, Some z, Some w => Some (((x * 16 + y) * 16 + z) * 16 + w, rest)%N
      | _, _, _, _ => None
      end
  | _ => None
  end.

(** After [\uXXXX] gave [cp]: a high surrogate followed by an escaped low
    surrogate is joined with it. *)
Definition join_surrogate (cp : N) (rest : string) : option (N * string) :=
  if ((55296 <=? cp) && (cp <=? 56319))%N then
    match rest with
    | String b (String u rest') =>
        if Ascii.eqb b backslash && Ascii.eqb u "u" then
          match take_hex4 rest' with
          | Some (c2, rest'') =>
              if ((56320 <=? c2) && (c2 <=? 57343))%N
              then Some (65536 + (cp - 55296) * 1024 + (c2 - 56320), rest'')%N
              else Some (cp, rest)
          | None => None
          end
        else Some (cp, rest)
    | _ => Some (cp, rest)
    end
  else Some (cp, rest).

Definition unescape (e : ascii) : option ascii :=
  if Ascii.eqb e dquote then Some dquote
  else if Ascii.eqb e backslash then Some backslash
  else if Ascii.eqb e "/" then Some "/"%char
  else if Ascii.eqb e "b" then Some "008"%char
  else if Ascii.eqb e "f" then Some "012"%char
  else if Ascii.eqb e "n" then Some "010"%char
  else if Ascii.eqb e "r" then Some "013"%char
  else if Ascii.eqb e "t" then Some "009"%char
  else None.

(** [scanstring] in strict mode, from the character after the opening quote:
    the decoded string and what follows the closing quote. *)
Fixpoint scanstring (fuel : nat) (s : string) : option (string * string) :=
  match fuel, s with
  | S fuel', String c r =>
      if Ascii.eqb c dquote then Some (EmptyString, r)
      else if Ascii.eqb c backslash then
        match r with
        | String e r' =>
            if Ascii.eqb e "u" then
              match take_hex4 r' with
              | Some (cp, r4) =>
                  match join_surrogate cp r4 with
                  | Some (cp', rest) =>
                      match scanstring fuel' rest with
                      | Some (str, rest') => Some (utf8_encode cp' +:+ str, rest')
                      | None => None
                      end
                  | None => None
                  end
              | None => None
              end
            else
              match unescape e, scanstring fuel' r' with
              | Some ch, Some (str, rest) => Some (String ch str, rest)
              | _, _ => None
              end
        | EmptyString => None
        end
      else if (N_of_ascii c <? 32)%N then None
      else
        match scanstring fuel' r with
        | Some (str, rest) => Some (String c str, rest)
        | None => None
        end
  | _, _ => None
  end.

(** [int(text)] for an optional minus sign followed by digits *)
Definition int_of_digits (ds : string) : Z :=
  fold_left (fun acc c => (acc * 10 + Z.of_N (N_of_ascii c - 48))%Z)
    (list_ascii_of_string ds) 0%Z.

Definition strip_prefix (p s : string) : option string :=
  if String.prefix p s
  then Some (String.substring (String.length p) (String.length s - String.length p) s)
  else None.

(** The parts of a number token: an optional minus sign; a zero, or a digit
    from 1 to 9 followed by digits; optionally a point and at least one
    digit; optionally [e] or [E], an optional sign and at least one digit.
    Each function gives the part it read and what follows it. *)
Definition number_sign (s : string) : string * string :=
  match s with
  | String c r => if Ascii.eqb c "-" then ("-", r) else (EmptyString, s)
  | EmptyString => (EmptyString, s)
  end.

Definition number_integer (s : string) : option (string * string) :=
  match s with
  | String d r =>
      if Ascii.eqb d "0" then Some ("0", r)
      else if is_digit d
      then let '(ds, rest) := take_digits r in Some (String d ds, rest)
      else None
  | EmptyString => None
  end.

Definition number_fraction (s : string) : string * string :=
  match s with
  | String dot (String d r) =>
      if Ascii.eqb dot "." && is_digit d
      then let '(ds, r') := take_digits r in (String dot (String d ds), r')
      else (EmptyString, s)
  | _ => (EmptyString, s)
  end.

Definition number_exponent (s : string) : string * string :=
  match s with
  | String e r =>
      if Ascii.eqb e "e" || Ascii.eqb e "E" then
        let '(sg, r') :=
          match r with
          | String c r0 =>
              if Ascii.eqb c "-" || Ascii.eqb c "+" then (str1 c, r0)
              else (EmptyString, r)
          | EmptyString => (EmptyString, r)
          end in
        let '(ds, r'') := take_digits r' in
        match ds with
        | EmptyString => (EmptyString, s)
        | _ => (String e (sg +:+ ds), r'')
        end
      else (EmptyString, s)
  | EmptyString => (EmptyString, s)
  end.

Section Decoder.
Context {rt : PyRuntime}.

(** The number token at the head of [s], if any.  Without fraction and
    exponent it is an [int], otherwise a [float]. *)
Definition match_number (s : string) : option (json * string) :=
  let '(sign, s1) := number_sign s in
  match number_integer s1 with
  | None => None
  | Some (integer, rest) =>
      let '(frac, rest1) := number_fraction rest in
      let '(exponent, rest2) := number_exponent rest1 in
      match frac, exponent with
      | EmptyString, EmptyString =>
          let n := int_of_digits integer in
          Some (JInt (if String.eqb sign "-" then (- n)%Z else n), rest2)
      | _, _ =>
          Some (JFloat (float_of_literal (sign +:+ integer +:+ frac +:+ exponent)), rest2)
      end
  end.

(** The named constants, tried before a number *)
Definition match_constant (s : string) : option (json * string) :=
  match strip_prefix "null" s with
  | Some rest => Some (JNull, rest)
  | None =>
  match strip_prefix "true" s with
  | Some rest => Some (JBool true, rest)
  | None =>
  match strip_prefix "false" s with
  | Some rest => Some (JBool false, rest)
  | None =>
  match strip_prefix "NaN" s with
  | Some rest => Some (JFloat (mkFloat "nan"), rest)
  | None =>
  match strip_prefix "Infinity" s with
  | Some rest => Some (JFloat (mkFloat "inf"), rest)
  | None =>
  match strip_prefix "-Infinity" s with
  | Some rest => Some (JFloat (mkFloat "-inf"), rest)
  | None => None
  end end end end end end.

(** [scan_once]: the value at the head of [s] and what follows it.
    [parse_array] and [parse_object] start at an item, the opening bracket
    and the whitespace after it already read. *)
Fixpoint scan_once (fuel : nat) (s : string) : option (json * string) :=
  match fuel, s with
  | S fuel', String c r =>
      if Ascii.eqb c dquote then
        match scanstring (String.length r) r with
        | Some (str, rest) => Some (JStr str, rest)
        | None => None
        end
      else if Ascii.eqb c "{" then
        match skip_ws r with
        | String c' r' =>
            if Ascii.eqb c' "}" then Some (JDict [], r')
            else parse_object fuel' (String c' r') []
        | EmptyString => None
        end
      else if Ascii.eqb c "[" then
        match skip_ws r with
        | String c' r' =>
            if Ascii.eqb c' "]" then Some (JList [], r')
            else parse_array fuel' (String c' r') []
        | EmptyString => None
        end
      else
        match match_constant s with
        | Some found => Some found
        | None => match_number s
        end
  | _, _ => None
  end
with parse_array (fuel : nat) (s : string) (acc : list json)
  : option (json * string) :=
  match fuel with
  | S fuel' =>
      match scan_once fuel' s with
      | Some (v, rest) =>
          match skip_ws rest with
          | String c r =>
              if Ascii.eqb c "]" then Some (JList (acc ++ [v]), r)
              else if Ascii.eqb c "," then parse_array fuel' (skip_ws r) (acc ++ [v])
              else None
          | EmptyString => None
          end
      | None => None
      end
  | O => None
  end
with parse_object (fuel : nat) (s : string) (acc : dict json)
  : option (json * string) :=
  match fuel, s with
  | S fuel', String q r =>
      if Ascii.eqb q dquote then
        match scanstring (String.length r) r with
        | Some (key, rest) =>
            match skip_ws rest with
            | String colon r1 =>
                if Ascii.eqb colon ":" then
                  match scan_once fuel' (skip_ws r1) with
                  | Some (v, rest') =>
                      match skip_ws rest' with
                      | String c r2 =>
                          if Ascii.eqb c "}" then Some (JDict (dict_set key v acc), r2)
                          else if Ascii.eqb c ","
                          then parse_object fuel' (skip_ws r2) (dict_set key v acc)
                          else None
                      | EmptyString => None
                      end
                  | None => None
                  end
                else None
            | EmptyString => None
            end
        | None => None
        end
      else None
  | _, _ => None
  end.

Definition utf8_bom : string :=
  String (ascii_of_N 239) (String (ascii_of_N 187) (str1 (ascii_of_N 191))).

(** Twice the number of characters bounds the depth of the calls of the
    scanner ([scanner_fuel_enough] below), so this fuel is never the reason
    for a text to be rejected. *)
Definition json_fuel (s : string) : nat := 2 * String.length s + 2.

(** [json.loads(s)]: the value, or [JSONDecodeError] for a text that is not
    JSON.  The decoder of the interpreter raises, before either, [ValueError]
    at an [int] token above the digit limit and [RecursionError] at a bracket
    nested too deep; these two outcomes are not embedded. *)
Definition json_loads (s : string) : result json :=
  if String.prefix utf8_bom s then Raise JSONDecodeError
  else
    match scan_once (json_fuel s) (skip_ws s) with
    | Some (obj, rest) =>
        match skip_ws rest with
        | EmptyString => Ok obj
        | String _ _ => Raise JSONDecodeError
        end
    | None => Raise JSONDecodeError
    end.

End Decoder.

(** A parse that succeeds with some fuel reads at least one character, and
    succeeds alike with any fuel of at least twice the number of characters
    it reads. *)
Definition fuel_enough {A : Type} (parse : nat -> string -> option (A * string))
    (n : nat) : Prop :=
  forall s v rest,
    parse n s = Some (v, rest) ->
    String.length rest < String.length s
    /\ forall k, 2 * (String.length s - String.length rest) <= k ->
                 parse k s = Some (v, rest).

(** ** [update_node_input] *)

(** [c[k]] is fetched and the object found there is updated in place by [f];
    the outcome is [c] holding the updated object. *)
Definition py_modify_item (c : json) (k : string) (f : json -> result json)
  : result json :=
  item <- py_getitem c k ;;
  item' <- f item ;;
  match c with
  | JDict kvs => Ok (JDict (dict_set k item' kvs))
  | _ => Raise TypeError
  end.

Section UpdateNodeInput.
Context {rt : PyRuntime}.

(** [try: json.loads(value) except json.JSONDecodeError: value] *)
Definition parse_or_raw (value : string) : result json :=
  match json_loads value with
  | Ok parsed => Ok parsed
  | Raise JSONDecodeError => Ok (JStr value)
  | Raise e => Raise e
  end.

Definition update_node_input (workflow : dict json)
    (node_id input_name value : string) : result (dict json) :=
  if negb (dict_has node_id workflow) then Ok workflow
  else
    parsed_value <- parse_or_raw value ;;
    updated <-
      py_modify_item (JDict workflow) node_id (fun node =>
        py_modify_item node "inputs" (fun inputs =>
          py_setitem inputs input_name parsed_value)) ;;
    match updated with
    | JDict workflow' => Ok workflow'
    | _ => Raise TypeError
    end.

End UpdateNodeInput.

(** ** [models.py]: the workflow models *)

Record WorkflowNode : Type := mkWorkflowNode {
  class_type : string;
  inputs : dict json
}.

Record Workflow : Type := mkWorkflow {
  nodes : dict WorkflowNode
}.

(** [WorkflowNode.model_dump()] *)
Definition WorkflowNode_model_dump (n : WorkflowNode) : json :=
  JDict [("class_type", JStr (class_type n)); ("inputs", JDict (inputs n))].

(** [WorkflowNode] built with the entries of [node_data] as keyword
    arguments: the argument has to be a mapping;
    [class_type] is required and has to be a [str]; [inputs] defaults to an
    empty dict and has to be a dict otherwise; other keys are ignored. *)
Definition WorkflowNode_validate (node_data : json) : result WorkflowNode :=
  match node_data with
  | JDict fields =>
      match dict_get "class_type" fields with
      | Some (JStr ct) =>
          match dict_get "inputs" fields with
          | None => Ok (mkWorkflowNode ct [])
          | Some (JDict ins) => Ok (mkWorkflowNode ct ins)
          | Some _ => Raise ValidationError
          end
      | _ => Raise ValidationError
      end
  | _ => Raise TypeError
  end.

Definition to_api_format (self : Workflow) : dict json :=
  map (fun kv => (fst kv, WorkflowNode_model_dump (snd kv))) (nodes self).

Definition from_api_format (data : dict json) : result Workflow :=
  nodes <- for_each (fun nodes item =>
                       node <- WorkflowNode_validate (snd item) ;;
                       Ok (dict_set (fst item) node nodes))
                    data [] ;;
  Ok (mkWorkflow nodes).

Definition Workflow_add_node (self : Workflow) (node_id class_type : string)
    (inputs : dict json) : Workflow :=
  mkWorkflow (dict_set node_id (mkWorkflowNode class_type inputs) (nodes self)).

(** ** [models.py]: the error model *)

Record ErrorResponse : Type := mkErrorResponse {
  error : string;
  code : string;
  details : option (dict json);
  suggestion : option string
}.

Definition ErrorResponse_not_found (resource : string) (suggestion : option string)
  : ErrorResponse :=
  mkErrorResponse (resource +:+ " not found") "NOT_FOUND" None suggestion.

Definition ErrorResponse_not_configured (setting : string) : ErrorResponse :=
  mkErrorResponse (setting +:+ " not configured") "NOT_CONFIGURED" None
    (Some ("Set the " +:+ setting +:+ " environment variable")).

Definition ErrorResponse_model_dump (e : ErrorResponse) : dict json :=
  [("error", JStr (error e));
   ("code", JStr (code e));
   ("details", match details e with Some d => JDict d | None => JNull end);
   ("suggestion", match suggestion e with Some s => JStr s | None => JNull end)].

(** ** The template catalog *)

Definition TEMPLATES : dict json :=
  [("empty", JDict []);
   ("fal-flux-dev", JDict
      [("1", JDict [("class_type", JStr "RemoteCheckpointLoader_fal");
                    ("inputs", JDict [("ckpt_name", JStr "fal-ai/flux/dev")])]);
       ("2", JDict [("class_type", JStr "StringInput_fal");
                    ("inputs", JDict [("text", JStr "A beautiful landscape")])]);
       ("3", JDict [("class_type", JStr "IntegerInput_fal");
                    ("inputs", JDict [("value", JInt 1024)])]);
       ("4", JDict [("class_type", JStr "IntegerInput_fal");
                    ("inputs", JDict [("value", JInt 1024)])]);
       ("5", JDict [("class_type", JStr "IntegerInput_fal");
                    ("inputs", JDict [("value", JInt 28)])]);
       ("6", JDict [("class_type", JStr "FloatInput_fal");
                    ("inputs", JDict [("value", JFloat (mkFloat "3.5"))])]);
       ("7", JDict [("class_type", JStr "SaveImage_fal");
                    ("inputs", JDict [("filename_prefix", JStr "flux_output");
                                      ("images", JList [JStr "1"; JInt 0])])])]);
   ("fal-flux-schnell", JDict
      [("1", JDict [("class_type", JStr "RemoteCheckpointLoader_fal");
                    ("inputs", JDict [("ckpt_name", JStr "fal-ai/flux/schnell")])]);
       ("2", JDict [("class_type", JStr "StringInput_fal");
                    ("inputs", JDict [("text", JStr "A beautiful landscape")])]);
       ("3", JDict [("class_type", JStr "SaveImage_fal");
                    ("inputs", JDict [("filename_prefix", JStr "flux_schnell");
                                      ("images", JList [JStr "1"; JInt 0])])])])].

(** ** Persistence: [load_workflow] and [save_workflow] *)

(** The part of [settings] the tools read; the module that loads it is not
    part of the embedded sources. *)
Record Settings : Type := mkSettings {
  workflows_dir : option string
}.

(** [not settings.workflows_dir] *)
Definition not_configured (settings : Settings) : bool :=
  match workflows_dir settings with
  | None => true
  | Some d => String.eqb d EmptyString
  end.

Definition configured_dir (settings : Settings) : string :=
  match workflows_dir settings with
  | Some d => d
  | None => EmptyString
  end.

(** What the tools ask of [pathlib] and of the file system, with the answer
    each call gets. *)
Record FileSystem : Type := mkFileSystem {
  (** [str(Path(dir) / name)] *)
  path_join : string -> string -> string;
  (** [path.parent] *)
  path_parent : string -> string;
  (** [path.exists()] *)
  path_exists : string -> bool;
  (** [open(path)] followed by reading the whole file *)
  read_text : string -> result string;
  (** [path.mkdir(parents=True, exist_ok=True)] *)
  mkdir_parents : string -> result unit;
  (** [open(path, "w")] followed by writing the text and closing *)
  write_text : string -> string -> result unit
}.

(** [try: body except Exception as e: handler(e)] *)
Definition try_except {A : Type} (body : result A) (handler : exn -> result A)
  : result A :=
  match body with
  | Ok a => Ok a
  | Raise e => handler e
  end.

Definition str_endswith (s suffix : string) : bool :=
  Nat.leb (String.length suffix) (String.length s) &&
  String.eqb
    (String.substring (String.length s - String.length suffix) (String.length suffix) s)
    suffix.

Section Persistence.
Context {rt : PyRuntime}.
Variable settings : Settings.
Variable os : FileSystem.
(** [str(e)] of a caught exception *)
Variable exception_str : exn -> string.

Definition load_workflow (workflow_name : string) : result json :=
  if not_configured settings
  then Ok (JDict (ErrorResponse_model_dump
                    (ErrorResponse_not_configured "COMFY_WORKFLOWS_DIR")))
  else
    let wf_path := path_join os (configured_dir settings) workflow_name in
    if negb (path_exists os wf_path)
    then Ok (JDict (ErrorResponse_model_dump
                      (ErrorResponse_not_found
                         ("Workflow '" +:+ workflow_name +:+ "'")
                         (Some "Use list_workflows() to see available workflows"))))
    else
      text <- read_text os wf_path ;;
      json_loads text.

Definition save_workflow (workflow : dict json) (name : string) : result string :=
  if not_configured settings
  then Ok "Error: COMFY_WORKFLOWS_DIR not configured"
  else
    let name := if negb (str_endswith name ".json") then name +:+ ".json" else name in
    let path := path_join os (configured_dir settings) name in
    try_except
      (_ <- mkdir_parents os (path_parent os path) ;;
       _ <- write_text os path (json_dumps_indent 2 (JDict workflow)) ;;
       Ok ("Saved: " +:+ path))
      (fun e => Ok ("Error: " +:+ exception_str e)).

End Persistence.

(** ** The store

    [TEMPLATES] is a module global: one object graph that every call of
    [get_workflow_template] reads.  Lists and dicts are mutable objects with
    an identity, kept in cells of a store; scalars are immutable and are held
    by value. *)

Abbreviation loc := nat (only parsing).

Inductive val : Type :=
| VNull
| VBool (b : bool)
| VInt (z : Z)
| VFloat (f : PyFloat)
| VStr (s : string)
| VRef (l : loc).

Inductive cell : Type :=
| CList (items : list val)
| CDict (entries : dict val).

Abbreviation heap := (list cell) (only parsing).

(** Builds the objects of a JSON tree, children first; a new object takes the
    next free location. *)
Section alloc_each.
Variable alloc : json -> heap -> val * heap.

Fixpoint alloc_list (xs : list json) (h : heap) : list val * heap :=
  match xs with
  | [] => ([], h)
  | x :: xs' =>
      let '(v, h1) := alloc x h in
      let '(vs, h2) := alloc_list xs' h1 in
      (v :: vs, h2)
  end.

Fixpoint alloc_dict (kvs : dict json) (h : heap) : dict val * heap :=
  match kvs with
  | [] => ([], h)
  | (k, x) :: kvs' =>
      let '(v, h1) := alloc x h in
      let '(vs, h2) := alloc_dict kvs' h1 in
      ((k, v) :: vs, h2)
  end.
End alloc_each.

Fixpoint alloc (j : json) (h : heap) : val * heap :=
  match j with
  | JNull => (VNull, h)
  | JBool b => (VBool b, h)
  | JInt z => (VInt z, h)
  | JFloat f => (VFloat f, h)
  | JStr s => (VStr s, h)
  | JList xs =>
      let '(vs, h') := alloc_list alloc xs h in
      (VRef (length h'), h' ++ [CList vs])
  | JDict kvs =>
      let '(vs, h') := alloc_dict alloc kvs h in
      (VRef (length h'), h' ++ [CDict vs])
  end.

(** Reads an object graph back as a JSON tree.  The fuel bounds the nesting;
    [content] gives one more than the number of cells, which an acyclic
    graph cannot exceed, so that [None] stands for a circular reference. *)
Section reify_each.
Variable reify : val -> option json.

Fixpoint reify_list (vs : list val) : option (list json) :=
  match vs with
  | [] => Some []
  | v :: vs' =>
      match reify v, reify_list vs' with
      | Some j, Some js => Some (j :: js)
      | _, _ => None
      end
  end.

Fixpoint reify_dict (kvs : dict val) : option (dict json) :=
  match kvs with
  | [] => Some []
  | (k, v) :: kvs' =>
      match reify v, reify_dict kvs' with
      | Some j, Some js => Some ((k, j) :: js)
      | _, _ => None
      end
  end.
End reify_each.

Fixpoint reify (fuel : nat) (h : heap) (v : val) : option json :=
  match v with
  | VNull => Some JNull
  | VBool b => Some (JBool b)
  | VInt z => Some (JInt z)
  | VFloat f => Some (JFloat f)
  | VStr s => Some (JStr s)
  | VRef l =>
      match fuel with
      | O => None
      | S fuel' =>
          match h !! l with
          | Some (CList vs) =>
              match reify_list (reify fuel' h) vs with
              | Some js => Some (JList js)
              | None => None
              end
          | Some (CDict kvs) =>
              match reify_dict (reify fuel' h) kvs with
              | Some js => Some (JDict js)
              | None => None
              end
          | None => None
          end
      end
  end.

Definition content (h : heap) (v : val) : option json := reify (S (length h)) h v.

(** The cells an object refers to, and the cells reachable from a value *)
Definition val_refs (v : val) : list loc :=
  match v with
  | VRef l => [l]
  | _ => []
  end.

Definition cell_refs (c : cell) : list loc :=
  match c with
  | CList vs => flat_map val_refs vs
  | CDict kvs => flat_map (fun kv => val_refs (snd kv)) kvs
  end.

Inductive reachable (h : heap) : loc -> loc -> Prop :=
| reach_here l : reachable h l l
| reach_step l c l' l'' :
    h !! l = Some c -> In l' (cell_refs c) -> reachable h l' l'' -> reachable h l l''.

Definition reaches (h : heap) (v : val) (l : loc) : Prop :=
  exists l0, In l0 (val_refs v) /\ reachable h l0 l.

(** What a caller can do to objects it owns: store into one of their cells,
    or create a new object, which it then owns too. *)
Inductive mutated : (loc -> Prop) -> heap -> heap -> Prop :=
| mutated_done own h : mutated own h h
| mutated_store own h l c h' :
    own l -> l < length h -> mutated own (<[l := c]> h) h' -> mutated own h h'
| mutated_alloc own h c h' :
    mutated (fun l => own l \/ l = length h) (h ++ [c]) h' -> mutated own h h'.

(** Two stores hold the same cells at the locations from [a] up to [b]. *)
Definition agree_on (a b : nat) (h h' : heap) : Prop :=
  forall l, a <= l < b -> h' !! l = h !! l.

(** The cells from [a] up to [b] refer to cells of that range only. *)
Definition region_closed (a b : nat) (h : heap) : Prop :=
  forall l c l', a <= l < b -> h !! l = Some c -> In l' (cell_refs c) -> a <= l' < b.

(** What [alloc] built for [j] reads back as [j], in every store that holds
    the new cells, with fuel above their number. *)
Definition reads_back (j : json) : Prop :=
  forall h v h1, alloc j h = (v, h1) ->
  forall h' m, agree_on (length h) (length h1) h1 h' ->
               length h1 - length h < m ->
               reify m h' v = Some j.

(** The objects [alloc] builds for [j] refer to each other only. *)
Definition builds_closed (j : json) : Prop :=
  forall h v h1, alloc j h = (v, h1) ->
  (forall l, In l (val_refs v) -> length h <= l < length h1)
  /\ region_closed (length h) (length h1) h1.

(** [obj[k] = v] and [del obj[k]] on a dict object of the store *)
Definition setitem_in_place (h : heap) (l : loc) (k : string) (v : val)
  : result heap :=
  match h !! l with
  | Some (CDict kvs) => Ok (<[l := CDict (dict_set k v kvs)]> h)
  | _ => Raise TypeError
  end.

Definition delitem_in_place (h : heap) (l : loc) (k : string) : result heap :=
  match h !! l with
  | Some (CDict kvs) =>
      if dict_has k kvs then Ok (<[l := CDict (dict_del k kvs)]> h)
      else Raise KeyError
  | _ => Raise TypeError
  end.

(** Module initialisation evaluates the dict display of [TEMPLATES]. *)
Definition module_init : val * heap := alloc (JDict TEMPLATES) [].
Definition TEMPLATES_ref : val := fst module_init.
Definition initial_heap : heap := snd module_init.

(** No cell of the catalog has been stored into. *)
Definition catalog_intact (h : heap) : Prop :=
  forall l, l < length initial_heap -> h !! l = initial_heap !! l.

Definition dict_cell (h : heap) (v : val) : result (dict val) :=
  match v with
  | VRef l =>
      match h !! l with
      | Some (CDict kvs) => Ok kvs
      | _ => Raise TypeError
      end
  | _ => Raise TypeError
  end.

Section Templates.
Context {rt : PyRuntime}.

Definition get_workflow_template (template_name : string) (h : heap)
  : result val * heap :=
  match dict_cell h TEMPLATES_ref with
  | Raise e => (Raise e, h)
  | Ok templates =>
      if negb (dict_has template_name templates) then
        let err :=
          ErrorResponse_not_found
            ("Template '" +:+ template_name +:+ "'")
            (Some ("Available: " +:+ py_str (JList (map JStr (dict_keys templates))))) in
        let '(v, h') := alloc (JDict (ErrorResponse_model_dump err)) h in
        (Ok v, h')
      else
        match dict_get template_name templates with
        | None => (Raise KeyError, h)
        | Some entry =>
            (* json.loads(json.dumps(TEMPLATES[template_name])) *)
            match content h entry with
            | None => (Raise ValueError, h)
            | Some tree =>
                match json_loads (json_dumps tree) with
                | Raise e => (Raise e, h)
                | Ok copy => let '(v, h') := alloc copy h in (Ok v, h')
                end
            end
        end
  end.

(** [list_templates] *)
Definition list_templates (h : heap) : result (list string) :=
  match dict_cell h TEMPLATES_ref with
  | Raise e => Raise e
  | Ok templates => Ok (dict_keys templates)
  end.

End Templates.

(** ** Notions used in the statements *)

(** A node that is a JSON object whose [inputs], when present, is an object *)
Definition node_is_object (node : json) : bool :=
  match node with
  | JDict fields =>
      match dict_get "inputs" fields with
      | None => true
      | Some (JDict _) => true
      | Some _ => false
      end
  | _ => false
  end.

Definition graph_of_objects (workflow : dict json) : Prop :=
  Forall (fun item => node_is_object (snd item) = true) workflow.

(** The issues the specification asks for, node by node *)
Definition lacks (field : string) (node : json) : bool :=
  match node with
  | JDict fields => negb (dict_has field fields)
  | _ => true
  end.

Definition node_inputs (node : json) : dict json :=
  match node with
  | JDict fields =>
      match dict_get "inputs" fields with
      | Some (JDict ins) => ins
      | _ => []
      end
  | _ => []
  end.

Definition is_pair (value : json) : bool :=
  match value with
  | JList xs => Nat.eqb (length xs) 2
  | _ => false
  end.

Definition first_element (value : json) : json :=
  match value with
  | JList (x :: _) => x
  | _ => JNull
  end.

Section SpecIssues.
Context {rt : PyRuntime}.

(** An array of exactly two elements whose first element, as a string, is
    not a node id *)
Definition dangling (node_ids : list string) (value : json) : bool :=
  is_pair value && negb (str_in (py_str (first_element value)) node_ids).

Definition issues_of_input (node_ids : list string) (node_id : string)
    (item : string * json) : list string :=
  if dangling node_ids (snd item)
  then ["Node " +:+ node_id +:+ "." +:+ fst item +:+ ": references non-existent node "
        +:+ py_str (first_element (snd item))]
  else [].

Definition issues_of_node (node_ids : list string) (item : string * json)
  : list string :=
  (if lacks "class_type" (snd item)
   then ["Node " +:+ fst item +:+ ": missing class_type"] else [])
  ++ (if lacks "inputs" (snd item)
      then ["Node " +:+ fst item +:+ ": missing inputs"] else [])
  ++ flat_map (issues_of_input node_ids (fst item)) (node_inputs (snd item)).

Definition issues_of_graph (workflow : dict json) : list string :=
  flat_map (issues_of_node (dict_keys workflow)) workflow.

(** Every node has both fields and every connection has its source node *)
Definition graph_well_formed (workflow : dict json) : bool :=
  forallb (fun item =>
             negb (lacks "class_type" (snd item))
             && negb (lacks "inputs" (snd item))
             && forallb (fun inp => negb (dangling (dict_keys workflow) (snd inp)))
                  (node_inputs (snd item)))
          workflow.
End SpecIssues.

(** The nodes on which [validate_workflow] completes, and the graphs on which
    [update_node_input] does *)
Definition validate_tolerates (node : json) : bool :=
  match node with
  | JDict fields =>
      match dict_get "inputs" fields with
      | None => true
      | Some (JDict _) => true
      | Some _ => false
      end
  | JList xs =>
      negb (existsb (fun e => match e with JStr s => String.eqb s "inputs" | _ => false end) xs)
  | JStr s => negb (str_contains "inputs" s)
  | _ => false
  end.

Definition update_tolerates (workflow : dict json) (node_id : string) : bool :=
  match dict_get node_id workflow with
  | None => true
  | Some (JDict fields) =>
      match dict_get "inputs" fields with
      | Some (JDict _) => true
      | _ => false
      end
  | Some _ => false
  end.

(** Equality of JSON values up to the order of the keys of objects *)
#[local] Unset Elimination Schemes.
Inductive deep_eq : json -> json -> Prop :=
| deep_eq_same j : deep_eq j j
| deep_eq_list xs ys : Forall2 deep_eq xs ys -> deep_eq (JList xs) (JList ys)
| deep_eq_dict kvs1 kvs2 kvs2' :
    Permutation kvs2 kvs2' ->
    Forall2 (fun a b => fst a = fst b /\ deep_eq (snd a) (snd b)) kvs1 kvs2' ->
    deep_eq (JDict kvs1) (JDict kvs2).
#[local] Set Elimination Schemes.

(** The wire format: each node is an object with exactly a [class_type]
    string and an [inputs] object. *)
Definition node_conforms (node : json) : Prop :=
  exists ct ins,
    node = JDict [("class_type", JStr ct); ("inputs", JDict ins)]
    \/ node = JDict [("inputs", JDict ins); ("class_type", JStr ct)].

Definition wire_document (doc : dict json) : Prop :=
  dict_ok doc /\ Forall (fun item => node_conforms (snd item)) doc.

(** The first element of a two-element array is a string: [str] returns it
    as it is, whatever the limits of the interpreter. *)
Definition source_is_str (value : json) : bool :=
  negb (is_pair value)
  || match first_element value with
     | JStr _ => true
     | _ => false
     end.

Definition sources_are_str (workflow : dict json) : bool :=
  forallb (fun item => forallb (fun inp => source_is_str (snd inp))
                         (node_inputs (snd item)))
          workflow.

(** A text that [json.loads] reads without entering a bracket and without a
    digit string that the limit on digits could refuse: no bracket, no brace,
    and at most 640 characters, the threshold
    [sys.int_info.str_digits_check_threshold] under which [int] converts
    whatever the limit is set to. *)
Definition scalar_text (text : string) : bool :=
  Nat.leb (String.length text) 640
  && negb (has_char "["%char text)
  && negb (has_char "{"%char text).

(** ** Sample values *)

Definition sample_runtime : PyRuntime :=
  {| float_of_literal := mkFloat; unicode_isprintable := fun _ => true |}.

Definition example_graph : dict json :=
  [("1", JDict [("class_type", JStr "A"); ("inputs", JDict [])]);
   ("2", JDict [("class_type", JStr "B");
                ("inputs", JDict [("x", JList [JStr "1"; JInt 0])])])].

(** The text of the connection from output 0 of node 1 *)
Definition connection_text : string :=
  "[" +:+ str1 dquote +:+ "1" +:+ str1 dquote +:+ ", 0]".

Definition flawed_graph : dict json :=
  [("a", JDict [("inputs", JDict [("x", JList [JInt 7; JInt 0]); ("y", JStr "b")])]);
   ("b", JDict [("class_type", JStr "B")])].

Definition example_workflow : Workflow :=
  mkWorkflow [("1", mkWorkflowNode "A" []);
              ("2", mkWorkflowNode "B" [("x", JList [JStr "1"; JInt 0])])].

Definition example_document : dict json :=
  [("1", JDict [("inputs", JDict []); ("class_type", JStr "A")]);
   ("2", JDict [("class_type", JStr "B");
                ("inputs", JDict [("x", JList [JStr "1"; JInt 0])])])].

Definition example_settings : Settings := mkSettings (Some "/workflows").

(** A directory that holds one file, [broken.json], whose text is an opening
    brace. *)
Definition example_fs : FileSystem :=
  {| path_join := fun d n => d +:+ "/" +:+ n;
     path_parent := fun _ => "/workflows";
     path_exists := fun p => String.eqb p "/workflows/broken.json";
     read_text := fun _ => Ok "{";
     mkdir_parents := fun _ => Ok tt;
     write_text := fun _ _ => Ok tt |}.

(** ** Notions used in the further properties *)

Section FurtherNotions.
Context {rt : PyRuntime}.

(** Some input of the node is a two-element array whose first element, as a
    string, is [node_id]. *)
Definition refers_to (node_id : string) (node : json) : bool :=
  existsb (fun inp => is_pair (snd inp)
                      && String.eqb (py_str (first_element (snd inp))) node_id)
          (node_inputs node).

(** The node has both fields and none of its inputs dangles. *)
Definition node_well_formed (node_ids : list string) (node : json) : bool :=
  negb (lacks "class_type" node)
  && negb (lacks "inputs" node)
  && forallb (fun inp => negb (dangling node_ids (snd inp))) (node_inputs node).

End FurtherNotions.

(** The node data that [WorkflowNode] accepts, and what is kept of it *)
Definition node_validates (node_data : json) : bool :=
  match node_data with
  | JDict fields =>
      match dict_get "class_type" fields with
      | Some (JStr _) =>
          match dict_get "inputs" fields with
          | None => true
          | Some (JDict _) => true
          | Some _ => false
          end
      | _ => false
      end
  | _ => false
  end.

Definition kept_of_node (node_data : json) : json :=
  match node_data with
  | JDict fields =>
      JDict [("class_type",
              match dict_get "class_type" fields with
              | Some ct => ct
              | None => JNull
              end);
             ("inputs",
              match dict_get "inputs" fields with
              | Some ins => ins
              | None => JDict []
              end)]
  | _ => node_data
  end.

(** The characters a JSON value can start with *)
Definition value_start (c : ascii) : bool :=
  is_digit c
  || existsb (Ascii.eqb c) (dquote :: list_ascii_of_string "{[-ntfNI").


(** ** Documents that [json.dumps] writes and [json.loads] reads back *)

(** The separators of [_iterencode], by the indentation and the level *)
Definition newline_indent (indent : option nat) (lvl : nat) : string :=
  match indent with
  | Some n => String newline (spaces (n * lvl))
  | None => EmptyString
  end.

Definition item_separator (indent : option nat) (level : nat) : string :=
  match indent with
  | Some _ => "," +:+ newline_indent indent (S level)
  | None => ", "
  end.

(** What [_iterencode] writes after an item of a container: the remaining
    items, each after a separator, and the closing bracket. *)
Fixpoint items_after (sep closing : string) (items : list string) : string :=
  match items with
  | [] => closing
  | item :: items' => sep +:+ item +:+ items_after sep closing items'
  end.

Definition ascii_only (s : string) : bool :=
  forallb (fun c => (N_of_ascii c <? 128)%N) (list_ascii_of_string s).

Fixpoint keys_distinct (ks : list string) : bool :=
  match ks with
  | [] => true
  | k :: ks' => negb (str_in k ks') && keys_distinct ks'
  end.

(** A text after which a value ends: nothing, or a comma, a closing bracket
    or a line break. *)
Definition ends_value (rest : string) : bool :=
  match rest with
  | EmptyString => true
  | String c _ => existsb (Ascii.eqb c) [","; "]"; "}"; newline]%char
  end.

Section Plain.
Context {rt : PyRuntime}.

(** The [repr] of the float is a number token of JSON, and [float] of that
    token is the float again. *)
Definition float_reads_back (f : PyFloat) : bool :=
  match match_number (float_repr f) with
  | Some (JFloat f', EmptyString) => String.eqb (float_repr f') (float_repr f)
  | _ => false
  end.

(** Values whose strings and keys are ASCII, whose objects have no key twice
    and whose floats read back from their [repr]. *)
Fixpoint json_plain (j : json) : bool :=
  match j with
  | JNull | JBool _ | JInt _ => true
  | JFloat f => float_reads_back f
  | JStr s => ascii_only s
  | JList xs => forallb json_plain xs
  | JDict kvs =>
      keys_distinct (map fst kvs)
      && forallb (fun kv => ascii_only (fst kv) && json_plain (snd kv)) kvs
  end.

(** The value is read back from what [_iterencode] writes for it, whatever
    the indentation and the level, before any text at which a value ends. *)
Definition read_back (v : json) : Prop :=
  forall indent level rest,
    ends_value rest = true ->
    exists n, scan_once n (iterencode indent level v +:+ rest) = Some (v, rest).

End Plain.



(** * Properties *)

Ltac break_match :=
  match goal with
  | |- context [match ?x with _ => _ end] => destruct x eqn:?
  | |- context [if ?x then _ else _] => destruct x eqn:?
  end.

(** ** Dictionaries *)

Lemma dict_has_get {A : Type} (k : string) (d : dict A) :
  dict_has k d = true <-> exists v, dict_get k d = Some v.
Proof.
  unfold dict_has. destruct (dict_get k d) as [v|]; split.
  - eauto.
  - reflexivity.
  - discriminate.
  - intros [v Hv]. discriminate.
Qed.

Lemma dict_has_false {A : Type} (k : string) (d : dict A) :
  dict_has k d = false <-> dict_get k d = None.
Proof.
  unfold dict_has. destruct (dict_get k d); split; congruence.
Qed.

Lemma dict_get_not_key {A : Type} (k : string) (d : dict A) :
  ~ In k (dict_keys d) -> dict_get k d = None.
Proof.
  induction d as [|[k' v'] d IH]; simpl; [reflexivity|].
  intros Hn. destruct (String.eqb_spec k' k) as [->|Hne].
  - exfalso. apply Hn. now left.
  - apply IH. intros Hin. apply Hn. now right.
Qed.

Lemma str_in_In (s : string) (l : list string) : str_in s l = true <-> In s l.
Proof.
  induction l as [|x l IH]; simpl.
  - split; [discriminate | tauto].
  - destruct (String.eqb_spec x s) as [->|Hne].
    + split; auto.
    + rewrite IH. split; [auto | intros [H|H]; [congruence | exact H]].
Qed.

(** ** [validate_workflow] on graphs of objects *)

Section ValidateFacts.
Context {rt : PyRuntime}.

Lemma check_input_issues node_ids node_id acc item :
  check_input node_ids node_id acc item
  = acc ++ issues_of_input node_ids node_id item.
Proof.
  destruct item as [input_name value].
  unfold check_input, issues_of_input, dangling, is_pair, first_element; simpl.
  destruct value as [| | | | |xs|]; simpl; try (now rewrite app_nil_r).
  destruct xs as [|v0 [|v1 [|v2 xs]]]; simpl; try (now rewrite app_nil_r).
  destruct (str_in (py_str v0) node_ids); simpl; [now rewrite app_nil_r | reflexivity].
Qed.

Lemma fold_check_input node_ids node_id items acc :
  fold_left (check_input node_ids node_id) items acc
  = acc ++ flat_map (issues_of_input node_ids node_id) items.
Proof.
  revert acc. induction items as [|item items IH]; intros acc; simpl.
  - now rewrite app_nil_r.
  - rewrite IH, check_input_issues. now rewrite <- app_assoc.
Qed.

Lemma check_node_object node_ids acc node_id node :
  node_is_object node = true ->
  check_node node_ids acc (node_id, node)
  = Ok (acc ++ issues_of_node node_ids (node_id, node)).
Proof.
  destruct node as [| | | | | |fields]; simpl; try discriminate.
  unfold check_node, issues_of_node, lacks, node_inputs, py_in, py_getitem,
    py_items, bind, dict_has; simpl.
  destruct (dict_get "inputs" fields) as [[| | | | | |ins]|] eqn:Hin;
    try discriminate; intros _; simpl;
    destruct (dict_get "class_type" fields); simpl;
    rewrite ?fold_check_input, ?app_nil_r, <- ?app_assoc; reflexivity.
Qed.

Lemma for_each_check_node node_ids workflow acc :
  graph_of_objects workflow ->
  for_each (check_node node_ids) workflow acc
  = Ok (acc ++ flat_map (issues_of_node node_ids) workflow).
Proof.
  intros Hobj. revert acc.
  induction Hobj as [|[node_id node] workflow Hnode _ IH]; intros acc;
    cbn [for_each flat_map].
  - now rewrite app_nil_r.
  - rewrite check_node_object by exact Hnode.
    rewrite IH. now rewrite <- app_assoc.
Qed.

End ValidateFacts.

(** C1, as the code has it.  On a graph whose nodes are objects whose
    [inputs], when present, is an object, every run of [validate_workflow]
    that returns gives the record in which [node_count] is the number of
    nodes, [issues] holds, node by node, one entry for a missing
    [class_type], one for a missing [inputs] and one for every input that is
    an array of two elements whose first element, as a string, is no node id,
    and [valid] tells whether [issues] is empty.  The run returns when the
    first element of every such array is a string. *)
Theorem validate_workflow_reports {rt : PyRuntime} (workflow : dict json) :
  graph_of_objects workflow ->
  (forall r,
     validate_workflow workflow = Ok r ->
     node_count r = length workflow
     /\ issues r = issues_of_graph workflow
     /\ (valid r = true <-> issues r = []))
  /\ (sources_are_str workflow = true ->
      exists r, validate_workflow workflow = Ok r).
Proof.
  intros Hobj.
  assert (validate_workflow workflow
          = Ok {| valid := Nat.eqb (length (issues_of_graph workflow)) 0;
                  node_count := length workflow;
                  issues := issues_of_graph workflow |}) as Hcall.
  { unfold validate_workflow. rewrite for_each_check_node by exact Hobj.
    reflexivity. }
  split.
  - intros r Hr. rewrite Hcall in Hr. injection Hr as <-.
    cbn [node_count issues valid].
    split; [reflexivity|]. split; [reflexivity|].
    destruct (issues_of_graph workflow); simpl; split; congruence.
  - intros _. eexists. exact Hcall.
Qed.

Lemma validate_workflow_reports_witness :
  graph_of_objects flawed_graph
  /\ exists r,
       validate_workflow (rt := sample_runtime) flawed_graph = Ok r
       /\ node_count r = 2
       /\ issues r = ["Node a: missing class_type";
                      "Node a.x: references non-existent node 7";
                      "Node b: missing inputs"]
       /\ (valid r = true <-> issues r = []).
Proof.
  assert (H : graph_of_objects flawed_graph) by (repeat constructor).
  split; [exact H|].
  eexists. split; [reflexivity|].
  exact (proj1 (validate_workflow_reports (rt := sample_runtime) flawed_graph H)
           _ eq_refl).
Defined.

(** C1 as stated fails: a node whose [inputs] is there and is no mapping
    lacks an inputs mapping, and the call raises instead of reporting it. *)
Lemma validate_workflow_raises_on_null_inputs :
  validate_workflow (rt := sample_runtime)
    [("1", JDict [("class_type", JStr "A"); ("inputs", JNull)])]
  = Raise AttributeError.
Proof. vm_compute. reflexivity. Qed.

(** ** [remove_node] *)

Lemma dict_del_filter {A : Type} (k : string) (d : dict A) :
  dict_del k d = List.filter (fun item => negb (String.eqb (fst item) k)) d.
Proof.
  induction d as [|[k' v] d IH]; simpl; [reflexivity|].
  destruct (String.eqb k' k); simpl; now rewrite IH.
Qed.

Lemma dict_del_absent {A : Type} (k : string) (d : dict A) :
  dict_get k d = None -> dict_del k d = d.
Proof.
  induction d as [|[k' v] d IH]; simpl; [reflexivity|].
  destruct (String.eqb k' k); [discriminate|].
  intros H. now rewrite IH.
Qed.

Lemma dict_get_del_same {A : Type} (k : string) (d : dict A) :
  dict_get k (dict_del k d) = None.
Proof.
  induction d as [|[k' v] d IH]; simpl; [reflexivity|].
  destruct (String.eqb k' k) eqn:E; simpl; [exact IH|].
  now rewrite E.
Qed.

Lemma dict_get_del_other {A : Type} (k k0 : string) (d : dict A) :
  k0 <> k -> dict_get k0 (dict_del k d) = dict_get k0 d.
Proof.
  intros Hne. induction d as [|[k' v] d IH]; simpl; [reflexivity|].
  destruct (String.eqb_spec k' k) as [->|Hk]; simpl.
  - destruct (String.eqb_spec k k0) as [->|_]; [congruence | exact IH].
  - now rewrite IH.
Qed.

Lemma dict_del_length {A : Type} (k : string) (d : dict A) (v : A) :
  dict_ok d -> dict_get k d = Some v -> S (length (dict_del k d)) = length d.
Proof.
  unfold dict_ok. induction d as [|[k' v'] d IH]; simpl; [discriminate|].
  intros Hnd Hget. apply List.NoDup_cons_iff in Hnd as [Hnotin Hnd].
  destruct (String.eqb_spec k' k) as [->|Hk]; simpl.
  - rewrite dict_del_absent; [reflexivity|]. now apply dict_get_not_key.
  - f_equal. now apply IH.
Qed.

(** C5. [remove_node] deletes the entry of [node_id] and nothing else: the
    other entries stay as they are and in their order, an absent id leaves the
    graph as it is, and no connection is repaired.  On the graph of the
    specification, removing node 1 and validating gives one issue, for input
    x of node 2 and target 1. *)
Theorem remove_node_only_deletes {rt : PyRuntime} (workflow : dict json)
    (node_id : string) :
  remove_node workflow node_id
  = List.filter (fun item => negb (String.eqb (fst item) node_id)) workflow
  /\ (dict_has node_id workflow = false -> remove_node workflow node_id = workflow)
  /\ dict_get node_id (remove_node workflow node_id) = None
  /\ (forall k, k <> node_id ->
        dict_get k (remove_node workflow node_id) = dict_get k workflow)
  /\ (dict_ok workflow -> dict_has node_id workflow = true ->
        S (length (remove_node workflow node_id)) = length workflow)
  /\ remove_node example_graph "1"
     = [("2", JDict [("class_type", JStr "B");
                     ("inputs", JDict [("x", JList [JStr "1"; JInt 0])])])]
  /\ validate_workflow (remove_node example_graph "1")
     = Ok {| valid := false;
             node_count := 1;
             issues := ["Node 2.x: references non-existent node 1"] |}.
Proof.
  unfold remove_node.
  destruct (dict_has node_id workflow) eqn:Hhas.
  - apply dict_has_get in Hhas as [v Hv].
    repeat split; try reflexivity.
    + apply dict_del_filter.
    + discriminate.
    + apply dict_get_del_same.
    + intros k Hk. now apply dict_get_del_other.
    + intros Hok _. now apply dict_del_length with (v := v).
  - apply dict_has_false in Hhas.
    repeat split; try reflexivity.
    + rewrite <- dict_del_filter. symmetry. now apply dict_del_absent.
    + exact Hhas.
    + discriminate.
Qed.

Lemma remove_node_only_deletes_witness :
  dict_ok example_graph /\ dict_has "1" example_graph = true
  /\ S (length (remove_node example_graph "1")) = length example_graph.
Proof.
  assert (Hok : dict_ok example_graph).
  { unfold dict_ok. simpl. repeat constructor; simpl; intuition discriminate. }
  split; [exact Hok|]. split; [reflexivity|].
  exact (proj1 (proj2 (proj2 (proj2 (proj2
           (remove_node_only_deletes (rt := sample_runtime) example_graph "1")))))
         Hok eq_refl).
Defined.

(** ** The fuel of [json_loads] is enough *)

Lemma skip_ws_length (s : string) : String.length (skip_ws s) <= String.length s.
Proof.
  induction s as [|c s IH]; simpl; [lia|].
  destruct (is_ws c); simpl; lia.
Qed.

Lemma take_digits_length (s ds rest : string) :
  take_digits s = (ds, rest) -> String.length rest <= String.length s.
Proof.
  revert ds rest. induction s as [|c s IH]; intros ds rest; simpl.
  - intros [= <- <-]. simpl. lia.
  - destruct (is_digit c).
    + destruct (take_digits s) as [ds' rest'] eqn:E. intros [= <- <-].
      specialize (IH _ _ eq_refl). lia.
    + intros [= <- <-]. simpl. lia.
Qed.

Ltac digits_lengths :=
  repeat match goal with
         | H : take_digits _ = (_, _) |- _ => apply take_digits_length in H
         end.

Lemma substring_from_length (n : nat) (s : string) :
  n <= String.length s ->
  String.length (String.substring n (String.length s - n) s) = String.length s - n.
Proof.
  revert n. induction s as [|c s IH]; intros [|n] Hn; simpl in *; try lia.
  - f_equal. specialize (IH 0). rewrite Nat.sub_0_r in IH. apply IH. lia.
  - apply IH. lia.
Qed.

Lemma prefix_length (p s : string) :
  String.prefix p s = true -> String.length p <= String.length s.
Proof.
  revert s. induction p as [|c p IH]; intros [|d s]; simpl; try lia; try discriminate.
  destruct (ascii_dec c d); [|discriminate]. intros H. apply IH in H. lia.
Qed.

Lemma strip_prefix_length (p s rest : string) :
  strip_prefix p s = Some rest ->
  String.length rest + String.length p = String.length s.
Proof.
  unfold strip_prefix. destruct (String.prefix p s) eqn:E; [|discriminate].
  intros [= <-]. apply prefix_length in E.
  rewrite substring_from_length by exact E. lia.
Qed.

Lemma match_constant_length (s : string) (v : json) (rest : string) :
  match_constant s = Some (v, rest) -> String.length rest < String.length s.
Proof.
  unfold match_constant.
  repeat match goal with
         | |- context [strip_prefix ?p s] =>
             let E := fresh "E" in
             destruct (strip_prefix p s) eqn:E;
             [apply strip_prefix_length in E; simpl in E; intros [= <- <-]; lia |]
         end.
  discriminate.
Qed.

Lemma number_sign_length (s sign rest : string) :
  number_sign s = (sign, rest) -> String.length rest <= String.length s.
Proof.
  unfold number_sign. repeat break_match; intros [= <- <-]; simpl; lia.
Qed.

Lemma number_integer_length (s integer rest : string) :
  number_integer s = Some (integer, rest) -> String.length rest < String.length s.
Proof.
  unfold number_integer. repeat break_match; try discriminate;
    intros [= <- <-]; digits_lengths; simpl; lia.
Qed.

Lemma number_fraction_length (s frac rest : string) :
  number_fraction s = (frac, rest) -> String.length rest <= String.length s.
Proof.
  unfold number_fraction. repeat break_match; intros [= <- <-];
    digits_lengths; simpl; lia.
Qed.

Lemma number_exponent_length (s exponent rest : string) :
  number_exponent s = (exponent, rest) -> String.length rest <= String.length s.
Proof.
  unfold number_exponent. repeat break_match; intros [= <- <-];
    repeat match goal with
           | H : context [match ?x with _ => _ end] |- _ => destruct x eqn:?
           | H : context [if ?x then _ else _] |- _ => destruct x eqn:?
           end;
    repeat match goal with
           | H : (_, _) = (_, _) |- _ => injection H as <- <-
           end;
    digits_lengths; simpl in *; lia.
Qed.

Lemma match_number_length {rt : PyRuntime} (s : string) (v : json) (rest : string) :
  match_number s = Some (v, rest) -> String.length rest < String.length s.
Proof.
  unfold match_number.
  destruct (number_sign s) as [sign s1] eqn:E1.
  destruct (number_integer s1) as [[integer r0]|] eqn:E2; [|discriminate].
  destruct (number_fraction r0) as [frac r1] eqn:E3.
  destruct (number_exponent r1) as [exponent r2] eqn:E4.
  apply number_sign_length in E1. apply number_integer_length in E2.
  apply number_fraction_length in E3. apply number_exponent_length in E4.
  repeat break_match; intros [= <- <-]; lia.
Qed.

Lemma take_hex4_length (s : string) (n : N) (rest : string) :
  take_hex4 s = Some (n, rest) -> String.length rest + 4 = String.length s.
Proof.
  unfold take_hex4. repeat break_match; try discriminate.
  intros [= <- <-]. simpl. lia.
Qed.

Lemma join_surrogate_length (cp cp' : N) (s rest : string) :
  join_surrogate cp s = Some (cp', rest) -> String.length rest <= String.length s.
Proof.
  unfold join_surrogate. repeat break_match; try discriminate;
    intros [= <- <-]; simpl; try lia.
  match goal with H : take_hex4 _ = Some _ |- _ => apply take_hex4_length in H end.
  lia.
Qed.

Lemma scanstring_length (fuel : nat) (s str rest : string) :
  scanstring fuel s = Some (str, rest) -> String.length rest < String.length s.
Proof.
  revert s str rest. induction fuel as [|fuel IH]; intros s str rest; simpl;
    [discriminate|].
  destruct s as [|c r]; [discriminate|].
  destruct (Ascii.eqb c dquote); [intros [= <- <-]; simpl; lia|].
  destruct (Ascii.eqb c backslash).
  - destruct r as [|e r']; [discriminate|].
    destruct (Ascii.eqb e "u").
    + destruct (take_hex4 r') as [[cp r4]|] eqn:E4; [|discriminate].
      destruct (join_surrogate cp r4) as [[cp' r5]|] eqn:E5; [|discriminate].
      destruct (scanstring fuel r5) as [[str' rest']|] eqn:E6; [|discriminate].
      intros [= <- <-].
      apply take_hex4_length in E4. apply join_surrogate_length in E5.
      apply IH in E6. simpl. lia.
    + destruct (unescape e); [|discriminate].
      destruct (scanstring fuel r') as [[str' rest']|] eqn:E6; [|discriminate].
      intros [= <- <-]. apply IH in E6. simpl. lia.
  - destruct (N_of_ascii c <? 32)%N; [discriminate|].
    destruct (scanstring fuel r) as [[str' rest']|] eqn:E6; [|discriminate].
    intros [= <- <-]. apply IH in E6. simpl. lia.
Qed.

Section Fuel.
Context {rt : PyRuntime}.

Lemma scanner_fuel_enough (n : nat) :
  fuel_enough scan_once n
  /\ (forall acc, fuel_enough (fun k s => parse_array k s acc) n)
  /\ (forall acc, fuel_enough (fun k s => parse_object k s acc) n).
Proof.
  induction n as [|n (IHs & IHa & IHo)].
  - repeat split; try discriminate; intros; discriminate.
  - split; [|split].
    + (* scan_once *)
      intros s v rest. cbn [scan_once].
      destruct s as [|c r]; [discriminate|].
      destruct (Ascii.eqb c dquote) eqn:Eq.
      { destruct (scanstring (String.length r) r) as [[str r1]|] eqn:E; [|discriminate].
        intros [= <- <-]. apply scanstring_length in E as L. simpl. split; [lia|].
        intros [|k] Hk; [lia|]. cbn [scan_once]. now rewrite Eq, E. }
      destruct (Ascii.eqb c "{") eqn:Eo.
      { pose proof (skip_ws_length r) as Lw.
        destruct (skip_ws r) as [|c' r'] eqn:Ew; [discriminate|]. simpl in Lw.
        destruct (Ascii.eqb c' "}") eqn:Ec.
        - intros [= <- <-]. simpl. split; [lia|].
          intros [|k] Hk; [lia|]. cbn [scan_once]. now rewrite Eq, Eo, Ew, Ec.
        - intros H. apply (IHo []) in H as [L K]. simpl in *. split; [lia|].
          intros [|k] Hk; [lia|]. cbn [scan_once]. rewrite Eq, Eo, Ew, Ec.
          apply K. lia. }
      destruct (Ascii.eqb c "[") eqn:Ea.
      { pose proof (skip_ws_length r) as Lw.
        destruct (skip_ws r) as [|c' r'] eqn:Ew; [discriminate|]. simpl in Lw.
        destruct (Ascii.eqb c' "]") eqn:Ec.
        - intros [= <- <-]. simpl. split; [lia|].
          intros [|k] Hk; [lia|]. cbn [scan_once]. now rewrite Eq, Eo, Ea, Ew, Ec.
        - intros H. apply (IHa []) in H as [L K]. simpl in *. split; [lia|].
          intros [|k] Hk; [lia|]. cbn [scan_once]. rewrite Eq, Eo, Ea, Ew, Ec.
          apply K. lia. }
      intros H.
      assert (L : String.length rest < String.length (String c r)).
      { destruct (match_constant (String c r)) as [[v' r']|] eqn:Ec.
        - injection H as <- <-. now apply match_constant_length in Ec.
        - now apply match_number_length in H. }
      split; [exact L|].
      intros [|k] Hk; [lia|]. cbn [scan_once]. now rewrite Eq, Eo, Ea.
    + (* parse_array *)
      intros acc s v rest. cbn [parse_array].
      destruct (scan_once n s) as [[x r1]|] eqn:E; [|discriminate].
      apply IHs in E as [L1 K1].
      pose proof (skip_ws_length r1) as Lw.
      destruct (skip_ws r1) as [|c r] eqn:Ew; [discriminate|]. simpl in Lw.
      destruct (Ascii.eqb c "]") eqn:Ec.
      * intros [= <- <-]. split; [lia|].
        intros [|k] Hk; [lia|]. cbn [parse_array].
        rewrite K1 by lia. now rewrite Ew, Ec.
      * destruct (Ascii.eqb c ",") eqn:Em; [|discriminate].
        intros H. apply (IHa (acc ++ [x])) in H as [L K].
        pose proof (skip_ws_length r) as Lw'.
        split; [lia|].
        intros [|k] Hk; [lia|]. cbn [parse_array].
        rewrite K1 by lia. rewrite Ew, Ec, Em. apply K. lia.
    + (* parse_object *)
      intros acc s v rest. cbn [parse_object].
      destruct s as [|q r]; [discriminate|].
      destruct (Ascii.eqb q dquote) eqn:Eq; [|discriminate].
      destruct (scanstring (String.length r) r) as [[key r1]|] eqn:Ek; [|discriminate].
      apply scanstring_length in Ek as Lk.
      pose proof (skip_ws_length r1) as Lw1.
      destruct (skip_ws r1) as [|colon r2] eqn:Ew1; [discriminate|]. simpl in Lw1.
      destruct (Ascii.eqb colon ":") eqn:Ecol; [|discriminate].
      pose proof (skip_ws_length r2) as Lw2.
      destruct (scan_once n (skip_ws r2)) as [[x r3]|] eqn:E; [|discriminate].
      apply IHs in E as [L1 K1].
      pose proof (skip_ws_length r3) as Lw3.
      destruct (skip_ws r3) as [|c r4] eqn:Ew3; [discriminate|]. simpl in Lw3.
      destruct (Ascii.eqb c "}") eqn:Ec.
      * intros [= <- <-]. simpl. split; [lia|].
        intros [|k] Hk; [lia|]. cbn [parse_object].
        rewrite Eq, Ek, Ew1, Ecol. rewrite K1 by lia. now rewrite Ew3, Ec.
      * destruct (Ascii.eqb c ",") eqn:Em; [|discriminate].
        intros H. apply (IHo (dict_set key x acc)) in H as [L K].
        pose proof (skip_ws_length r4) as Lw4.
        simpl. split; [lia|].
        intros [|k] Hk; [lia|]. cbn [parse_object].
        rewrite Eq, Ek, Ew1, Ecol. rewrite K1 by lia. rewrite Ew3, Ec, Em.
        apply K. lia.
Qed.

(** [json_loads] rejects a text only if no amount of fuel makes the scanner
    accept it. *)
Lemma json_loads_complete (s : string) (n : nat) (obj : json) (rest : string) :
  String.prefix utf8_bom s = false ->
  scan_once n (skip_ws s) = Some (obj, rest) ->
  skip_ws rest = EmptyString ->
  json_loads s = Ok obj.
Proof.
  intros Hbom Hscan Hrest. unfold json_loads. rewrite Hbom.
  destruct (scanner_fuel_enough n) as [Hs _].
  apply Hs in Hscan as [L K].
  rewrite (K (json_fuel s)).
  - now rewrite Hrest.
  - pose proof (skip_ws_length s). unfold json_fuel. lia.
Qed.

End Fuel.

(** ** [update_node_input] *)

Lemma dict_get_set_same {A : Type} (k : string) (v : A) (d : dict A) :
  dict_get k (dict_set k v d) = Some v.
Proof.
  induction d as [|[k' v'] d IH]; simpl.
  - now rewrite String.eqb_refl.
  - destruct (String.eqb k' k) eqn:E; simpl; now rewrite E.
Qed.

Section UpdateFacts.
Context {rt : PyRuntime}.

Lemma json_loads_raises (s : string) (e : exn) :
  json_loads s = Raise e -> e = JSONDecodeError.
Proof.
  unfold json_loads.
  destruct (String.prefix utf8_bom s); [congruence|].
  destruct (scan_once (json_fuel s) (skip_ws s)) as [[obj rest]|]; [|congruence].
  destruct (skip_ws rest); congruence.
Qed.

(** The value [update_node_input] stores for a text *)
Lemma parse_or_raw_value (value : string) :
  parse_or_raw value
  = Ok match json_loads value with
       | Ok parsed => parsed
       | Raise _ => JStr value
       end.
Proof.
  unfold parse_or_raw.
  destruct (json_loads value) as [parsed|e] eqn:E; [reflexivity|].
  apply json_loads_raises in E. now subst e.
Qed.

Lemma update_node_input_present workflow node_id input_name value fields ins :
  dict_get node_id workflow = Some (JDict fields) ->
  dict_get "inputs" fields = Some (JDict ins) ->
  update_node_input workflow node_id input_name value
  = Ok (dict_set node_id
          (JDict (dict_set "inputs"
                    (JDict (dict_set input_name
                              (match json_loads value with
                               | Ok parsed => parsed
                               | Raise _ => JStr value
                               end) ins))
                    fields))
          workflow).
Proof.
  intros Hnode Hins. unfold update_node_input, dict_has.
  rewrite Hnode, parse_or_raw_value. simpl.
  unfold py_modify_item, py_getitem, bind. rewrite Hnode. simpl.
  rewrite Hins. reflexivity.
Qed.

End UpdateFacts.

(** C6, as the code has it.  [update_node_input] returns the graph as it is
    when [node_id] is not a key.  When the node is an object that holds an
    [inputs] object, every call that returns has made the input named
    [input_name] the value [json.loads] gives for the text, or the text itself
    when [json.loads] rejects it; the call returns for every text without
    bracket and brace of at most 640 characters, and the text of a connection
    gives the two-element list, not a string. *)
Theorem update_node_input_sets {rt : PyRuntime} (workflow : dict json)
    (node_id input_name value : string) :
  (dict_has node_id workflow = false ->
   update_node_input workflow node_id input_name value = Ok workflow)
  /\ (forall fields ins,
        dict_get node_id workflow = Some (JDict fields) ->
        dict_get "inputs" fields = Some (JDict ins) ->
        let stored := match json_loads value with
                      | Ok parsed => parsed
                      | Raise _ => JStr value
                      end in
        let ins' := dict_set input_name stored ins in
        let fields' := dict_set "inputs" (JDict ins') fields in
        (forall workflow',
           update_node_input workflow node_id input_name value = Ok workflow' ->
           workflow' = dict_set node_id (JDict fields') workflow
           /\ dict_get node_id workflow' = Some (JDict fields')
           /\ dict_get "inputs" fields' = Some (JDict ins')
           /\ dict_get input_name ins' = Some stored)
        /\ (scalar_text value = true ->
            update_node_input workflow node_id input_name value
            = Ok (dict_set node_id (JDict fields') workflow)))
  /\ json_loads connection_text = Ok (JList [JStr "1"; JInt 0])
  /\ update_node_input example_graph "2" "y" connection_text
     = Ok [("1", JDict [("class_type", JStr "A"); ("inputs", JDict [])]);
           ("2", JDict [("class_type", JStr "B");
                        ("inputs", JDict [("x", JList [JStr "1"; JInt 0]);
                                          ("y", JList [JStr "1"; JInt 0])])])].
Proof.
  split; [|split; [|split]].
  - intros Habsent. unfold update_node_input. now rewrite Habsent.
  - intros fields ins Hnode Hins stored ins' fields'.
    pose proof (update_node_input_present workflow node_id input_name value
                  fields ins Hnode Hins) as Hcall.
    fold stored ins' fields' in Hcall.
    split.
    + intros workflow' Hreturns. rewrite Hcall in Hreturns.
      injection Hreturns as <-.
      split; [reflexivity|]. repeat split; apply dict_get_set_same.
    + intros _. exact Hcall.
  - vm_compute. reflexivity.
  - vm_compute. reflexivity.
Qed.

Lemma update_node_input_sets_witness :
  update_node_input (rt := sample_runtime) example_graph "2" "x" "not json"
  = Ok (dict_set "2"
          (JDict (dict_set "inputs"
                    (JDict (dict_set "x" (JStr "not json")
                              [("x", JList [JStr "1"; JInt 0])]))
                    [("class_type", JStr "B");
                     ("inputs", JDict [("x", JList [JStr "1"; JInt 0])])]))
          example_graph).
Proof.
  exact (proj2 (proj1 (proj2
           (update_node_input_sets (rt := sample_runtime) example_graph "2" "x"
              "not json"))
           _ _ eq_refl eq_refl) eq_refl).
Defined.

(** C6 as stated fails: the node is there, it has no [inputs], and the call
    raises instead of setting the input. *)
Lemma update_node_input_raises_without_inputs :
  update_node_input (rt := sample_runtime)
    [("1", JDict [("class_type", JStr "A")])] "1" "x" "5"
  = Raise KeyError.
Proof. vm_compute. reflexivity. Qed.

(** ** The bundled templates *)

(** C9. The catalog holds the templates empty, fal-flux-dev and
    fal-flux-schnell; each is a graph on which [validate_workflow] returns
    [valid] true and no issue, every node having both fields and every
    two-element array naming an existing node. *)
Theorem templates_are_valid {rt : PyRuntime} :
  dict_keys TEMPLATES = ["empty"; "fal-flux-dev"; "fal-flux-schnell"]
  /\ Forall (fun entry =>
               exists graph,
                 snd entry = JDict graph
                 /\ validate_workflow graph
                    = Ok {| valid := true; node_count := length graph; issues := [] |}
                 /\ graph_well_formed graph = true)
            TEMPLATES.
Proof.
  split; [reflexivity|].
  unfold TEMPLATES.
  repeat (apply List.Forall_cons; [eexists; split; [reflexivity|]; split; reflexivity |]).
  apply List.Forall_nil.
Qed.

(** ** Malformed graphs *)

Section Tolerance.
Context {rt : PyRuntime}.

Lemma check_node_returns node_ids acc node_id node :
  returns (check_node node_ids acc (node_id, node))
  <-> validate_tolerates node = true.
Proof.
  unfold returns, check_node, py_in, py_getitem, py_items, bind, dict_has.
  destruct node as [| | | | s|xs|fields]; simpl;
    try (split; [intros [a Ha]; discriminate | discriminate]).
  - destruct (str_contains "class_type" s), (str_contains "inputs" s); simpl;
      split; try discriminate; try (intros [a Ha]; discriminate); eauto.
  - repeat match goal with
           | |- context [existsb ?f xs] => destruct (existsb f xs); simpl
           end;
      split; try discriminate; try (intros [a Ha]; discriminate); eauto.
  - destruct (dict_get "class_type" fields);
      destruct (dict_get "inputs" fields) as [[| | | | | |ins]|]; simpl;
      split; try discriminate; try (intros [a Ha]; discriminate); eauto.
Qed.

Lemma for_each_check_node_returns node_ids workflow acc :
  returns (for_each (check_node node_ids) workflow acc)
  <-> forallb validate_tolerates (map snd workflow) = true.
Proof.
  revert acc. induction workflow as [|[node_id node] workflow IH]; intros acc;
    cbn [for_each map forallb snd].
  - split; [reflexivity | intros _; now exists acc].
  - rewrite andb_true_iff, <- (check_node_returns node_ids acc node_id node).
    destruct (check_node node_ids acc (node_id, node)) as [acc'|e].
    + rewrite IH. split; [intros H; split; [now exists acc' | exact H] | tauto].
    + split; [intros [a Ha]; discriminate | intros [[a Ha] _]; discriminate].
Qed.

Lemma validate_workflow_returns workflow :
  returns (validate_workflow workflow)
  <-> forallb validate_tolerates (map snd workflow) = true.
Proof.
  rewrite <- (for_each_check_node_returns (dict_keys workflow) workflow []).
  unfold validate_workflow, bind, returns.
  destruct (for_each (check_node (dict_keys workflow)) workflow []) as [found|e].
  - split; eauto.
  - split; intros [a Ha]; discriminate.
Qed.

Lemma update_node_input_returns workflow node_id input_name value :
  returns (update_node_input workflow node_id input_name value)
  <-> update_tolerates workflow node_id = true.
Proof.
  unfold update_tolerates, update_node_input, dict_has, returns.
  destruct (dict_get node_id workflow) as [node|] eqn:Hnode; simpl.
  - rewrite parse_or_raw_value. simpl.
    unfold py_modify_item, py_getitem, py_setitem, bind. rewrite Hnode.
    destruct node as [| | | | | |fields]; simpl;
      try (split; [intros [a Ha]; discriminate | discriminate]).
    destruct (dict_get "inputs" fields) as [[| | | | | |ins]|]; simpl;
      split; try discriminate; try (intros [a Ha]; discriminate); eauto.
  - split; eauto.
Qed.

End Tolerance.

(** C3, as the code has it.  [validate_workflow] returns on a graph whose
    every node is an object whose [inputs], if present, is an object, or is
    itself a string or an array that does not contain the word inputs,
    provided the first element of every two-element array among the inputs is
    a string.  [update_node_input] returns when [node_id] is absent, and when
    it names an object that holds an [inputs] object and the text has no
    bracket, no brace and at most 640 characters. *)
Theorem tolerated_graphs_never_raise {rt : PyRuntime} (workflow : dict json)
    (node_id input_name value : string) :
  (forallb validate_tolerates (map snd workflow) = true ->
   sources_are_str workflow = true ->
   exists r, validate_workflow workflow = Ok r)
  /\ (dict_has node_id workflow = false ->
      update_node_input workflow node_id input_name value = Ok workflow)
  /\ (update_tolerates workflow node_id = true ->
      scalar_text value = true ->
      exists workflow',
        update_node_input workflow node_id input_name value = Ok workflow').
Proof.
  split; [|split].
  - intros Hnodes _. now apply validate_workflow_returns.
  - intros Habsent. unfold update_node_input. now rewrite Habsent.
  - intros Hnode _. now apply update_node_input_returns.
Qed.

Lemma tolerated_graphs_never_raise_witness :
  (exists r,
     validate_workflow (rt := sample_runtime)
       (("0", JStr "a note") :: example_graph) = Ok r)
  /\ (exists workflow',
        update_node_input (rt := sample_runtime) example_graph "2" "y" "3"
        = Ok workflow').
Proof.
  split.
  - exact (proj1 (tolerated_graphs_never_raise (rt := sample_runtime)
                    (("0", JStr "a note") :: example_graph) "2" "y" "3")
             eq_refl eq_refl).
  - exact (proj2 (proj2 (tolerated_graphs_never_raise (rt := sample_runtime)
                           example_graph "2" "y" "3"))
             eq_refl eq_refl).
Defined.

(** C3 as stated fails: a node that is a number, an [inputs] that is a
    number, and a node without [inputs] each make a call raise. *)
Lemma malformed_graph_raises :
  (forall rt : PyRuntime,
     validate_workflow [("1", JInt 5)] = Raise TypeError)
  /\ (forall rt : PyRuntime,
        validate_workflow [("1", JDict [("class_type", JStr "A"); ("inputs", JInt 5)])]
        = Raise AttributeError)
  /\ (forall rt : PyRuntime,
        update_node_input [("1", JDict [("class_type", JStr "A")])] "1" "x" "5"
        = Raise KeyError).
Proof.
  repeat split; intros rt; vm_compute; reflexivity.
Qed.

(** ** The wire format *)

Lemma dict_set_fresh {A : Type} (k : string) (v : A) (d : dict A) :
  ~ In k (dict_keys d) -> dict_set k v d = d ++ [(k, v)].
Proof.
  induction d as [|[k' v'] d IH]; simpl; [reflexivity|].
  intros Hn. destruct (String.eqb_spec k' k) as [->|Hk].
  - exfalso. apply Hn. now left.
  - rewrite IH; [reflexivity|]. intros Hin. apply Hn. now right.
Qed.

Lemma dict_keys_app {A : Type} (d1 d2 : dict A) :
  dict_keys (d1 ++ d2) = dict_keys d1 ++ dict_keys d2.
Proof. unfold dict_keys. apply map_app. Qed.

Lemma WorkflowNode_validate_dump (n : WorkflowNode) :
  WorkflowNode_validate (WorkflowNode_model_dump n) = Ok n.
Proof. destruct n as [ct ins]. reflexivity. Qed.

Lemma WorkflowNode_validate_conforms (node : json) :
  node_conforms node ->
  exists n, WorkflowNode_validate node = Ok n
            /\ deep_eq (WorkflowNode_model_dump n) node.
Proof.
  intros (ct & ins & [-> | ->]); exists (mkWorkflowNode ct ins); split;
    try reflexivity.
  - apply deep_eq_same.
  - unfold WorkflowNode_model_dump; simpl.
    eapply deep_eq_dict.
    + apply perm_swap.
    + repeat constructor; apply deep_eq_same.
Qed.

(** The loop of [from_api_format] on the dump of a dict of nodes *)
Lemma from_api_format_loop_dump (ns acc : dict WorkflowNode) :
  List.NoDup (dict_keys acc ++ dict_keys ns) ->
  for_each (fun nodes item =>
              node <- WorkflowNode_validate (snd item) ;;
              Ok (dict_set (fst item) node nodes))
           (map (fun kv => (fst kv, WorkflowNode_model_dump (snd kv))) ns) acc
  = Ok (acc ++ ns).
Proof.
  revert acc. induction ns as [|[k n] ns IH]; intros acc Hnd;
    cbn [map for_each fst snd].
  - now rewrite app_nil_r.
  - rewrite WorkflowNode_validate_dump. cbn [bind].
    assert (Hk : ~ In k (dict_keys acc)).
    { intros Hin. apply List.NoDup_remove_2 in Hnd. apply Hnd.
      apply in_or_app. now left. }
    rewrite dict_set_fresh by exact Hk.
    rewrite IH.
    + now rewrite <- app_assoc.
    + rewrite dict_keys_app, <- app_assoc. exact Hnd.
Qed.

(** The loop of [from_api_format] on a document of the wire format *)
Lemma from_api_format_loop_document (doc : dict json) (acc : dict WorkflowNode) :
  List.NoDup (dict_keys acc ++ dict_keys doc) ->
  Forall (fun item => node_conforms (snd item)) doc ->
  exists ns,
    for_each (fun nodes item =>
                node <- WorkflowNode_validate (snd item) ;;
                Ok (dict_set (fst item) node nodes))
             doc acc
    = Ok (acc ++ ns)
    /\ Forall2 (fun a b => fst a = fst b /\ deep_eq (snd a) (snd b))
         (map (fun kv => (fst kv, WorkflowNode_model_dump (snd kv))) ns) doc.
Proof.
  revert acc. induction doc as [|[k node] doc IH]; intros acc Hnd Hall.
  - exists []. split; [simpl; now rewrite app_nil_r | constructor].
  - apply List.Forall_cons_iff in Hall as [Hnode Hall].
    destruct (WorkflowNode_validate_conforms node Hnode) as (n & Hn & Heq).
    assert (Hk : ~ In k (dict_keys acc)).
    { intros Hin. apply List.NoDup_remove_2 in Hnd. apply Hnd.
      apply in_or_app. now left. }
    destruct (IH (acc ++ [(k, n)])) as (ns & Hloop & Hns).
    + rewrite dict_keys_app, <- app_assoc. exact Hnd.
    + exact Hall.
    + exists ((k, n) :: ns). split.
      * cbn [for_each snd fst]. rewrite Hn. cbn [bind].
        rewrite dict_set_fresh by exact Hk.
        rewrite Hloop. now rewrite <- app_assoc.
      * constructor; [split; [reflexivity | exact Heq] | exact Hns].
Qed.

(** C2. A workflow that is dumped and read back is the workflow itself, and a
    document of the wire format that is read and dumped again equals the
    document up to the order of keys. *)
Theorem wire_format_round_trip (G : Workflow) (D : dict json) :
  dict_ok (nodes G) ->
  wire_document D ->
  from_api_format (to_api_format G) = Ok G
  /\ exists G',
       from_api_format D = Ok G'
       /\ deep_eq (JDict (to_api_format G')) (JDict D).
Proof.
  intros HG [HD Hall]. split.
  - unfold from_api_format, to_api_format.
    rewrite from_api_format_loop_dump by exact HG.
    destruct G as [ns]. reflexivity.
  - destruct (from_api_format_loop_document D [] HD Hall) as (ns & Hloop & Hns).
    exists (mkWorkflow ns). split.
    + unfold from_api_format. now rewrite Hloop.
    + unfold to_api_format. cbn [nodes].
      eapply deep_eq_dict; [apply Permutation_refl | exact Hns].
Qed.

Lemma wire_format_round_trip_witness :
  from_api_format (to_api_format example_workflow) = Ok example_workflow
  /\ exists G',
       from_api_format example_document = Ok G'
       /\ deep_eq (JDict (to_api_format G')) (JDict example_document).
Proof.
  apply wire_format_round_trip.
  - unfold dict_ok. simpl. repeat constructor; simpl; intuition discriminate.
  - split.
    + unfold dict_ok. simpl. repeat constructor; simpl; intuition discriminate.
    + repeat constructor.
      * exists "A", []. now right.
      * exists "B", [("x", JList [JStr "1"; JInt 0])]. now left.
Defined.

(** ** Persistence *)

Lemma prefix_app (p s : string) : String.prefix p (p +:+ s) = true.
Proof.
  induction p as [|c p IH]; simpl.
  - now destruct s.
  - destruct (ascii_dec c c) as [_|Hne]; [exact IH | congruence].
Qed.

(** C10. [save_workflow] always returns a string: the fixed message when no
    directory is configured, a message that starts with Error: when creating
    the directory or writing fails, and Saved: followed by the path that was
    written otherwise. *)
Theorem save_workflow_always_returns {rt : PyRuntime} (settings : Settings)
    (os : FileSystem) (exception_str : exn -> string) (workflow : dict json)
    (name : string) :
  exists msg,
    save_workflow settings os exception_str workflow name = Ok msg
    /\ (not_configured settings = true ->
        msg = "Error: COMFY_WORKFLOWS_DIR not configured")
    /\ (not_configured settings = false ->
        let file := if negb (str_endswith name ".json") then name +:+ ".json" else name in
        let path := path_join os (configured_dir settings) file in
        let text := json_dumps_indent 2 (JDict workflow) in
        (forall e, mkdir_parents os (path_parent os path) = Raise e ->
                   msg = "Error: " +:+ exception_str e)
        /\ (forall e, mkdir_parents os (path_parent os path) = Ok tt ->
                      write_text os path text = Raise e ->
                      msg = "Error: " +:+ exception_str e)
        /\ (mkdir_parents os (path_parent os path) = Ok tt ->
            write_text os path text = Ok tt ->
            msg = "Saved: " +:+ path))
    /\ (String.prefix "Error:" msg = true \/ String.prefix "Saved: " msg = true).
Proof.
  unfold save_workflow.
  destruct (not_configured settings) eqn:Hconf.
  - eexists. split; [reflexivity|]. repeat split; try discriminate. now left.
  - set (file := if negb (str_endswith name ".json") then name +:+ ".json" else name).
    set (path := path_join os (configured_dir settings) file).
    unfold try_except, bind.
    destruct (mkdir_parents os (path_parent os path)) as [[]|e1] eqn:Hmk.
    + destruct (write_text os path (json_dumps_indent 2 (JDict workflow)))
        as [[]|e2] eqn:Hwr.
      * eexists. split; [reflexivity|]. repeat split; try discriminate.
        right. apply (prefix_app "Saved: ").
      * eexists. split; [reflexivity|]. repeat split; try discriminate.
        -- intros e _ He. now injection He as ->.
        -- left. apply (prefix_app "Error:" (String " " (exception_str e2))).
    + eexists. split; [reflexivity|]. repeat split; try discriminate.
      * intros e He. now injection He as ->.
      * left. apply (prefix_app "Error:" (String " " (exception_str e1))).
Qed.

Section LoadFacts.
Context {rt : PyRuntime}.
Variable settings : Settings.
Variable os : FileSystem.

Lemma load_workflow_absent (workflow_name : string) :
  not_configured settings = false ->
  path_exists os (path_join os (configured_dir settings) workflow_name) = false ->
  load_workflow settings os workflow_name
  = Ok (JDict [("error", JStr (("Workflow '" +:+ workflow_name +:+ "'") +:+ " not found"));
               ("code", JStr "NOT_FOUND");
               ("details", JNull);
               ("suggestion", JStr "Use list_workflows() to see available workflows")]).
Proof.
  intros Hconf Hex. unfold load_workflow. rewrite Hconf, Hex. reflexivity.
Qed.

Lemma load_workflow_present (workflow_name : string) :
  not_configured settings = false ->
  path_exists os (path_join os (configured_dir settings) workflow_name) = true ->
  load_workflow settings os workflow_name
  = match read_text os (path_join os (configured_dir settings) workflow_name) with
    | Ok text => json_loads text
    | Raise e => Raise e
    end.
Proof.
  intros Hconf Hex. unfold load_workflow. rewrite Hconf, Hex. reflexivity.
Qed.

End LoadFacts.

(** C7, the defect.  [load_workflow] answers a missing file with the
    NOT_FOUND response, but a file that is there and cannot be read or is not
    JSON makes the exception leave the call: with a file broken.json that
    holds an opening brace, [JSONDecodeError] is raised. *)
Theorem load_workflow_lets_errors_escape {rt : PyRuntime} :
  load_workflow example_settings example_fs "broken.json" = Raise JSONDecodeError
  /\ (forall settings os workflow_name e,
        not_configured settings = false ->
        path_exists os (path_join os (configured_dir settings) workflow_name) = true ->
        read_text os (path_join os (configured_dir settings) workflow_name) = Raise e ->
        load_workflow settings os workflow_name = Raise e)
  /\ (forall settings os workflow_name text,
        not_configured settings = false ->
        path_exists os (path_join os (configured_dir settings) workflow_name) = true ->
        read_text os (path_join os (configured_dir settings) workflow_name) = Ok text ->
        load_workflow settings os workflow_name = json_loads text)
  /\ (forall settings os workflow_name,
        not_configured settings = false ->
        path_exists os (path_join os (configured_dir settings) workflow_name) = false ->
        exists response,
          load_workflow settings os workflow_name = Ok (JDict response)
          /\ dict_get "code" response = Some (JStr "NOT_FOUND")).
Proof.
  split; [vm_compute; reflexivity|]. split; [|split].
  - intros settings os workflow_name e Hconf Hex Hread.
    rewrite load_workflow_present by assumption. now rewrite Hread.
  - intros settings os workflow_name text Hconf Hex Hread.
    rewrite load_workflow_present by assumption. now rewrite Hread.
  - intros settings os workflow_name Hconf Hex.
    rewrite load_workflow_absent by assumption.
    eexists. split; reflexivity.
Qed.

(** ** The store *)

Lemma alloc_list_extends (xs : list json) :
  Forall (fun x => forall h, exists ext, snd (alloc x h) = h ++ ext) xs ->
  forall h, exists ext, snd (alloc_list alloc xs h) = h ++ ext.
Proof.
  induction 1 as [|x xs Hx _ IH]; intros h; simpl.
  - exists []. now rewrite app_nil_r.
  - destruct (Hx h) as [e1 He1]. destruct (alloc x h) as [v h1]. simpl in He1.
    destruct (IH h1) as [e2 He2]. destruct (alloc_list alloc xs h1) as [vs h2].
    simpl in *. subst. exists (e1 ++ e2). now rewrite app_assoc.
Qed.

Lemma alloc_dict_extends (kvs : dict json) :
  Forall (fun kv => forall h, exists ext, snd (alloc (snd kv) h) = h ++ ext) kvs ->
  forall h, exists ext, snd (alloc_dict alloc kvs h) = h ++ ext.
Proof.
  induction 1 as [|[k x] kvs Hx _ IH]; intros h; simpl.
  - exists []. now rewrite app_nil_r.
  - simpl in Hx. destruct (Hx h) as [e1 He1]. destruct (alloc x h) as [v h1].
    simpl in He1. destruct (IH h1) as [e2 He2].
    destruct (alloc_dict alloc kvs h1) as [vs h2].
    simpl in *. subst. exists (e1 ++ e2). now rewrite app_assoc.
Qed.

(** Allocation only appends cells. *)
Lemma alloc_extends (j : json) (h : heap) : exists ext, snd (alloc j h) = h ++ ext.
Proof.
  revert h. induction j as [| | | | |xs IH|kvs IH] using json_nested_ind; intros h; simpl;
    try (exists []; now rewrite app_nil_r).
  - destruct (alloc_list_extends xs IH h) as [e He].
    destruct (alloc_list alloc xs h) as [vs h']. simpl in *. subst.
    exists (e ++ [CList vs]). now rewrite app_assoc.
  - destruct (alloc_dict_extends kvs IH h) as [e He].
    destruct (alloc_dict alloc kvs h) as [vs h']. simpl in *. subst.
    exists (e ++ [CDict vs]). now rewrite app_assoc.
Qed.

Lemma alloc_keeps (j : json) (h h1 : heap) (v : val) :
  alloc j h = (v, h1) ->
  length h <= length h1 /\ forall l, l < length h -> h1 !! l = h !! l.
Proof.
  intros Ha. destruct (alloc_extends j h) as [ext He]. rewrite Ha in He.
  simpl in He. subst h1. split.
  - rewrite length_app. lia.
  - intros l Hl. now apply lookup_app_l.
Qed.

Lemma alloc_list_keeps (xs : list json) (h h1 : heap) (vs : list val) :
  alloc_list alloc xs h = (vs, h1) ->
  length h <= length h1 /\ forall l, l < length h -> h1 !! l = h !! l.
Proof.
  revert h vs h1. induction xs as [|x xs IH]; intros h vs h1; simpl.
  - intros [= <- <-]. split; [lia | reflexivity].
  - destruct (alloc x h) as [v ha] eqn:Ea.
    destruct (alloc_list alloc xs ha) as [vs' hb] eqn:Eb.
    intros [= <- <-].
    apply alloc_keeps in Ea as [L1 K1]. apply IH in Eb as [L2 K2].
    split; [lia|]. intros l Hl. rewrite K2 by lia. now apply K1.
Qed.

Lemma alloc_dict_keeps (kvs : dict json) (h h1 : heap) (vs : dict val) :
  alloc_dict alloc kvs h = (vs, h1) ->
  length h <= length h1 /\ forall l, l < length h -> h1 !! l = h !! l.
Proof.
  revert h vs h1. induction kvs as [|[k x] kvs IH]; intros h vs h1; simpl.
  - intros [= <- <-]. split; [lia | reflexivity].
  - destruct (alloc x h) as [v ha] eqn:Ea.
    destruct (alloc_dict alloc kvs ha) as [vs' hb] eqn:Eb.
    intros [= <- <-].
    apply alloc_keeps in Ea as [L1 K1]. apply IH in Eb as [L2 K2].
    split; [lia|]. intros l Hl. rewrite K2 by lia. now apply K1.
Qed.

Lemma alloc_list_reads_back (xs : list json) :
  Forall reads_back xs ->
  forall h vs h1, alloc_list alloc xs h = (vs, h1) ->
  forall h' m, agree_on (length h) (length h1) h1 h' ->
               length h1 - length h < m ->
               reify_list (reify m h') vs = Some xs.
Proof.
  induction 1 as [|x xs Hx _ IH]; intros h vs h1; simpl.
  - intros [= <- <-]. reflexivity.
  - destruct (alloc x h) as [v ha] eqn:Ea.
    destruct (alloc_list alloc xs ha) as [vs' hb] eqn:Eb.
    intros [= <- <-] h' m Hag Hm. unfold agree_on in *. simpl.
    pose proof (alloc_keeps _ _ _ _ Ea) as [L1 K1].
    pose proof (alloc_list_keeps _ _ _ _ Eb) as [L2 K2].
    rewrite (Hx h v ha Ea h' m).
    + rewrite (IH ha vs' hb Eb h' m); [reflexivity| |lia].
      intros l Hl. apply Hag. lia.
    + intros l Hl. rewrite Hag by lia. apply K2. lia.
    + lia.
Qed.

Lemma alloc_dict_reads_back (kvs : dict json) :
  Forall (fun kv => reads_back (snd kv)) kvs ->
  forall h vs h1, alloc_dict alloc kvs h = (vs, h1) ->
  forall h' m, agree_on (length h) (length h1) h1 h' ->
               length h1 - length h < m ->
               reify_dict (reify m h') vs = Some kvs.
Proof.
  induction 1 as [|[k x] kvs Hx _ IH]; intros h vs h1; simpl.
  - intros [= <- <-]. reflexivity.
  - destruct (alloc x h) as [v ha] eqn:Ea.
    destruct (alloc_dict alloc kvs ha) as [vs' hb] eqn:Eb.
    intros [= <- <-] h' m Hag Hm. unfold agree_on in *. simpl.
    pose proof (alloc_keeps _ _ _ _ Ea) as [L1 K1].
    pose proof (alloc_dict_keeps _ _ _ _ Eb) as [L2 K2].
    rewrite (Hx h v ha Ea h' m).
    + rewrite (IH ha vs' hb Eb h' m); [reflexivity| |lia].
      intros l Hl. apply Hag. lia.
    + intros l Hl. rewrite Hag by lia. apply K2. lia.
    + lia.
Qed.

Lemma alloc_reads_back (j : json) : reads_back j.
Proof.
  induction j as [| | | | |xs IH|kvs IH] using json_nested_ind;
    intros h v h1 Ha h' m Hag Hm; unfold agree_on in Hag; simpl in Ha;
    try (inversion Ha; subst; destruct m; [lia | reflexivity]).
  - destruct (alloc_list alloc xs h) as [vs hb] eqn:Eb.
    inversion Ha; subst; clear Ha.
    pose proof (alloc_list_keeps _ _ _ _ Eb) as [L K].
    rewrite length_app in *. simpl in *.
    destruct m as [|m]; [lia|]. cbn [reify].
    rewrite (Hag (length hb)) by lia.
    rewrite list_lookup_middle by reflexivity.
    rewrite (alloc_list_reads_back xs IH h vs hb Eb h' m); [reflexivity| |lia].
    intros l Hl. rewrite Hag by lia. apply lookup_app_l. lia.
  - destruct (alloc_dict alloc kvs h) as [vs hb] eqn:Eb.
    inversion Ha; subst; clear Ha.
    pose proof (alloc_dict_keeps _ _ _ _ Eb) as [L K].
    rewrite length_app in *. simpl in *.
    destruct m as [|m]; [lia|]. cbn [reify].
    rewrite (Hag (length hb)) by lia.
    rewrite list_lookup_middle by reflexivity.
    rewrite (alloc_dict_reads_back kvs IH h vs hb Eb h' m); [reflexivity| |lia].
    intros l Hl. rewrite Hag by lia. apply lookup_app_l. lia.
Qed.

Lemma alloc_list_builds_closed (xs : list json) :
  Forall builds_closed xs ->
  forall h vs h1, alloc_list alloc xs h = (vs, h1) ->
  (forall l, In l (flat_map val_refs vs) -> length h <= l < length h1)
  /\ region_closed (length h) (length h1) h1.
Proof.
  induction 1 as [|x xs Hx _ IH]; intros h vs h1; simpl.
  - intros [= <- <-]. split; [intros l [] | intros l c l' Hl; lia].
  - destruct (alloc x h) as [v ha] eqn:Ea.
    destruct (alloc_list alloc xs ha) as [vs' hb] eqn:Eb.
    intros [= <- <-].
    pose proof (alloc_keeps _ _ _ _ Ea) as [L1 K1].
    pose proof (alloc_list_keeps _ _ _ _ Eb) as [L2 K2].
    destruct (Hx h v ha Ea) as [Rv Cv].
    destruct (IH ha vs' hb Eb) as [Rvs Cvs].
    split.
    + intros l Hl. simpl in Hl. apply in_app_or in Hl as [Hl|Hl].
      * apply Rv in Hl. lia.
      * apply Rvs in Hl. lia.
    + intros l c l' Hl Hc Hin.
      destruct (Nat.lt_ge_cases l (length ha)) as [Hlt|Hge].
      * rewrite K2 in Hc by exact Hlt.
        assert (length h <= l' < length ha) by (eapply Cv; eauto; lia). lia.
      * assert (length ha <= l' < length hb) by (eapply Cvs; eauto; lia). lia.
Qed.

Lemma alloc_dict_builds_closed (kvs : dict json) :
  Forall (fun kv => builds_closed (snd kv)) kvs ->
  forall h vs h1, alloc_dict alloc kvs h = (vs, h1) ->
  (forall l, In l (flat_map (fun kv => val_refs (snd kv)) vs) ->
             length h <= l < length h1)
  /\ region_closed (length h) (length h1) h1.
Proof.
  induction 1 as [|[k x] kvs Hx _ IH]; intros h vs h1; simpl.
  - intros [= <- <-]. split; [intros l [] | intros l c l' Hl; lia].
  - destruct (alloc x h) as [v ha] eqn:Ea.
    destruct (alloc_dict alloc kvs ha) as [vs' hb] eqn:Eb.
    intros [= <- <-].
    pose proof (alloc_keeps _ _ _ _ Ea) as [L1 K1].
    pose proof (alloc_dict_keeps _ _ _ _ Eb) as [L2 K2].
    destruct (Hx h v ha Ea) as [Rv Cv].
    destruct (IH ha vs' hb Eb) as [Rvs Cvs].
    split.
    + intros l Hl. simpl in Hl. apply in_app_or in Hl as [Hl|Hl].
      * apply Rv in Hl. lia.
      * apply Rvs in Hl. lia.
    + intros l c l' Hl Hc Hin.
      destruct (Nat.lt_ge_cases l (length ha)) as [Hlt|Hge].
      * rewrite K2 in Hc by exact Hlt.
        assert (length h <= l' < length ha) by (eapply Cv; eauto; lia). lia.
      * assert (length ha <= l' < length hb) by (eapply Cvs; eauto; lia). lia.
Qed.

Lemma region_closed_snoc (a : nat) (h : heap) (c : cell) :
  a <= length h ->
  region_closed a (length h) h ->
  (forall l, In l (cell_refs c) -> a <= l < length h) ->
  region_closed a (length (h ++ [c])) (h ++ [c]).
Proof.
  intros Ha Hclosed Hc l c0 l' Hl Hlook Hin.
  rewrite length_app in *. simpl in *.
  destruct (Nat.lt_ge_cases l (length h)) as [Hlt|Hge].
  - rewrite lookup_app_l in Hlook by exact Hlt.
    assert (a <= l' < length h) by (eapply Hclosed; eauto; lia). lia.
  - assert (l = length h) by lia. subst l.
    rewrite list_lookup_middle in Hlook by reflexivity.
    injection Hlook as <-. apply Hc in Hin. lia.
Qed.

Lemma alloc_builds_closed (j : json) : builds_closed j.
Proof.
  induction j as [| | | | |xs IH|kvs IH] using json_nested_ind;
    intros h v h1 Ha; simpl in Ha;
    try (inversion Ha; subst; split; [intros l [] | intros l c l' Hl; lia]).
  - destruct (alloc_list alloc xs h) as [vs hb] eqn:Eb.
    inversion Ha; subst; clear Ha.
    pose proof (alloc_list_keeps _ _ _ _ Eb) as [L K].
    destruct (alloc_list_builds_closed xs IH h vs hb Eb) as [R C].
    split.
    + intros l [<-|[]]. rewrite length_app. simpl. lia.
    + apply region_closed_snoc; assumption.
  - destruct (alloc_dict alloc kvs h) as [vs hb] eqn:Eb.
    inversion Ha; subst; clear Ha.
    pose proof (alloc_dict_keeps _ _ _ _ Eb) as [L K].
    destruct (alloc_dict_builds_closed kvs IH h vs hb Eb) as [R C].
    split.
    + intros l [<-|[]]. rewrite length_app. simpl. lia.
    + apply region_closed_snoc; assumption.
Qed.

(** Inside a closed region, reachability stays in the region. *)
Lemma reachable_in_region (a b : nat) (h : heap) (l0 l : loc) :
  region_closed a b h -> reachable h l0 l -> a <= l0 < b -> a <= l < b.
Proof.
  intros Hclosed Hreach. induction Hreach as [l|l c l' l'' Hc Hin _ IH]; intros Hl.
  - exact Hl.
  - apply IH. eapply Hclosed; eauto.
Qed.

Lemma region_closed_agree (a b : nat) (h h' : heap) :
  region_closed a b h -> agree_on a b h h' -> region_closed a b h'.
Proof.
  intros Hclosed Hag l c l' Hl Hc Hin.
  rewrite Hag in Hc by exact Hl. eapply Hclosed; eauto.
Qed.

(** The cells reachable from what [alloc] returned are the new cells, in
    every store that still holds them. *)
Lemma alloc_reaches_new (j : json) (h h1 h' : heap) (v : val) (l : loc) :
  alloc j h = (v, h1) ->
  agree_on (length h) (length h1) h1 h' ->
  reaches h' v l -> length h <= l < length h1.
Proof.
  intros Ha Hag (l0 & Hl0 & Hreach).
  destruct (alloc_builds_closed j h v h1 Ha) as [Rv Cv].
  apply (reachable_in_region (length h) (length h1) h' l0 l).
  - eapply region_closed_agree; eauto.
  - exact Hreach.
  - now apply Rv.
Qed.

(** Stores of a caller leave alone every cell that it does not own. *)
Lemma mutated_frame (own : loc -> Prop) (h h' : heap) :
  mutated own h h' ->
  length h <= length h'
  /\ forall l, l < length h -> ~ own l -> h' !! l = h !! l.
Proof.
  induction 1 as [own h|own h l0 c h' Hown Hl0 _ [IHlen IH]|own h c h' _ [IHlen IH]].
  - split; [lia | reflexivity].
  - rewrite length_insert in *. split; [exact IHlen|].
    intros l Hl Hnot. rewrite IH by assumption.
    apply list_lookup_insert_ne. intros ->. contradiction.
  - rewrite length_app in *. simpl in *. split; [lia|].
    intros l Hl Hnot. rewrite IH.
    + apply lookup_app_l. exact Hl.
    + lia.
    + intros [Hown | ->]; [contradiction | lia].
Qed.

(** Item assignment and deletion on an object reachable from a graph are
    stores of the owner of the graph. *)
Lemma setitem_in_place_mutated (h h' : heap) (g : val) (l : loc) (k : string)
    (v : val) :
  reaches h g l ->
  setitem_in_place h l k v = Ok h' ->
  mutated (reaches h g) h h'.
Proof.
  intros Hreach. unfold setitem_in_place.
  destruct (h !! l) as [[|kvs]|] eqn:E; try discriminate.
  intros [= <-]. eapply mutated_store; [exact Hreach | | apply mutated_done].
  now apply lookup_lt_Some in E.
Qed.

Lemma delitem_in_place_mutated (h h' : heap) (g : val) (l : loc) (k : string) :
  reaches h g l ->
  delitem_in_place h l k = Ok h' ->
  mutated (reaches h g) h h'.
Proof.
  intros Hreach. unfold delitem_in_place.
  destruct (h !! l) as [[|kvs]|] eqn:E; try discriminate.
  destruct (dict_has k kvs); [|discriminate].
  intros [= <-]. eapply mutated_store; [exact Hreach | | apply mutated_done].
  now apply lookup_lt_Some in E.
Qed.

Lemma alloc_content (j : json) (h h1 h' : heap) (v : val) :
  alloc j h = (v, h1) ->
  agree_on (length h) (length h1) h1 h' ->
  length h1 <= length h' ->
  content h' v = Some j.
Proof.
  intros Ha Hag Hlen. unfold content.
  apply (alloc_reads_back j h v h1 Ha); [exact Hag | lia].
Qed.

(** ** The catalog in the store *)

Lemma reify_ref (fuel : nat) (h : heap) (l : loc) :
  reify (S fuel) h (VRef l)
  = match h !! l with
    | Some (CList vs) =>
        match reify_list (reify fuel h) vs with
        | Some js => Some (JList js)
        | None => None
        end
    | Some (CDict kvs) =>
        match reify_dict (reify fuel h) kvs with
        | Some js => Some (JDict js)
        | None => None
        end
    | None => None
    end.
Proof. reflexivity. Qed.

Lemma catalog_intact_length (h : heap) :
  catalog_intact h -> length initial_heap <= length h.
Proof.
  intros Hcat.
  assert (Hl : pred (length initial_heap) < length h).
  { apply (lookup_lt_is_Some_1 h). rewrite Hcat by (vm_compute; lia).
    vm_compute. eauto. }
  revert Hl. vm_compute. lia.
Qed.

Lemma catalog_intact_initial : catalog_intact initial_heap.
Proof. intros l _. reflexivity. Qed.

Lemma catalog_entries (h : heap) :
  catalog_intact h ->
  exists entries,
    dict_cell h TEMPLATES_ref = Ok entries
    /\ dict_keys entries = dict_keys TEMPLATES
    /\ forall T entry,
         dict_get T TEMPLATES = Some entry ->
         exists v, dict_get T entries = Some v /\ content h v = Some entry.
Proof.
  intros Hcat.
  pose proof (catalog_intact_length h Hcat) as Hlen.
  assert (Hread : reify (S (S (length h))) h TEMPLATES_ref = Some (JDict TEMPLATES)).
  { apply (alloc_reads_back (JDict TEMPLATES) [] TEMPLATES_ref initial_heap).
    - reflexivity.
    - intros l Hl. apply Hcat. lia.
    - simpl length at 2. lia. }
  assert (Hcell : h !! pred (length initial_heap)
                  = initial_heap !! pred (length initial_heap))
    by (apply Hcat; vm_compute; lia).
  destruct (initial_heap !! pred (length initial_heap)) as [c|] eqn:Ec;
    vm_compute in Ec; [|discriminate].
  injection Ec as <-.
  change TEMPLATES_ref with (VRef (pred (length initial_heap))) in *.
  rewrite reify_ref, Hcell in Hread. unfold dict_cell. rewrite Hcell.
  eexists. split; [reflexivity|]. split; [reflexivity|].
  cbn [reify_dict] in Hread.
  repeat match type of Hread with
         | context [reify ?n h ?v] =>
             let E := fresh "E" in destruct (reify n h v) eqn:E; [|discriminate]
         end.
  unfold TEMPLATES in Hread. injection Hread as -> -> ->.
  intros T entry. unfold TEMPLATES. cbn [dict_get].
  destruct (String.eqb "empty" T); [intros [= <-]; eauto|].
  destruct (String.eqb "fal-flux-dev" T); [intros [= <-]; eauto|].
  destruct (String.eqb "fal-flux-schnell" T); [intros [= <-]; eauto|].
  discriminate.
Qed.

Section TemplateFacts.
Context {rt : PyRuntime}.
Hypothesis float_3_5 : float_of_literal "3.5" = mkFloat "3.5".

(** [json.loads(json.dumps(entry))] gives the entry back. *)
Lemma template_entry_copies (T : string) (entry : json) :
  dict_get T TEMPLATES = Some entry ->
  json_loads (json_dumps entry) = Ok entry.
Proof.
  unfold TEMPLATES. cbn [dict_get].
  destruct (String.eqb "empty" T); [intros [= <-]; vm_compute; reflexivity|].
  destruct (String.eqb "fal-flux-dev" T);
    [intros [= <-]; pose proof float_3_5 as H35; vm_compute in H35 |- *;
     rewrite H35; reflexivity|].
  destruct (String.eqb "fal-flux-schnell" T); [intros [= <-]; vm_compute; reflexivity|].
  discriminate.
Qed.

Lemma get_workflow_template_found (T : string) (entry : json) (h : heap) :
  catalog_intact h ->
  dict_get T TEMPLATES = Some entry ->
  get_workflow_template T h = (Ok (fst (alloc entry h)), snd (alloc entry h)).
Proof.
  intros Hcat Hentry.
  destruct (catalog_entries h Hcat) as (entries & Hcell & Hkeys & Hall).
  destruct (Hall T entry Hentry) as (v & Hv & Hcontent).
  unfold get_workflow_template. rewrite Hcell.
  unfold dict_has. rewrite Hv. cbn [negb]. rewrite Hcontent.
  rewrite (template_entry_copies T entry Hentry).
  destruct (alloc entry h). reflexivity.
Qed.

End TemplateFacts.

Lemma dict_has_same_keys {A B : Type} (k : string) (d1 : dict A) (d2 : dict B) :
  dict_keys d1 = dict_keys d2 -> dict_has k d1 = dict_has k d2.
Proof.
  unfold dict_has. revert d2.
  induction d1 as [|[k1 v1] d1 IH]; intros [|[k2 v2] d2]; simpl; try discriminate.
  - reflexivity.
  - intros [= -> Hrest]. destruct (String.eqb k2 k); [reflexivity|]. now apply IH.
Qed.

Lemma get_workflow_template_missing {rt : PyRuntime} (T : string) (h : heap) :
  catalog_intact h ->
  dict_has T TEMPLATES = false ->
  get_workflow_template T h
  = (Ok (VRef (length h)),
     h ++ [CDict [("error", VStr (("Template '" +:+ T +:+ "'") +:+ " not found"));
                  ("code", VStr "NOT_FOUND");
                  ("details", VNull);
                  ("suggestion",
                   VStr "Available: ['empty', 'fal-flux-dev', 'fal-flux-schnell']")]]).
Proof.
  intros Hcat Hmissing.
  destruct (catalog_entries h Hcat) as (entries & Hcell & Hkeys & _).
  unfold get_workflow_template. rewrite Hcell.
  rewrite (dict_has_same_keys T entries TEMPLATES Hkeys), Hmissing. cbn [negb].
  rewrite Hkeys. reflexivity.
Qed.

Lemma agree_on_refl (a b : nat) (h : heap) : agree_on a b h h.
Proof. intros l _. reflexivity. Qed.

(** C4. For a template of the catalog, two successive calls of
    [get_workflow_template] return graphs with the content of the catalog
    entry, each made of cells that did not exist before its call, so that
    they share no cell with the catalog or with each other.  Whatever a
    caller then stores into the cells of one of the two graphs, the catalog
    and the other graph keep their content, and a later call returns the
    content of the entry again. *)
Theorem get_workflow_template_independent {rt : PyRuntime} (T : string)
    (entry : json) (h : heap) :
  float_of_literal "3.5" = mkFloat "3.5" ->
  dict_get T TEMPLATES = Some entry ->
  catalog_intact h ->
  exists g1 h1 g2 h2,
    get_workflow_template T h = (Ok g1, h1)
    /\ get_workflow_template T h1 = (Ok g2, h2)
    /\ content h2 g1 = Some entry
    /\ content h2 g2 = Some entry
    /\ (forall l, reaches h2 g1 l -> length h <= l < length h1)
    /\ (forall l, reaches h2 g2 l -> length h1 <= l < length h2)
    /\ (forall l, l < length h -> h2 !! l = h !! l)
    /\ forall g other h3,
         (g = g1 /\ other = g2) \/ (g = g2 /\ other = g1) ->
         mutated (reaches h2 g) h2 h3 ->
         catalog_intact h3
         /\ (forall l, l < length h -> h3 !! l = h !! l)
         /\ content h3 other = Some entry
         /\ exists g3 h4,
              get_workflow_template T h3 = (Ok g3, h4)
              /\ content h4 g3 = Some entry.
Proof.
  intros Hfloat Hentry Hcat.
  pose proof (catalog_intact_length h Hcat) as Hlen.
  destruct (alloc entry h) as [g1 h1] eqn:E1.
  destruct (alloc entry h1) as [g2 h2] eqn:E2.
  pose proof (alloc_keeps _ _ _ _ E1) as [L1 K1].
  pose proof (alloc_keeps _ _ _ _ E2) as [L2 K2].
  assert (Hcat1 : catalog_intact h1).
  { intros l Hl. rewrite K1 by lia. now apply Hcat. }
  assert (Hag1 : agree_on (length h) (length h1) h1 h2).
  { intros l Hl. apply K2. lia. }
  assert (R1 : forall l, reaches h2 g1 l -> length h <= l < length h1).
  { intros l. now apply (alloc_reaches_new entry h h1 h2 g1 l E1). }
  assert (R2 : forall l, reaches h2 g2 l -> length h1 <= l < length h2).
  { intros l. apply (alloc_reaches_new entry h1 h2 h2 g2 l E2), agree_on_refl. }
  exists g1, h1, g2, h2.
  split; [rewrite (get_workflow_template_found Hfloat T entry h Hcat Hentry), E1;
          reflexivity|].
  split; [rewrite (get_workflow_template_found Hfloat T entry h1 Hcat1 Hentry), E2;
          reflexivity|].
  split; [now apply (alloc_content entry h h1 h2 g1 E1)|].
  split; [apply (alloc_content entry h1 h2 h2 g2 E2);
          [apply agree_on_refl | lia]|].
  split; [exact R1|]. split; [exact R2|].
  split; [intros l Hl; rewrite K2 by lia; now apply K1|].
  intros g other h3 Hwhich Hmut.
  destruct (mutated_frame _ _ _ Hmut) as [L3 K3].
  assert (Hold : forall l, l < length h -> h3 !! l = h !! l).
  { intros l Hl. rewrite K3.
    - rewrite K2 by lia. now apply K1.
    - lia.
    - destruct Hwhich as [[-> _]|[-> _]]; intros Hr;
        [apply R1 in Hr | apply R2 in Hr]; lia. }
  assert (Hcat3 : catalog_intact h3).
  { intros l Hl. rewrite Hold by lia. now apply Hcat. }
  split; [exact Hcat3|]. split; [exact Hold|]. split.
  - destruct Hwhich as [[-> ->]|[-> ->]].
    + apply (alloc_content entry h1 h2 h3 g2 E2); [|lia].
      intros l Hl. apply K3; [lia|]. intros Hr. apply R1 in Hr. lia.
    + apply (alloc_content entry h h1 h3 g1 E1); [|lia].
      intros l Hl. rewrite K3.
      * apply K2. lia.
      * lia.
      * intros Hr. apply R2 in Hr. lia.
  - destruct (alloc entry h3) as [g3 h4] eqn:E3.
    exists g3, h4.
    split; [rewrite (get_workflow_template_found Hfloat T entry h3 Hcat3 Hentry), E3;
            reflexivity|].
    apply (alloc_content entry h3 h4 h4 g3 E3); [apply agree_on_refl | lia].
Qed.

Lemma get_workflow_template_independent_witness :
  exists g1 h1 g2 h2,
    get_workflow_template (rt := sample_runtime) "fal-flux-dev" initial_heap = (Ok g1, h1)
    /\ get_workflow_template (rt := sample_runtime) "fal-flux-dev" h1 = (Ok g2, h2)
    /\ content h2 g1 = content h2 g2
    /\ forall l, reaches h2 g1 l -> reaches h2 g2 l -> False.
Proof.
  destruct (get_workflow_template_independent (rt := sample_runtime)
              "fal-flux-dev"
              (match dict_get "fal-flux-dev" TEMPLATES with
               | Some entry => entry
               | None => JNull
               end)
              initial_heap eq_refl eq_refl catalog_intact_initial)
    as (g1 & h1 & g2 & h2 & G1 & G2 & C1 & C2 & R1 & R2 & _).
  exists g1, h1, g2, h2.
  split; [exact G1|]. split; [exact G2|].
  split; [now rewrite C1, C2|].
  intros l H1 H2. apply R1 in H1. apply R2 in H2. lia.
Defined.

(** C8. For a name that is no key of the catalog, [get_workflow_template]
    returns the NOT_FOUND response whose suggestion lists the names of the
    catalog; for a key it returns a graph with the content of the entry. *)
Theorem get_workflow_template_unknown_name {rt : PyRuntime} (name : string)
    (h : heap) :
  float_of_literal "3.5" = mkFloat "3.5" ->
  catalog_intact h ->
  (dict_has name TEMPLATES = false ->
   exists v h',
     get_workflow_template name h = (Ok v, h')
     /\ content h' v
        = Some (JDict
                  [("error", JStr (("Template '" +:+ name +:+ "'") +:+ " not found"));
                   ("code", JStr "NOT_FOUND");
                   ("details", JNull);
                   ("suggestion",
                    JStr "Available: ['empty', 'fal-flux-dev', 'fal-flux-schnell']")])
     /\ list_templates h = Ok ["empty"; "fal-flux-dev"; "fal-flux-schnell"])
  /\ (forall entry,
        dict_get name TEMPLATES = Some entry ->
        exists g h',
          get_workflow_template name h = (Ok g, h') /\ content h' g = Some entry).
Proof.
  intros Hfloat Hcat. split.
  - intros Hmissing. eexists _, _.
    split; [apply (get_workflow_template_missing name h Hcat Hmissing)|].
    split.
    + eapply (alloc_content _ h); [reflexivity | apply agree_on_refl | lia].
    + unfold list_templates.
      destruct (catalog_entries h Hcat) as (entries & -> & -> & _). reflexivity.
  - intros entry Hentry.
    destruct (alloc entry h) as [g h'] eqn:E.
    exists g, h'.
    split; [rewrite (get_workflow_template_found Hfloat name entry h Hcat Hentry), E;
            reflexivity|].
    apply (alloc_content entry h h' h' g E); [apply agree_on_refl | lia].
Qed.

Lemma get_workflow_template_unknown_name_witness :
  exists v h',
    get_workflow_template (rt := sample_runtime) "sdxl" initial_heap = (Ok v, h')
    /\ content h' v
       = Some (JDict
                 [("error", JStr "Template 'sdxl' not found");
                  ("code", JStr "NOT_FOUND");
                  ("details", JNull);
                  ("suggestion",
                   JStr "Available: ['empty', 'fal-flux-dev', 'fal-flux-schnell']")])
    /\ list_templates initial_heap = Ok ["empty"; "fal-flux-dev"; "fal-flux-schnell"].
Proof.
  exact (proj1 (get_workflow_template_unknown_name (rt := sample_runtime) "sdxl"
                  initial_heap eq_refl catalog_intact_initial) eq_refl).
Defined.

(** * Further properties *)

(** ** Adding and removing nodes *)

Lemma dict_get_set_other {A : Type} (k k0 : string) (v : A) (d : dict A) :
  k0 <> k -> dict_get k0 (dict_set k v d) = dict_get k0 d.
Proof.
  intros Hne. induction d as [|[k' v'] d IH]; simpl.
  - destruct (String.eqb_spec k k0); [congruence | reflexivity].
  - destruct (String.eqb_spec k' k) as [->|Hk]; simpl.
    + destruct (String.eqb_spec k k0); [congruence | reflexivity].
    + now rewrite IH.
Qed.

Lemma dict_set_keys_present {A : Type} (k : string) (v : A) (d : dict A) :
  dict_has k d = true -> dict_keys (dict_set k v d) = dict_keys d.
Proof.
  unfold dict_has. induction d as [|[k' v'] d IH]; simpl; [discriminate|].
  destruct (String.eqb_spec k' k) as [->|Hk]; simpl; [reflexivity|].
  intros H. now rewrite IH.
Qed.

Lemma dict_set_absent {A : Type} (k : string) (v : A) (d : dict A) :
  dict_has k d = false -> dict_set k v d = d ++ [(k, v)].
Proof.
  unfold dict_has. induction d as [|[k' v'] d IH]; simpl; [reflexivity|].
  destruct (String.eqb k' k); [discriminate|].
  intros H. now rewrite IH.
Qed.

Lemma dict_set_set {A : Type} (k : string) (v1 v2 : A) (d : dict A) :
  dict_set k v2 (dict_set k v1 d) = dict_set k v2 d.
Proof.
  induction d as [|[k' v'] d IH]; simpl.
  - now rewrite String.eqb_refl.
  - destruct (String.eqb k' k) eqn:E; simpl; rewrite E; [reflexivity|].
    now rewrite IH.
Qed.

Lemma dict_del_set {A : Type} (k : string) (v : A) (d : dict A) :
  dict_del k (dict_set k v d) = dict_del k d.
Proof.
  induction d as [|[k' v'] d IH]; simpl.
  - now rewrite String.eqb_refl.
  - destruct (String.eqb k' k) eqn:E; simpl; rewrite E; [reflexivity|].
    now rewrite IH.
Qed.

Lemma dict_has_set {A : Type} (k : string) (v : A) (d : dict A) :
  dict_has k (dict_set k v d) = true.
Proof. unfold dict_has. now rewrite dict_get_set_same. Qed.

Lemma dict_keys_del {A : Type} (k : string) (d : dict A) :
  dict_keys (dict_del k d)
  = List.filter (fun k' => negb (String.eqb k' k)) (dict_keys d).
Proof.
  induction d as [|[k' v'] d IH]; simpl; [reflexivity|].
  destruct (String.eqb k' k); simpl; now rewrite IH.
Qed.

Lemma dict_has_key {A : Type} (k : string) (d : dict A) :
  dict_has k d = true <-> In k (dict_keys d).
Proof.
  unfold dict_has. induction d as [|[k' v'] d IH]; simpl.
  - split; [discriminate | tauto].
  - destruct (String.eqb_spec k' k) as [->|Hne].
    + split; auto.
    + rewrite IH. split; [auto | intros [H|H]; [congruence | exact H]].
Qed.

Lemma dict_ok_set {A : Type} (k : string) (v : A) (d : dict A) :
  dict_ok d -> dict_ok (dict_set k v d).
Proof.
  unfold dict_ok. intros Hok.
  destruct (dict_has k d) eqn:Hhas.
  - now rewrite dict_set_keys_present.
  - rewrite dict_set_absent by exact Hhas. rewrite dict_keys_app. simpl.
    apply List.NoDup_app; repeat split.
    + exact Hok.
    + repeat constructor. intros [].
    + intros x Hx [<-|[]]. apply dict_has_key in Hx. congruence.
Qed.

Lemma dict_ok_del {A : Type} (k : string) (d : dict A) :
  dict_ok d -> dict_ok (dict_del k d).
Proof.
  unfold dict_ok. rewrite dict_keys_del. apply List.NoDup_filter.
Qed.

(** X1. [add_node] puts the node under [node_id] and leaves every other id
    as it is; an id that is already there keeps its place among the ids, a
    new id comes last; the ids stay distinct. *)
Theorem add_node_inserts (workflow : dict json) (node_id node_type : string)
    (inputs : dict json) :
  dict_get node_id (add_node workflow node_id node_type inputs)
  = Some (JDict [("class_type", JStr node_type); ("inputs", JDict inputs)])
  /\ (forall k, k <> node_id ->
        dict_get k (add_node workflow node_id node_type inputs) = dict_get k workflow)
  /\ (dict_has node_id workflow = true ->
      dict_keys (add_node workflow node_id node_type inputs) = dict_keys workflow)
  /\ (dict_has node_id workflow = false ->
      add_node workflow node_id node_type inputs
      = workflow ++ [(node_id,
                      JDict [("class_type", JStr node_type); ("inputs", JDict inputs)])])
  /\ (dict_ok workflow -> dict_ok (add_node workflow node_id node_type inputs)).
Proof.
  unfold add_node. repeat split.
  - apply dict_get_set_same.
  - intros k Hk. now apply dict_get_set_other.
  - apply dict_set_keys_present.
  - apply dict_set_absent.
  - apply dict_ok_set.
Qed.

Lemma add_node_inserts_witness :
  dict_ok example_graph
  /\ dict_ok (add_node example_graph "3" "C" [("text", JStr "hello")])
  /\ dict_keys (add_node example_graph "2" "C" []) = ["1"; "2"].
Proof.
  assert (Hok : dict_ok example_graph).
  { unfold dict_ok. simpl. repeat constructor; simpl; intuition discriminate. }
  split; [exact Hok|]. split.
  - exact (proj2 (proj2 (proj2 (proj2
             (add_node_inserts example_graph "3" "C" [("text", JStr "hello")])))) Hok).
  - exact (proj1 (proj2 (proj2 (add_node_inserts example_graph "2" "C" []))) eq_refl).
Defined.

Lemma dict_del_del {A : Type} (k1 k2 : string) (d : dict A) :
  dict_del k1 (dict_del k2 d) = dict_del k2 (dict_del k1 d).
Proof.
  rewrite !dict_del_filter.
  induction d as [|[k v] d IH]; simpl; [reflexivity|].
  destruct (String.eqb k k1) eqn:E1, (String.eqb k k2) eqn:E2; simpl;
    rewrite ?E1, ?E2; simpl; now rewrite IH.
Qed.

Lemma remove_node_is_del (workflow : dict json) (node_id : string) :
  remove_node workflow node_id = dict_del node_id workflow.
Proof.
  unfold remove_node. destruct (dict_has node_id workflow) eqn:E; [reflexivity|].
  symmetry. apply dict_del_absent. now apply dict_has_false.
Qed.

(** X2. How [add_node] and [remove_node] compose: a node that is added and
    removed again leaves what removing it from the original graph leaves, which
    is the original graph when the id was new; adding twice under one id keeps
    the second node; removals commute and removing twice is removing once. *)
Theorem add_remove_compose (workflow : dict json) (a b t1 t2 : string)
    (i1 i2 : dict json) :
  remove_node (add_node workflow a t1 i1) a = remove_node workflow a
  /\ (dict_has a workflow = false ->
      remove_node (add_node workflow a t1 i1) a = workflow)
  /\ add_node (add_node workflow a t1 i1) a t2 i2 = add_node workflow a t2 i2
  /\ remove_node (remove_node workflow a) b = remove_node (remove_node workflow b) a
  /\ remove_node (remove_node workflow a) a = remove_node workflow a.
Proof.
  rewrite !remove_node_is_del. unfold add_node. repeat split.
  - apply dict_del_set.
  - intros Habs. rewrite dict_del_set. apply dict_del_absent.
    now apply dict_has_false.
  - apply dict_set_set.
  - apply dict_del_del.
  - apply dict_del_absent, dict_get_del_same.
Qed.

Lemma add_remove_compose_witness :
  remove_node (add_node example_graph "3" "C" []) "3" = example_graph.
Proof.
  exact (proj1 (proj2 (add_remove_compose example_graph "3" "3" "C" "C" [] []))
           eq_refl).
Defined.

(** ** What [update_node_input] leaves alone *)

(** X3. When [update_node_input] returns, the graph has the same ids in the
    same order, every other node is as it was, the updated node keeps its
    other fields and its other inputs, the ids stay distinct, and a second
    update of the same input overrides the first. *)
Theorem update_node_input_frame {rt : PyRuntime} (workflow workflow' : dict json)
    (node_id input_name value : string) :
  update_node_input workflow node_id input_name value = Ok workflow' ->
  dict_keys workflow' = dict_keys workflow
  /\ (forall k, k <> node_id -> dict_get k workflow' = dict_get k workflow)
  /\ (forall node node',
        dict_get node_id workflow = Some node ->
        dict_get node_id workflow' = Some node' ->
        (forall f, f <> "inputs" -> py_getitem node' f = py_getitem node f)
        /\ (forall n, n <> input_name ->
              dict_get n (node_inputs node') = dict_get n (node_inputs node)))
  /\ (dict_ok workflow -> dict_ok workflow')
  /\ (forall value',
        update_node_input workflow' node_id input_name value'
        = update_node_input workflow node_id input_name value').
Proof.
  intros Hupd.
  assert (Htol : update_tolerates workflow node_id = true).
  { apply update_node_input_returns with (input_name := input_name) (value := value).
    now exists workflow'. }
  unfold update_tolerates in Htol.
  destruct (dict_get node_id workflow) as [node|] eqn:Hnode.
  - destruct node as [| | | | | |fields]; try discriminate.
    destruct (dict_get "inputs" fields) as [[| | | | | |ins]|] eqn:Hins;
      try discriminate.
    rewrite (update_node_input_present workflow node_id input_name value fields ins
               Hnode Hins) in Hupd.
    injection Hupd as <-.
    assert (Hhas : dict_has node_id workflow = true)
      by (apply dict_has_get; eauto).
    split; [now apply dict_set_keys_present|].
    split; [intros k Hk; now apply dict_get_set_other|].
    split; [intros nd nd' H H0; split|split].
    + intros f Hf. rewrite dict_get_set_same in H0. injection H0 as <-.
      injection H as <-. simpl. now rewrite dict_get_set_other.
    + intros n Hn. rewrite dict_get_set_same in H0. injection H0 as <-.
      injection H as <-. simpl. rewrite dict_get_set_same, Hins.
      now apply dict_get_set_other.
    + apply dict_ok_set.
    + intros value'.
      rewrite (update_node_input_present _ node_id input_name value' _ _
                 (dict_get_set_same _ _ _) (dict_get_set_same _ _ _)).
      rewrite (update_node_input_present workflow node_id input_name value' fields ins
                 Hnode Hins).
      now rewrite !dict_set_set.
  - unfold update_node_input, dict_has in Hupd. rewrite Hnode in Hupd.
    injection Hupd as <-.
    repeat split; try tauto; discriminate.
Qed.

Lemma update_node_input_frame_witness :
  update_node_input (rt := sample_runtime)
    (add_node example_graph "2" "B" [("x", JInt 7)]) "2" "x" "true"
  = update_node_input (rt := sample_runtime) example_graph "2" "x" "true".
Proof.
  exact (proj2 (proj2 (proj2 (proj2
           (update_node_input_frame (rt := sample_runtime) example_graph
              (add_node example_graph "2" "B" [("x", JInt 7)]) "2" "x" "7"
              eq_refl)))) "true").
Defined.

(** ** What [validate_workflow] accepts *)

Section ValidFacts.
Context {rt : PyRuntime}.

Lemma graph_well_formed_nodes (workflow : dict json) :
  graph_well_formed workflow
  = forallb (fun item => node_well_formed (dict_keys workflow) (snd item)) workflow.
Proof. reflexivity. Qed.

Lemma flat_map_issues_of_input_nil node_ids node_id items :
  flat_map (issues_of_input node_ids node_id) items = []
  <-> forallb (fun inp => negb (dangling node_ids (snd inp))) items = true.
Proof.
  induction items as [|item items IH]; simpl; [tauto|].
  unfold issues_of_input at 1.
  destruct (dangling node_ids (snd item)); simpl.
  - split; discriminate.
  - exact IH.
Qed.

(** What one round of the loop adds is empty exactly for a well-formed node. *)
Lemma check_node_adds node_ids acc acc' node_id node :
  check_node node_ids acc (node_id, node) = Ok acc' ->
  exists added,
    acc' = acc ++ added
    /\ (added = [] <-> node_well_formed node_ids node = true).
Proof.
  unfold check_node, py_in, py_getitem, py_items, bind, node_well_formed, lacks,
    node_inputs, dict_has.
  destruct node as [| | | | s|xs|fields]; simpl; try discriminate.
  - destruct (str_contains "class_type" s), (str_contains "inputs" s); simpl;
      try discriminate; intros [= <-]; rewrite <- ?app_assoc;
      eexists; (split; [reflexivity | split; discriminate]).
  - repeat match goal with
           | |- context [existsb ?f xs] => destruct (existsb f xs); simpl
           end; try discriminate; intros [= <-]; rewrite <- ?app_assoc;
      eexists; (split; [reflexivity | split; discriminate]).
  - destruct (dict_get "class_type" fields);
      destruct (dict_get "inputs" fields) as [[| | | | | |ins]|]; simpl;
      try discriminate; intros [= <-];
      rewrite ?fold_check_input, <- ?app_assoc;
      eexists; (split; [reflexivity|]); simpl;
      try (split; discriminate);
      try apply flat_map_issues_of_input_nil.
Qed.

Lemma for_each_check_node_adds node_ids workflow acc acc' :
  for_each (check_node node_ids) workflow acc = Ok acc' ->
  exists added,
    acc' = acc ++ added
    /\ (added = []
        <-> forallb (fun item => node_well_formed node_ids (snd item)) workflow = true).
Proof.
  revert acc. induction workflow as [|[node_id node] workflow IH]; intros acc;
    cbn [for_each forallb snd].
  - intros [= <-]. exists []. rewrite app_nil_r. tauto.
  - destruct (check_node node_ids acc (node_id, node)) as [acc1|e] eqn:E;
      [|discriminate].
    apply check_node_adds in E as (a1 & -> & H1).
    intros H. apply IH in H as (a2 & -> & H2).
    exists (a1 ++ a2). split; [now rewrite app_assoc|].
    rewrite andb_true_iff, <- H1, <- H2.
    split.
    + intros H. apply app_eq_nil in H. exact H.
    + intros [-> ->]. reflexivity.
Qed.

Lemma validate_workflow_valid workflow r :
  validate_workflow workflow = Ok r ->
  node_count r = length workflow
  /\ (valid r = true <-> graph_well_formed workflow = true).
Proof.
  unfold validate_workflow, bind.
  destruct (for_each (check_node (dict_keys workflow)) workflow []) as [found|e] eqn:E;
    [|discriminate].
  intros [= <-]. cbn [valid node_count]. split; [reflexivity|].
  apply for_each_check_node_adds in E as (added & -> & H).
  rewrite graph_well_formed_nodes, <- H. simpl.
  destruct added; simpl; split; congruence.
Qed.

End ValidFacts.

(** X4. Whenever [validate_workflow] returns, [valid] is true exactly when
    every node has [class_type] and [inputs] and every input that is a
    two-element array names, by its first element as a string, an id of the
    graph; the check is by shape alone, so a two-element literal is held to
    the same test. *)
Theorem validate_workflow_accepts_exactly {rt : PyRuntime} (workflow : dict json)
    (r : validation) :
  validate_workflow workflow = Ok r ->
  (valid r = true <-> graph_well_formed workflow = true)
  /\ (valid r = true <->
      forall node_id node,
        In (node_id, node) workflow ->
        lacks "class_type" node = false
        /\ lacks "inputs" node = false
        /\ forall name v0 v1,
             In (name, JList [v0; v1]) (node_inputs node) ->
             In (py_str v0) (dict_keys workflow)).
Proof.
  intros Hr. destruct (validate_workflow_valid workflow r Hr) as [_ Hv].
  split; [exact Hv|]. rewrite Hv, graph_well_formed_nodes.
  rewrite forallb_forall. split.
  - intros H node_id node Hin. specialize (H _ Hin). cbn [snd] in H.
    unfold node_well_formed in H.
    apply andb_true_iff in H as [H H3]. apply andb_true_iff in H as [H1 H2].
    apply negb_true_iff in H1, H2. repeat split; try assumption.
    intros name v0 v1 Hinp. rewrite forallb_forall in H3.
    specialize (H3 _ Hinp). unfold dangling in H3. simpl in H3.
    apply negb_true_iff, negb_false_iff in H3. now apply str_in_In.
  - intros H [node_id node] Hin. destruct (H _ _ Hin) as (H1 & H2 & H3).
    cbn [snd]. unfold node_well_formed. rewrite H1, H2. simpl.
    apply forallb_forall. intros [name v] Hinp. cbn [snd]. unfold dangling.
    destruct v as [| | | | |xs|]; try reflexivity.
    destruct xs as [|v0 [|v1 [|v2 xs]]]; try reflexivity. simpl.
    apply negb_true_iff, negb_false_iff, str_in_In. eapply H3; eauto.
Qed.

Lemma validate_workflow_accepts_exactly_witness :
  graph_well_formed (rt := sample_runtime) example_graph = true.
Proof.
  exact (proj1 (proj1 (validate_workflow_accepts_exactly (rt := sample_runtime)
                         example_graph _ eq_refl)) eq_refl).
Defined.

(** ** Validity under [add_node] and [remove_node] *)

Section ValidMutations.
Context {rt : PyRuntime}.

Lemma dangling_more_ids (ids ids' : list string) (v : json) :
  (forall k, In k ids -> In k ids') ->
  dangling ids v = false -> dangling ids' v = false.
Proof.
  intros Hincl. unfold dangling.
  destruct (is_pair v); simpl; [|reflexivity].
  rewrite !negb_false_iff, !str_in_In. apply Hincl.
Qed.

Lemma node_well_formed_more_ids (ids ids' : list string) (node : json) :
  (forall k, In k ids -> In k ids') ->
  node_well_formed ids node = true -> node_well_formed ids' node = true.
Proof.
  intros Hincl. unfold node_well_formed.
  rewrite !andb_true_iff, !forallb_forall. intros [H12 H3]. split; [exact H12|].
  intros inp Hin. specialize (H3 inp Hin).
  apply negb_true_iff in H3. apply negb_true_iff.
  now apply (dangling_more_ids ids ids').
Qed.

Lemma dict_set_items {A : Type} (k : string) (v : A) (d : dict A) (item : string * A) :
  In item (dict_set k v d) -> item = (k, v) \/ In item d.
Proof.
  induction d as [|[k' v'] d IH]; simpl.
  - intros [<-|[]]. now left.
  - destruct (String.eqb_spec k' k) as [->|Hne]; simpl.
    + intros [<-|H]; [now left | right; now right].
    + intros [<-|H]; [right; now left|].
      destruct (IH H) as [->|H']; [now left | right; now right].
Qed.

Lemma dict_set_keys_more {A : Type} (k : string) (v : A) (d : dict A) (k0 : string) :
  In k0 (k :: dict_keys d) -> In k0 (dict_keys (dict_set k v d)).
Proof.
  destruct (dict_has k d) eqn:Hhas.
  - rewrite dict_set_keys_present by exact Hhas.
    intros [<-|H]; [now apply dict_has_key | exact H].
  - rewrite dict_set_absent by exact Hhas. rewrite dict_keys_app. simpl.
    intros [<-|H]; apply in_or_app; [right; now left | now left].
Qed.

Lemma dict_set_length {A : Type} (k : string) (v : A) (d : dict A) :
  length (dict_set k v d) = if dict_has k d then length d else S (length d).
Proof.
  unfold dict_has. induction d as [|[k' v'] d IH]; simpl; [reflexivity|].
  destruct (String.eqb k' k); simpl; [reflexivity|].
  rewrite IH. now destruct (dict_get k d).
Qed.

Lemma validate_workflow_returns_nodes (workflow : dict json) :
  (exists r, validate_workflow workflow = Ok r)
  <-> forall item, In item workflow -> validate_tolerates (snd item) = true.
Proof.
  fold (returns (validate_workflow workflow)).
  rewrite validate_workflow_returns, forallb_forall. split.
  - intros H item Hin. apply H. now apply in_map.
  - intros H node Hin. apply in_map_iff in Hin as (item & <- & Hin). now apply H.
Qed.

End ValidMutations.

(** X5. Adding a node to a graph that validates as valid gives a graph that
    validates as valid, provided each two-element array among the new inputs
    starts with a string that is the new id or an id of the graph; the node
    count grows by one for a new id and stays for an id that is
    overwritten. *)
Theorem add_node_keeps_valid {rt : PyRuntime} (workflow : dict json) (r : validation)
    (node_id node_type : string) (inputs : dict json) :
  validate_workflow workflow = Ok r ->
  valid r = true ->
  forallb (fun inp => source_is_str (snd inp)) inputs = true ->
  forallb (fun inp => negb (dangling (node_id :: dict_keys workflow) (snd inp)))
    inputs = true ->
  exists r',
    validate_workflow (add_node workflow node_id node_type inputs) = Ok r'
    /\ valid r' = true
    /\ issues r' = []
    /\ node_count r'
       = if dict_has node_id workflow then node_count r else S (node_count r).
Proof.
  intros Hr Hvalid _ Hinputs.
  destruct (validate_workflow_valid workflow r Hr) as [Hcount Hv].
  apply Hv in Hvalid. rewrite graph_well_formed_nodes, forallb_forall in Hvalid.
  assert (Hret : exists r', validate_workflow (add_node workflow node_id node_type inputs)
                            = Ok r').
  { apply validate_workflow_returns_nodes. intros item Hin.
    apply dict_set_items in Hin as [->|Hin]; [reflexivity|].
    apply (proj1 (validate_workflow_returns_nodes workflow)); eauto. }
  destruct Hret as [r' Hr']. exists r'. split; [exact Hr'|].
  destruct (validate_workflow_valid _ r' Hr') as [Hcount' Hv'].
  assert (Hvalid' : valid r' = true).
  { apply Hv'. rewrite graph_well_formed_nodes. apply forallb_forall.
    intros item Hin. unfold add_node in *.
    apply dict_set_items in Hin as [->|Hin].
    - cbn [snd]. unfold node_well_formed. simpl.
      rewrite forallb_forall in *. intros inp Hinp.
      specialize (Hinputs inp Hinp). apply negb_true_iff in Hinputs.
      apply negb_true_iff.
      eapply dangling_more_ids; [|exact Hinputs]. apply dict_set_keys_more.
    - eapply node_well_formed_more_ids; [|now apply Hvalid].
      intros k Hk. apply dict_set_keys_more. now right. }
  split; [exact Hvalid'|]. split.
  - unfold validate_workflow, bind in Hr'.
    destruct (for_each _ _ _) as [found|]; [|discriminate].
    injection Hr' as <-. simpl in *. destruct found; [reflexivity | discriminate].
  - rewrite Hcount', Hcount. apply dict_set_length.
Qed.

Lemma add_node_keeps_valid_witness :
  exists r',
    validate_workflow (rt := sample_runtime)
      (add_node example_graph "3" "C"
         [("text", JStr "hello"); ("src", JList [JStr "2"; JInt 0])])
    = Ok r'
    /\ valid r' = true /\ issues r' = [] /\ node_count r' = 3.
Proof.
  exact (add_node_keeps_valid (rt := sample_runtime) example_graph _ "3" "C"
           [("text", JStr "hello"); ("src", JList [JStr "2"; JInt 0])]
           eq_refl eq_refl eq_refl eq_refl).
Defined.

Section RemoveValid.
Context {rt : PyRuntime}.

Lemma str_in_filter (s k : string) (l : list string) :
  str_in s (List.filter (fun k' => negb (String.eqb k' k)) l)
  = str_in s l && negb (String.eqb s k).
Proof.
  induction l as [|x l IH]; simpl; [reflexivity|].
  destruct (String.eqb_spec x k) as [->|Hxk]; simpl.
  - rewrite IH. destruct (String.eqb_spec k s) as [->|Hks]; simpl.
    + rewrite String.eqb_refl. now rewrite andb_false_r.
    + reflexivity.
  - destruct (String.eqb_spec x s) as [->|Hxs]; simpl.
    + destruct (String.eqb_spec s k); [congruence | reflexivity].
    + exact IH.
Qed.

(** With the id removed from a graph whose connections all had their source,
    a node is well formed exactly when it does not refer to the id. *)
Lemma node_well_formed_without (ids : list string) (k : string) (node : json) :
  node_well_formed ids node = true ->
  node_well_formed (List.filter (fun k' => negb (String.eqb k' k)) ids) node
  = negb (refers_to k node).
Proof.
  unfold node_well_formed, refers_to.
  rewrite !andb_true_iff. intros [[-> ->] H3]. simpl.
  induction (node_inputs node) as [|inp inps IH]; simpl in *; [reflexivity|].
  apply andb_true_iff in H3 as [H H3]. rewrite (IH H3).
  rewrite negb_orb. f_equal.
  unfold dangling in *. destruct (is_pair (snd inp)); simpl in *; [|reflexivity].
  apply negb_true_iff, negb_false_iff in H.
  rewrite str_in_filter, H. simpl. now rewrite negb_involutive.
Qed.

End RemoveValid.

(** X6. After [remove_node] on a graph that validates as valid, validation
    still returns, and the graph is valid exactly when no remaining node has a
    two-element array whose first element, as a string, is the removed id. *)
Theorem remove_node_valid_iff {rt : PyRuntime} (workflow : dict json) (r : validation)
    (node_id : string) :
  validate_workflow workflow = Ok r ->
  valid r = true ->
  exists r',
    validate_workflow (remove_node workflow node_id) = Ok r'
    /\ (valid r' = true
        <-> forallb (fun item => negb (refers_to node_id (snd item)))
              (remove_node workflow node_id) = true).
Proof.
  intros Hr Hvalid.
  destruct (validate_workflow_valid workflow r Hr) as [_ Hv].
  apply Hv in Hvalid. rewrite graph_well_formed_nodes, forallb_forall in Hvalid.
  rewrite remove_node_is_del, dict_del_filter.
  set (kept := List.filter (fun item => negb (String.eqb (fst item) node_id)) workflow).
  assert (Hkept : forall item, In item kept -> In item workflow).
  { intros item Hin. now apply filter_In in Hin as [Hin _]. }
  assert (Hret : exists r', validate_workflow kept = Ok r').
  { apply validate_workflow_returns_nodes. intros item Hin.
    apply (proj1 (validate_workflow_returns_nodes workflow)); eauto. }
  destruct Hret as [r' Hr']. exists r'. split; [exact Hr'|].
  destruct (validate_workflow_valid _ r' Hr') as [_ Hv'].
  rewrite Hv', graph_well_formed_nodes.
  assert (Hkeys : dict_keys kept
                  = List.filter (fun k' => negb (String.eqb k' node_id))
                      (dict_keys workflow)).
  { unfold kept. rewrite <- dict_del_filter. apply dict_keys_del. }
  rewrite Hkeys. rewrite !forallb_forall.
  split; intros H item Hin; specialize (H item Hin).
  - now rewrite node_well_formed_without in H by (apply Hvalid; auto).
  - now rewrite node_well_formed_without by (apply Hvalid; auto).
Qed.

Lemma remove_node_valid_iff_witness :
  exists r',
    validate_workflow (rt := sample_runtime) (remove_node example_graph "2") = Ok r'
    /\ (valid r' = true
        <-> forallb (fun item => negb (refers_to (rt := sample_runtime) "2" (snd item)))
              (remove_node example_graph "2") = true).
Proof.
  exact (remove_node_valid_iff (rt := sample_runtime) example_graph _ "2"
           eq_refl eq_refl).
Defined.

(** ** What [from_api_format] accepts and keeps *)

Lemma WorkflowNode_validate_accepts (node_data : json) :
  (exists n, WorkflowNode_validate node_data = Ok n)
  <-> node_validates node_data = true.
Proof.
  unfold WorkflowNode_validate, node_validates.
  destruct node_data as [| | | | | |fields];
    try (split; [intros [n Hn]; discriminate | discriminate]).
  destruct (dict_get "class_type" fields) as [[| | | |ct| |]|];
    try (split; [intros [n Hn]; discriminate | discriminate]).
  destruct (dict_get "inputs" fields) as [[| | | | | |ins]|];
    split; try discriminate; try (intros [n Hn]; discriminate); eauto.
Qed.

Lemma WorkflowNode_validate_keeps (node_data : json) (n : WorkflowNode) :
  WorkflowNode_validate node_data = Ok n ->
  WorkflowNode_model_dump n = kept_of_node node_data.
Proof.
  unfold WorkflowNode_validate, kept_of_node, WorkflowNode_model_dump.
  destruct node_data as [| | | | | |fields]; try discriminate.
  destruct (dict_get "class_type" fields) as [[| | | |ct| |]|]; try discriminate.
  destruct (dict_get "inputs" fields) as [[| | | | | |ins]|]; try discriminate;
    intros [= <-]; reflexivity.
Qed.

Lemma from_api_format_loop (doc : dict json) (acc acc' : dict WorkflowNode) :
  List.NoDup (dict_keys acc ++ dict_keys doc) ->
  for_each (fun nodes item =>
              node <- WorkflowNode_validate (snd item) ;;
              Ok (dict_set (fst item) node nodes))
           doc acc
  = Ok acc' ->
  exists ns,
    acc' = acc ++ ns
    /\ dict_keys ns = dict_keys doc
    /\ map (fun kv => (fst kv, WorkflowNode_model_dump (snd kv))) ns
       = map (fun kv => (fst kv, kept_of_node (snd kv))) doc.
Proof.
  revert acc. induction doc as [|[k node] doc IH]; intros acc Hnd;
    cbn [for_each fst snd].
  - intros [= <-]. exists []. now rewrite app_nil_r.
  - destruct (WorkflowNode_validate node) as [n|e] eqn:Hn; [|discriminate].
    cbn [bind].
    assert (Hk : ~ In k (dict_keys acc)).
    { intros Hin. apply List.NoDup_remove_2 in Hnd. apply Hnd.
      apply in_or_app. now left. }
    rewrite dict_set_fresh by exact Hk.
    intros H. apply IH in H as (ns & -> & Hkeys & Hdump).
    + exists ((k, n) :: ns). split; [now rewrite <- app_assoc|].
      split; simpl; [now rewrite Hkeys|].
      rewrite Hdump. now rewrite (WorkflowNode_validate_keeps node n Hn).
    + rewrite dict_keys_app, <- app_assoc. exact Hnd.
Qed.

Lemma from_api_format_loop_returns (doc : dict json) (acc : dict WorkflowNode) :
  (exists acc',
     for_each (fun nodes item =>
                 node <- WorkflowNode_validate (snd item) ;;
                 Ok (dict_set (fst item) node nodes))
              doc acc
     = Ok acc')
  <-> forallb node_validates (map snd doc) = true.
Proof.
  revert acc. induction doc as [|[k node] doc IH]; intros acc;
    cbn [for_each map forallb fst snd].
  - split; eauto.
  - rewrite andb_true_iff, <- WorkflowNode_validate_accepts.
    destruct (WorkflowNode_validate node) as [n|e]; cbn [bind].
    + rewrite IH. split; [intros H; split; eauto | tauto].
    + split; [intros [a Ha]; discriminate | intros [[a Ha] _]; discriminate].
Qed.

(** X7. [from_api_format] returns exactly when every node is an object with
    a string [class_type] and with [inputs] absent or an object.  What it
    returns dumps to the document with each node cut down to [class_type] and
    [inputs], an absent [inputs] made an empty object, and reads back from
    that dump as itself. *)
Theorem from_api_format_keeps (doc : dict json) :
  dict_ok doc ->
  ((exists G, from_api_format doc = Ok G)
   <-> forallb node_validates (map snd doc) = true)
  /\ forall G,
       from_api_format doc = Ok G ->
       to_api_format G = map (fun kv => (fst kv, kept_of_node (snd kv))) doc
       /\ dict_keys (nodes G) = dict_keys doc
       /\ from_api_format (to_api_format G) = Ok G.
Proof.
  intros Hok. unfold from_api_format. split.
  - rewrite <- (from_api_format_loop_returns doc []). unfold bind at 1.
    match goal with
    | |- context [for_each ?f doc []] => destruct (for_each f doc []) as [ns|e]
    end; split; eauto; intros [a Ha]; discriminate.
  - intros G. unfold bind at 1.
    match goal with
    | |- context [for_each ?f doc []] =>
        destruct (for_each f doc []) as [ns|e] eqn:E; [|discriminate]
    end.
    intros [= <-]. apply from_api_format_loop in E as (ns' & -> & Hkeys & Hdump);
      [|exact Hok].
    simpl. unfold to_api_format. cbn [nodes].
    split; [exact Hdump|]. split; [exact Hkeys|].
    rewrite from_api_format_loop_dump; [reflexivity|].
    simpl. unfold dict_ok in Hok. now rewrite Hkeys.
Qed.

Lemma from_api_format_keeps_witness :
  exists G,
    from_api_format [("1", JDict [("class_type", JStr "A"); ("_meta", JStr "note")])]
    = Ok G
    /\ to_api_format G = [("1", JDict [("class_type", JStr "A"); ("inputs", JDict [])])].
Proof.
  assert (Hok : dict_ok [("1", JDict [("class_type", JStr "A"); ("_meta", JStr "note")])]).
  { unfold dict_ok. simpl. repeat constructor. intros []. }
  destruct (proj2 (proj1 (from_api_format_keeps _ Hok)) eq_refl) as [G HG].
  exists G. split; [exact HG|].
  exact (proj1 (proj2 (from_api_format_keeps _ Hok) G HG)).
Defined.

Lemma map_dict_set {A B : Type} (f : A -> B) (k : string) (v : A) (d : dict A) :
  map (fun kv => (fst kv, f (snd kv))) (dict_set k v d)
  = dict_set k (f v) (map (fun kv => (fst kv, f (snd kv))) d).
Proof.
  induction d as [|[k' v'] d IH]; simpl; [reflexivity|].
  destruct (String.eqb k' k); simpl; [reflexivity|]. now rewrite IH.
Qed.

(** X8. Adding a node to the model and dumping it gives what the tool
    [add_node] gives on the dump. *)
Theorem Workflow_add_node_dump (G : Workflow) (node_id class_type : string)
    (inputs : dict json) :
  to_api_format (Workflow_add_node G node_id class_type inputs)
  = add_node (to_api_format G) node_id class_type inputs.
Proof.
  unfold to_api_format, Workflow_add_node, add_node. cbn [nodes].
  apply (map_dict_set WorkflowNode_model_dump).
Qed.

(** ** The file name of [save_workflow] *)

Lemma length_append (s1 s2 : string) :
  String.length (s1 +:+ s2) = String.length s1 + String.length s2.
Proof. induction s1 as [|c s1 IH]; simpl; [reflexivity | now rewrite IH]. Qed.

Lemma substring_all (s : string) : String.substring 0 (String.length s) s = s.
Proof. induction s as [|c s IH]; simpl; [reflexivity | now rewrite IH]. Qed.

Lemma substring_append (s1 s2 : string) :
  String.substring (String.length s1) (String.length s2) (s1 +:+ s2) = s2.
Proof.
  induction s1 as [|c s1 IH]; simpl; [apply substring_all | exact IH].
Qed.

Lemma str_endswith_append (s suffix : string) :
  str_endswith (s +:+ suffix) suffix = true.
Proof.
  unfold str_endswith. rewrite length_append.
  replace (String.length s + String.length suffix - String.length suffix)
    with (String.length s) by lia.
  rewrite substring_append, String.eqb_refl.
  rewrite andb_true_r. apply Nat.leb_le. lia.
Qed.

(** X9. [save_workflow] treats a name without the ending .json as the name
    with it: both calls ask the same of the file system and return the same,
    and the name with the ending is used as it is. *)
Theorem save_workflow_adds_extension (settings : Settings)
    (os : FileSystem) (exception_str : exn -> string) (workflow : dict json)
    (name : string) :
  str_endswith name ".json" = false ->
  save_workflow settings os exception_str workflow name
  = save_workflow settings os exception_str workflow (name +:+ ".json")
  /\ (not_configured settings = false ->
      mkdir_parents os
        (path_parent os (path_join os (configured_dir settings) (name +:+ ".json")))
      = Ok tt ->
      write_text os (path_join os (configured_dir settings) (name +:+ ".json"))
        (json_dumps_indent 2 (JDict workflow))
      = Ok tt ->
      save_workflow settings os exception_str workflow name
      = Ok ("Saved: " +:+ path_join os (configured_dir settings) (name +:+ ".json"))).
Proof.
  intros Hext. unfold save_workflow.
  rewrite Hext, str_endswith_append. cbn [negb].
  split; [reflexivity|].
  intros -> Hmk Hwr. unfold try_except, bind. now rewrite Hmk, Hwr.
Qed.

Lemma save_workflow_adds_extension_witness :
  save_workflow example_settings example_fs (fun _ => "failed")
    example_graph "flux"
  = Ok "Saved: /workflows/flux.json".
Proof.
  exact (proj2 (save_workflow_adds_extension example_settings
                  example_fs (fun _ => "failed") example_graph "flux" eq_refl)
           eq_refl eq_refl eq_refl).
Defined.

(** ** [get_workflow_template] in any store *)

(** X10. Whatever the store and the name, [get_workflow_template] stores
    into no existing cell: the store it leaves is the store it found, extended
    by new cells, and unchanged when the call raises. *)
Theorem get_workflow_template_only_allocates {rt : PyRuntime} (name : string)
    (h : heap) :
  exists new_cells,
    snd (get_workflow_template name h) = h ++ new_cells
    /\ (forall l, l < length h ->
          snd (get_workflow_template name h) !! l = h !! l)
    /\ (forall e, fst (get_workflow_template name h) = Raise e -> new_cells = []).
Proof.
  assert (Hgoal : exists new_cells,
             snd (get_workflow_template name h) = h ++ new_cells
             /\ (forall e, fst (get_workflow_template name h) = Raise e ->
                           new_cells = [])).
  { unfold get_workflow_template.
    assert (Hnone : exists new_cells : list cell,
               h = h ++ new_cells /\ new_cells = [])
      by (exists []; now rewrite app_nil_r).
    destruct (dict_cell h TEMPLATES_ref) as [templates|e0];
      [|destruct Hnone as (c & H1 & H2); exists c; split; [exact H1 | intros; exact H2]].
    destruct (negb (dict_has name templates)).
    - match goal with
      | |- context [alloc ?j h] =>
          destruct (alloc_extends j h) as [ext Hext]; destruct (alloc j h) as [v h']
      end.
      simpl in *. exists ext. split; [exact Hext | discriminate].
    - destruct (dict_get name templates) as [entry|];
        [|destruct Hnone as (c & H1 & H2); exists c; split; [exact H1 | intros; exact H2]].
      destruct (content h entry) as [tree|];
        [|destruct Hnone as (c & H1 & H2); exists c; split; [exact H1 | intros; exact H2]].
      destruct (json_loads (json_dumps tree)) as [copy|e1];
        [|destruct Hnone as (c & H1 & H2); exists c; split; [exact H1 | intros; exact H2]].
      destruct (alloc_extends copy h) as [ext Hext]. destruct (alloc copy h) as [v h'].
      simpl in *. exists ext. split; [exact Hext | discriminate]. }
  destruct Hgoal as (new_cells & Heq & Hraise).
  exists new_cells. split; [exact Heq|]. split; [|exact Hraise].
  intros l Hl. rewrite Heq. now apply lookup_app_l.
Qed.

(** ** Texts that [json.loads] rejects *)

Section RawText.
Context {rt : PyRuntime}.

Lemma prefix_other_head (c d : ascii) (p r : string) :
  Ascii.eqb d c = false -> String.prefix (String c p) (String d r) = false.
Proof.
  intros H. simpl. destruct (ascii_dec c d) as [->|_]; [|reflexivity].
  now rewrite Ascii.eqb_refl in H.
Qed.

Lemma scan_once_rejects (n : nat) (c : ascii) (r : string) :
  value_start c = false -> scan_once n (String c r) = None.
Proof.
  unfold value_start. simpl. rewrite !orb_false_iff.
  intros (Hdigit & Hq & Ho & Ha & Hm & Hn & Ht & Hf & HN & HI & _).
  destruct n as [|n]; [reflexivity|]. cbn [scan_once].
  rewrite Hq, Ho, Ha.
  unfold match_constant, strip_prefix.
  rewrite !prefix_other_head by assumption.
  unfold match_number, number_sign. rewrite Hm.
  unfold number_integer. rewrite Hdigit.
  destruct (Ascii.eqb_spec c "0") as [->|_]; [discriminate | reflexivity].
Qed.

Lemma json_loads_rejects (text : string) :
  match skip_ws text with
  | EmptyString => true
  | String c _ => negb (value_start c)
  end = true ->
  json_loads text = Raise JSONDecodeError.
Proof.
  intros H. unfold json_loads.
  destruct (String.prefix utf8_bom text); [reflexivity|].
  destruct (skip_ws text) as [|c r].
  - now destruct (json_fuel text).
  - apply negb_true_iff in H. now rewrite scan_once_rejects.
Qed.

End RawText.

(** X11. A text that is blank, or whose first character after leading
    blanks is none of the characters a JSON value can start with (a digit, a
    minus sign, a quote, a bracket, a brace, or one of n, t, f, N, I), is
    rejected by [json.loads], and [update_node_input] stores the text itself
    as a string. *)
Theorem update_node_input_keeps_plain_text {rt : PyRuntime} (workflow : dict json)
    (node_id input_name value : string) (fields ins : dict json) :
  match skip_ws value with
  | EmptyString => true
  | String c _ => negb (value_start c)
  end = true ->
  dict_get node_id workflow = Some (JDict fields) ->
  dict_get "inputs" fields = Some (JDict ins) ->
  json_loads value = Raise JSONDecodeError
  /\ update_node_input workflow node_id input_name value
     = Ok (dict_set node_id
             (JDict (dict_set "inputs" (JDict (dict_set input_name (JStr value) ins))
                       fields))
             workflow).
Proof.
  intros Htext Hnode Hins.
  pose proof (json_loads_rejects value Htext) as Hloads.
  split; [exact Hloads|].
  rewrite (update_node_input_present workflow node_id input_name value fields ins
             Hnode Hins).
  now rewrite Hloads.
Qed.

Lemma update_node_input_keeps_plain_text_witness :
  update_node_input (rt := sample_runtime) example_graph "2" "x" "a cat, 4k"
  = Ok [("1", JDict [("class_type", JStr "A"); ("inputs", JDict [])]);
        ("2", JDict [("class_type", JStr "B");
                     ("inputs", JDict [("x", JStr "a cat, 4k")])])].
Proof.
  exact (proj2 (update_node_input_keeps_plain_text (rt := sample_runtime)
                  example_graph "2" "x" "a cat, 4k" _ _ eq_refl eq_refl eq_refl)).
Defined.

(** ** [json.loads] reads back what [json.dumps] writes *)

Lemma str_append_cons (x : ascii) (a b : string) :
  String x a +:+ b = String x (a +:+ b).
Proof. reflexivity. Qed.

Lemma str_append_assoc (a b c : string) : (a +:+ b) +:+ c = a +:+ (b +:+ c).
Proof.
  induction a as [|x a IH]; [reflexivity|].
  now rewrite !str_append_cons, IH.
Qed.

Lemma str_append_nil (a : string) : a +:+ EmptyString = a.
Proof.
  induction a as [|x a IH]; [reflexivity|].
  now rewrite str_append_cons, IH.
Qed.

Lemma concat_empty_cons (x : string) (xs : list string) :
  String.concat EmptyString (x :: xs) = x +:+ String.concat EmptyString xs.
Proof. destruct xs; simpl; [now rewrite str_append_nil | reflexivity]. Qed.

Lemma utf8_decode_ascii (s : string) :
  ascii_only s = true -> utf8_decode s = map N_of_ascii (list_ascii_of_string s).
Proof.
  unfold ascii_only. induction s as [|c s IH]; [reflexivity|].
  cbn [list_ascii_of_string forallb map utf8_decode].
  intros [Hc Hs]%andb_true_iff.
  apply N.ltb_lt in Hc.
  replace (N_of_ascii c <? 192)%N with true by (symmetry; apply N.ltb_lt; lia).
  now rewrite IH.
Qed.

(** One escaped character is read back as the character. *)
Lemma scanstring_escape (c : ascii) (fuel : nat) (tail : string) :
  (N_of_ascii c <? 128)%N = true ->
  scanstring (S fuel) (escape_ascii (N_of_ascii c) +:+ tail)
  = match scanstring fuel tail with
    | Some (str, rest) => Some (String c str, rest)
    | None => None
    end.
Proof.
  destruct c as [[] [] [] [] [] [] [] []]; intros H; try discriminate H;
    reflexivity.
Qed.

Lemma scanstring_encoded (s rest : string) (fuel : nat) :
  ascii_only s = true ->
  String.length s < fuel ->
  scanstring fuel
    (String.concat EmptyString (map escape_ascii (utf8_decode s))
     +:+ String dquote rest)
  = Some (s, rest).
Proof.
  intros Hs. rewrite (utf8_decode_ascii s Hs). revert fuel.
  unfold ascii_only in Hs.
  induction s as [|c s IH]; intros fuel Hfuel.
  - destruct fuel; [simpl in Hfuel; lia | reflexivity].
  - cbn [list_ascii_of_string forallb map] in Hs |- *.
    apply andb_true_iff in Hs as [Hc Hs].
    destruct fuel as [|fuel]; [lia|]. simpl in Hfuel.
    rewrite concat_empty_cons, str_append_assoc, scanstring_escape by exact Hc.
    rewrite IH by (assumption || lia). reflexivity.
Qed.

Lemma escape_ascii_length (c : ascii) :
  1 <= String.length (escape_ascii (N_of_ascii c)).
Proof. destruct c as [[] [] [] [] [] [] [] []]; vm_compute; lia. Qed.

Lemma encoded_length (chars : list ascii) :
  length chars
  <= String.length (String.concat EmptyString (map escape_ascii (map N_of_ascii chars))).
Proof.
  induction chars as [|c chars IH]; [simpl; lia|].
  cbn [map]. rewrite concat_empty_cons, length_append.
  pose proof (escape_ascii_length c). simpl. lia.
Qed.

Lemma length_list_ascii (s : string) :
  length (list_ascii_of_string s) = String.length s.
Proof. induction s as [|c s IH]; simpl; [reflexivity | now rewrite IH]. Qed.

Section ReadBack.
Context {rt : PyRuntime}.

Lemma scan_once_string (s rest : string) (n : nat) :
  ascii_only s = true ->
  scan_once (S n) (encode_basestring_ascii s +:+ rest) = Some (JStr s, rest).
Proof.
  intros Hs. unfold encode_basestring_ascii.
  rewrite str_append_cons. cbn [scan_once]. rewrite Ascii.eqb_refl.
  rewrite str_append_assoc. unfold str1. rewrite str_append_cons.
  change (EmptyString +:+ rest) with rest.
  rewrite scanstring_encoded; [reflexivity | exact Hs |].
  rewrite length_append, (utf8_decode_ascii s Hs).
  pose proof (encoded_length (list_ascii_of_string s)) as L.
  rewrite length_list_ascii in L. simpl. lia.
Qed.

End ReadBack.

(** *** Numbers *)

Lemma ends_value_head (c : ascii) (r : string) :
  ends_value (String c r) = true ->
  c = ","%char \/ c = "]"%char \/ c = "}"%char \/ c = newline.
Proof.
  unfold ends_value, existsb.
  destruct (Ascii.eqb_spec c ","); [auto|].
  destruct (Ascii.eqb_spec c "]"); [auto|].
  destruct (Ascii.eqb_spec c "}"); [auto|].
  destruct (Ascii.eqb_spec c newline); [auto|]. discriminate.
Qed.

Ltac ends_value_cases H :=
  apply ends_value_head in H; destruct H as [->|[->|[->| ->]]].

Lemma take_digits_app (s ds rem rest : string) :
  ends_value rest = true ->
  take_digits s = (ds, rem) ->
  take_digits (s +:+ rest) = (ds, rem +:+ rest).
Proof.
  intros Hrest. revert ds rem. induction s as [|c s IH]; intros ds rem.
  - intros [= <- <-]. destruct rest as [|c r]; [reflexivity|].
    ends_value_cases Hrest; reflexivity.
  - rewrite str_append_cons. cbn [take_digits].
    destruct (is_digit c).
    + destruct (take_digits s) as [ds' rem'] eqn:E. intros [= <- <-].
      now rewrite (IH _ _ eq_refl).
    + intros [= <- <-]. reflexivity.
Qed.

Lemma number_sign_app (s sg rem rest : string) :
  ends_value rest = true ->
  number_sign s = (sg, rem) ->
  number_sign (s +:+ rest) = (sg, rem +:+ rest).
Proof.
  intros Hrest. destruct s as [|c s].
  - intros [= <- <-]. destruct rest as [|c r]; [reflexivity|].
    ends_value_cases Hrest; reflexivity.
  - rewrite str_append_cons. cbn [number_sign].
    destruct (Ascii.eqb c "-"); intros [= <- <-]; reflexivity.
Qed.

Lemma number_integer_app (s ds rem rest : string) :
  ends_value rest = true ->
  number_integer s = Some (ds, rem) ->
  number_integer (s +:+ rest) = Some (ds, rem +:+ rest).
Proof.
  intros Hrest. destruct s as [|c s]; [discriminate|].
  rewrite str_append_cons. cbn [number_integer].
  destruct (Ascii.eqb c "0"); [now intros [= <- <-]|].
  destruct (is_digit c); [|discriminate].
  destruct (take_digits s) as [ds' rem'] eqn:E. intros [= <- <-].
  now rewrite (take_digits_app _ _ _ _ Hrest E).
Qed.

Lemma number_fraction_app (s fr rem rest : string) :
  ends_value rest = true ->
  number_fraction s = (fr, rem) ->
  number_fraction (s +:+ rest) = (fr, rem +:+ rest).
Proof.
  intros Hrest. destruct s as [|dot [|d s]].
  - intros [= <- <-]. destruct rest as [|c [|d r]]; [reflexivity|..];
      ends_value_cases Hrest; reflexivity.
  - intros [= <- <-]. rewrite str_append_cons.
    change (EmptyString +:+ rest) with rest.
    destruct rest as [|c r]; [reflexivity|].
    cbn [number_fraction].
    replace (is_digit c) with false
      by (ends_value_cases Hrest; reflexivity).
    now rewrite andb_false_r.
  - rewrite !str_append_cons. cbn [number_fraction].
    destruct (Ascii.eqb dot "." && is_digit d).
    + destruct (take_digits s) as [ds' rem'] eqn:E. intros [= <- <-].
      now rewrite (take_digits_app _ _ _ _ Hrest E).
    + intros [= <- <-]. reflexivity.
Qed.

Lemma number_exponent_app (s ex rem rest : string) :
  ends_value rest = true ->
  number_exponent s = (ex, rem) ->
  number_exponent (s +:+ rest) = (ex, rem +:+ rest).
Proof.
  intros Hrest. destruct s as [|e s].
  - intros [= <- <-]. destruct rest as [|c r]; [reflexivity|].
    ends_value_cases Hrest; reflexivity.
  - rewrite str_append_cons. cbn [number_exponent].
    destruct (Ascii.eqb e "e" || Ascii.eqb e "E"); [|now intros [= <- <-]].
    destruct s as [|c s].
    + change (EmptyString +:+ rest) with rest.
      cbn [take_digits]. intros [= <- <-].
      destruct rest as [|c r]; [reflexivity|].
      ends_value_cases Hrest; reflexivity.
    + rewrite str_append_cons.
      destruct (Ascii.eqb c "-" || Ascii.eqb c "+").
      * destruct (take_digits s) as [ds rem'] eqn:E.
        rewrite (take_digits_app _ _ _ _ Hrest E).
        destruct ds; intros [= <- <-]; reflexivity.
      * destruct (take_digits (String c s)) as [ds rem'] eqn:E.
        change (String c (s +:+ rest)) with (String c s +:+ rest).
        rewrite (take_digits_app _ _ _ _ Hrest E).
        destruct ds; intros [= <- <-]; reflexivity.
Qed.

Section NumberFacts.
Context {rt : PyRuntime}.

(** A number token is read alike when a text follows at which a value ends. *)
Lemma match_number_app (s rem rest : string) (v : json) :
  ends_value rest = true ->
  match_number s = Some (v, rem) ->
  match_number (s +:+ rest) = Some (v, rem +:+ rest).
Proof.
  intros Hrest. unfold match_number.
  destruct (number_sign s) as [sg s1] eqn:E1.
  rewrite (number_sign_app _ _ _ _ Hrest E1).
  destruct (number_integer s1) as [[ds s2]|] eqn:E2; [|discriminate].
  rewrite (number_integer_app _ _ _ _ Hrest E2).
  destruct (number_fraction s2) as [fr s3] eqn:E3.
  rewrite (number_fraction_app _ _ _ _ Hrest E3).
  destruct (number_exponent s3) as [ex s4] eqn:E4.
  rewrite (number_exponent_app _ _ _ _ Hrest E4).
  destruct fr, ex; intros [= <- <-]; reflexivity.
Qed.

(** A number token starts with a digit, or with a minus sign and a digit;
    no named constant starts like this. *)
Lemma match_number_head (s rem : string) (v : json) :
  match_number s = Some (v, rem) ->
  exists c r,
    s = String c r
    /\ value_start c = true
    /\ Ascii.eqb c dquote = false
    /\ Ascii.eqb c "{" = false
    /\ Ascii.eqb c "[" = false
    /\ forall rest, match_constant (s +:+ rest) = None.
Proof.
  unfold match_number. destruct s as [|c r]; [discriminate|].
  cbn [number_sign].
  destruct (Ascii.eqb_spec c "-") as [->|Hminus].
  - destruct (number_integer r) as [[ds s2]|] eqn:E2; [|discriminate].
    intros _. exists "-"%char, r. repeat split; try reflexivity.
    intros rest. destruct r as [|d r]; [discriminate|].
    rewrite !str_append_cons.
    assert (Ascii.eqb d "I" = false) as HI.
    { cbn [number_integer] in E2.
      destruct (Ascii.eqb_spec d "I") as [->|]; [discriminate | reflexivity]. }
    unfold match_constant, strip_prefix.
    rewrite !(prefix_other_head _ "-") by reflexivity.
    replace (String.prefix "-Infinity" (String "-" (String d (r +:+ rest))))
      with false; [reflexivity|].
    symmetry. cbn [String.prefix].
    destruct (ascii_dec "-" "-"); [|congruence].
    apply prefix_other_head. exact HI.
  - destruct (number_integer (String c r)) as [[ds s2]|] eqn:E2; [|discriminate].
    intros _. exists c, r.
    assert (is_digit c = true) as Hd.
    { cbn [number_integer] in E2.
      destruct (Ascii.eqb_spec c "0") as [->|]; [reflexivity|].
      destruct (is_digit c); [reflexivity | discriminate]. }
    assert (forall x, is_digit x = false -> Ascii.eqb c x = false) as Hne.
    { intros x Hx. destruct (Ascii.eqb_spec c x) as [->|]; [congruence | reflexivity]. }
    split; [reflexivity|]. split; [unfold value_start; now rewrite Hd|].
    repeat split; try (apply Hne; reflexivity).
    intros rest. rewrite str_append_cons.
    unfold match_constant, strip_prefix.
    rewrite !prefix_other_head by (apply Hne; reflexivity).
    reflexivity.
Qed.

End NumberFacts.

(** *** Integers *)

Lemma pretty_N_char_digit (d : N) :
  (d < 10)%N ->
  is_digit (pretty_N_char d) = true
  /\ Z.of_N (N_of_ascii (pretty_N_char d) - 48) = Z.of_N d
  /\ (d <> 0%N -> Ascii.eqb (pretty_N_char d) "0" = false).
Proof.
  intros H.
  assert (d = 0 \/ d = 1 \/ d = 2 \/ d = 3 \/ d = 4 \/ d = 5 \/ d = 6 \/ d = 7
          \/ d = 8 \/ d = 9)%N as Hd by lia.
  repeat (destruct Hd as [->|Hd]); try subst d;
    (split; [reflexivity | split; [reflexivity | intros; try reflexivity; congruence]]).
Qed.

Lemma list_ascii_append (a b : string) :
  list_ascii_of_string (a +:+ b) = list_ascii_of_string a ++ list_ascii_of_string b.
Proof.
  induction a as [|c a IH]; [reflexivity|].
  rewrite str_append_cons. simpl. now rewrite IH.
Qed.

Lemma take_digits_all (ds : string) :
  forallb is_digit (list_ascii_of_string ds) = true ->
  take_digits ds = (ds, EmptyString).
Proof.
  induction ds as [|c ds IH]; [reflexivity|].
  cbn [list_ascii_of_string forallb take_digits].
  intros [-> H]%andb_true_iff. now rewrite (IH H).
Qed.

(** The digits that [str] writes for a positive number: a first digit that
    is not zero, then digits, which read back as the number. *)
Lemma pretty_N_go_digits (x : N) (s : string) :
  (0 < x)%N ->
  exists d ds,
    pretty_N_go x s = String d (ds +:+ s)
    /\ is_digit d = true
    /\ Ascii.eqb d "0" = false
    /\ forallb is_digit (list_ascii_of_string ds) = true
    /\ int_of_digits (String d ds) = Z.of_N x.
Proof.
  revert s. induction (N.lt_wf_0 x) as [x _ IH]. intros s Hx.
  rewrite pretty_N_go_step by exact Hx.
  assert (x mod 10 < 10)%N as Hmod by (apply N.mod_lt; lia).
  destruct (pretty_N_char_digit (x mod 10) Hmod) as (Hdig & Hval & Hnz).
  destruct (N.eq_dec (x / 10)%N 0%N) as [Hq|Hq].
  - rewrite Hq, pretty_N_go_0.
    assert (x mod 10 = x)%N as Hsmall.
    { pose proof (N.div_mod x 10 ltac:(lia)). lia. }
    exists (pretty_N_char (x mod 10)), EmptyString.
    split; [reflexivity|]. split; [exact Hdig|].
    split; [apply Hnz; lia|]. split; [reflexivity|].
    unfold int_of_digits. cbn [list_ascii_of_string fold_left].
    rewrite Hval, Hsmall. lia.
  - destruct (IH (x / 10)%N) with (s := String (pretty_N_char (x mod 10)) s)
      as (d & ds & Heq & Hd & Hd0 & Hds & Hint).
    { apply N.div_lt; lia. }
    { apply N.neq_0_lt_0. exact Hq. }
    exists d, (ds +:+ String (pretty_N_char (x mod 10)) EmptyString).
    split.
    { rewrite Heq, str_append_assoc. reflexivity. }
    split; [exact Hd|]. split; [exact Hd0|].
    split.
    { rewrite list_ascii_append, forallb_app, Hds. simpl. now rewrite Hdig. }
    unfold int_of_digits in Hint |- *.
    change (String d (ds +:+ String (pretty_N_char (x mod 10)) EmptyString))
      with (String d ds +:+ String (pretty_N_char (x mod 10)) EmptyString).
    rewrite list_ascii_append, fold_left_app, Hint.
    cbn [list_ascii_of_string fold_left]. rewrite Hval.
    pose proof (N.div_mod x 10 ltac:(lia)). lia.
Qed.

Section IntegerFacts.
Context {rt : PyRuntime}.

Lemma match_number_digits (d : ascii) (ds : string) :
  is_digit d = true ->
  Ascii.eqb d "0" = false ->
  forallb is_digit (list_ascii_of_string ds) = true ->
  match_number (String d ds) = Some (JInt (int_of_digits (String d ds)), EmptyString)
  /\ match_number (String "-" (String d ds))
     = Some (JInt (- int_of_digits (String d ds)), EmptyString).
Proof.
  intros Hd Hd0 Hds.
  assert (Ascii.eqb d "-" = false) as Hm.
  { destruct (Ascii.eqb_spec d "-") as [->|]; [discriminate | reflexivity]. }
  unfold match_number. cbn [number_sign]. rewrite Hm.
  change (Ascii.eqb "-" "-") with true. cbv iota.
  cbn [number_integer]. rewrite Hd0, Hd, (take_digits_all ds Hds).
  split; reflexivity.
Qed.

(** The text that [str] writes for an [int] is the number token of that
    [int]. *)
Lemma match_number_pretty (z : Z) :
  match_number (pretty z) = Some (JInt z, EmptyString).
Proof.
  destruct z as [|p|p].
  - reflexivity.
  - unfold pretty, pretty_Z, pretty, pretty_positive, pretty, pretty_N.
    destruct (decide (N.pos p = 0%N)) as [H|_]; [discriminate H|].
    destruct (pretty_N_go_digits (N.pos p) EmptyString ltac:(lia))
      as (d & ds & -> & Hd & Hd0 & Hds & Hint).
    rewrite str_append_nil.
    rewrite (proj1 (match_number_digits d ds Hd Hd0 Hds)), Hint. reflexivity.
  - unfold pretty, pretty_Z, pretty, pretty_positive, pretty, pretty_N.
    destruct (decide (N.pos p = 0%N)) as [H|_]; [discriminate H|].
    destruct (pretty_N_go_digits (N.pos p) EmptyString ltac:(lia))
      as (d & ds & -> & Hd & Hd0 & Hds & Hint).
    rewrite str_append_nil, str_append_cons.
    change (EmptyString +:+ String d ds) with (String d ds).
    rewrite (proj2 (match_number_digits d ds Hd Hd0 Hds)), Hint. reflexivity.
Qed.

End IntegerFacts.
(** *** Separators and heads *)

Lemma value_start_head (c : ascii) :
  value_start c = true ->
  is_ws c = false
  /\ Ascii.eqb c "]" = false
  /\ Ascii.eqb c "}" = false
  /\ Ascii.eqb (ascii_of_N 239) c = false.
Proof.
  destruct c as [[] [] [] [] [] [] [] []]; intros H; try discriminate H;
    repeat split; reflexivity.
Qed.

Lemma skip_ws_spaces (n : nat) (s : string) : skip_ws (spaces n +:+ s) = skip_ws s.
Proof.
  induction n as [|n IH]; [reflexivity|].
  cbn [spaces]. rewrite str_append_cons. cbn [skip_ws]. exact IH.
Qed.

Lemma skip_ws_newline_indent (indent : option nat) (lvl : nat) (s : string) :
  skip_ws (newline_indent indent lvl +:+ s) = skip_ws s.
Proof.
  destruct indent as [n|]; [|reflexivity].
  unfold newline_indent. rewrite str_append_cons. cbn [skip_ws].
  apply skip_ws_spaces.
Qed.

Lemma skip_ws_value (c : ascii) (r : string) :
  value_start c = true -> skip_ws (String c r) = String c r.
Proof. intros [H _]%value_start_head. cbn [skip_ws]. now rewrite H. Qed.

Lemma item_separator_shape (indent : option nat) (level : nat) :
  exists w,
    (forall s, item_separator indent level +:+ s = String "," (w +:+ s))
    /\ forall s, skip_ws (w +:+ s) = skip_ws s.
Proof.
  destruct indent as [n|].
  - exists (newline_indent (Some n) (S level)). split.
    + intros s. unfold item_separator. now rewrite str_append_assoc.
    + intros s. apply skip_ws_newline_indent.
  - exists " ". split; reflexivity.
Qed.

Lemma closing_skip (indent : option nat) (level : nat) (c : ascii) (rest : string) :
  skip_ws ((newline_indent indent level +:+ str1 c) +:+ rest)
  = skip_ws (String c rest).
Proof. now rewrite str_append_assoc, skip_ws_newline_indent. Qed.

Lemma closing_ends (indent : option nat) (level : nat) (c : ascii) (rest : string) :
  ends_value (str1 c) = true ->
  ends_value ((newline_indent indent level +:+ str1 c) +:+ rest) = true.
Proof. intros H. destruct indent as [n|]; [reflexivity | exact H]. Qed.

Lemma items_after_ends (indent : option nat) (level : nat) (c : ascii)
    (items : list string) (rest : string) :
  ends_value (str1 c) = true ->
  ends_value
    (items_after (item_separator indent level)
       (newline_indent indent level +:+ str1 c) items +:+ rest) = true.
Proof.
  intros H. destruct items as [|item items]; cbn [items_after].
  - now apply closing_ends.
  - destruct (item_separator_shape indent level) as (w & Hw & _).
    now rewrite str_append_assoc, Hw.
Qed.

Lemma concat_items (sep closing x : string) (xs : list string) :
  String.concat sep (x :: xs) +:+ closing = x +:+ items_after sep closing xs.
Proof.
  revert x. induction xs as [|y ys IH]; intros x; [reflexivity|].
  change (String.concat sep (x :: y :: ys))
    with (x +:+ sep +:+ String.concat sep (y :: ys)).
  now rewrite !str_append_assoc, IH.
Qed.

Lemma iterencode_list (indent : option nat) (level : nat) (x : json) (xs : list json) :
  iterencode indent level (JList (x :: xs))
  = String "["
      (newline_indent indent (S level)
       +:+ iterencode indent (S level) x
       +:+ items_after (item_separator indent level)
             (newline_indent indent level +:+ "]")
             (map (iterencode indent (S level)) xs)).
Proof.
  change (iterencode indent level (JList (x :: xs)))
    with ("[" +:+ newline_indent indent (S level)
          +:+ String.concat (item_separator indent level)
                (map (iterencode indent (S level)) (x :: xs))
          +:+ newline_indent indent level +:+ "]").
  cbn [map]. now rewrite concat_items.
Qed.

Lemma iterencode_dict (indent : option nat) (level : nat) (k : string) (v : json)
    (kvs : dict json) :
  iterencode indent level (JDict ((k, v) :: kvs))
  = String "{"
      (newline_indent indent (S level)
       +:+ (encode_basestring_ascii k +:+ ": " +:+ iterencode indent (S level) v)
       +:+ items_after (item_separator indent level)
             (newline_indent indent level +:+ "}")
             (map (fun kv => encode_basestring_ascii (fst kv) +:+ ": "
                             +:+ iterencode indent (S level) (snd kv)) kvs)).
Proof.
  change (iterencode indent level (JDict ((k, v) :: kvs)))
    with ("{" +:+ newline_indent indent (S level)
          +:+ String.concat (item_separator indent level)
                (map (fun kv => encode_basestring_ascii (fst kv) +:+ ": "
                                +:+ iterencode indent (S level) (snd kv))
                   ((k, v) :: kvs))
          +:+ newline_indent indent level +:+ "}").
  cbn [map fst snd]. now rewrite concat_items.
Qed.

Lemma strip_prefix_app (p rest : string) : strip_prefix p (p +:+ rest) = Some rest.
Proof.
  unfold strip_prefix. rewrite prefix_app, length_append.
  replace (String.length p + String.length rest - String.length p)
    with (String.length rest) by lia.
  now rewrite substring_append.
Qed.

Lemma prefix_other_head_strip (c d : ascii) (p r : string) :
  Ascii.eqb d c = false -> strip_prefix (String c p) (String d r) = None.
Proof. intros H. unfold strip_prefix. now rewrite prefix_other_head. Qed.

Lemma strip_prefix_other (c d : ascii) (p q rest : string) :
  Ascii.eqb d c = false -> strip_prefix (String c p) (String d q +:+ rest) = None.
Proof. intros H. rewrite str_append_cons. now apply prefix_other_head_strip. Qed.

Section ScalarFacts.
Context {rt : PyRuntime}.

Lemma float_reads_back_spec (f : PyFloat) :
  float_reads_back f = true ->
  floatstr f = float_repr f
  /\ match_number (float_repr f) = Some (JFloat f, EmptyString).
Proof.
  unfold float_reads_back.
  destruct (match_number (float_repr f)) as [[[] [|? ?]]|] eqn:E; try discriminate.
  intros Heq%String.eqb_eq.
  assert (f0 = f) as -> by (destruct f0, f; simpl in Heq; now subst).
  split; [|reflexivity].
  unfold floatstr.
  destruct (String.eqb_spec (float_repr f) "nan") as [H|_];
    [rewrite H in E; discriminate E|].
  destruct (String.eqb_spec (float_repr f) "inf") as [H|_];
    [rewrite H in E; discriminate E|].
  destruct (String.eqb_spec (float_repr f) "-inf") as [H|_];
    [rewrite H in E; discriminate E|].
  reflexivity.
Qed.

Lemma scan_once_number (s rest : string) (v : json) (n : nat) :
  match_number s = Some (v, EmptyString) ->
  ends_value rest = true ->
  scan_once (S n) (s +:+ rest) = Some (v, rest).
Proof.
  intros Hnum Hrest.
  destruct (match_number_head s _ v Hnum) as (c & r & -> & _ & Hq & Ho & Ha & Hconst).
  specialize (Hconst rest).
  pose proof (match_number_app _ _ _ _ Hrest Hnum) as Happ.
  rewrite str_append_cons in Hconst, Happ |- *. cbn [scan_once].
  rewrite Hq, Ho, Ha, Hconst. exact Happ.
Qed.

Lemma scan_once_named (c : ascii) (p rest : string) (v : json) (n : nat) :
  Ascii.eqb c dquote = false ->
  Ascii.eqb c "{" = false ->
  Ascii.eqb c "[" = false ->
  match_constant (String c p +:+ rest) = Some (v, rest) ->
  scan_once (S n) (String c p +:+ rest) = Some (v, rest).
Proof.
  intros Hq Ho Ha Hconst. rewrite str_append_cons in *. cbn [scan_once].
  now rewrite Hq, Ho, Ha, Hconst.
Qed.

Lemma scan_once_constant (rest : string) (n : nat) :
  scan_once (S n) ("null" +:+ rest) = Some (JNull, rest)
  /\ scan_once (S n) ("true" +:+ rest) = Some (JBool true, rest)
  /\ scan_once (S n) ("false" +:+ rest) = Some (JBool false, rest).
Proof.
  repeat split; apply scan_once_named; try reflexivity; unfold match_constant.
  - now rewrite strip_prefix_app.
  - now rewrite (strip_prefix_other "n" "t"), strip_prefix_app.
  - now rewrite (strip_prefix_other "n" "f"), (strip_prefix_other "t" "f"),
      strip_prefix_app.
Qed.

(** What [_iterencode] writes starts with a character a value can start
    with. *)
Lemma iterencode_head (indent : option nat) (level : nat) (v : json) :
  json_plain v = true ->
  exists c r, iterencode indent level v = String c r /\ value_start c = true.
Proof.
  destruct v as [|[]|z|f|s|[|x xs]|[|[k v] kvs]]; intros Hv.
  - now exists "n"%char, "ull".
  - now exists "t"%char, "rue".
  - now exists "f"%char, "alse".
  - destruct (match_number_head _ _ _ (match_number_pretty z))
      as (c & r & Heq & Hstart & _).
    exists c, r. split; [exact Heq | exact Hstart].
  - apply float_reads_back_spec in Hv as [Hstr Hnum].
    destruct (match_number_head _ _ _ Hnum) as (c & r & Heq & Hstart & _).
    exists c, r. split; [|exact Hstart].
    cbn [iterencode]. now rewrite Hstr.
  - now exists dquote, (String.concat EmptyString (map escape_ascii (utf8_decode s))
                        +:+ str1 dquote).
  - now exists "["%char, "]".
  - rewrite iterencode_list. now eexists _, _.
  - now exists "{"%char, "}".
  - rewrite iterencode_dict. now eexists _, _.
Qed.

End ScalarFacts.
(** *** Arrays and objects *)

Lemma keys_distinct_NoDup (ks : list string) :
  keys_distinct ks = true -> List.NoDup ks.
Proof.
  induction ks as [|k ks IH]; [constructor|].
  cbn [keys_distinct]. intros [Hk Hks]%andb_true_iff.
  constructor; [|exact (IH Hks)].
  intros Hin%str_in_In. now rewrite Hin in Hk.
Qed.

Lemma encoded_key (s X : string) :
  ascii_only s = true ->
  exists r,
    encode_basestring_ascii s +:+ X = String dquote r
    /\ scanstring (String.length r) r = Some (s, X).
Proof.
  intros Hs.
  exists (String.concat EmptyString (map escape_ascii (utf8_decode s))
          +:+ String dquote X).
  split.
  - unfold encode_basestring_ascii. now rewrite str_append_cons, str_append_assoc.
  - apply scanstring_encoded; [exact Hs|].
    rewrite length_append, (utf8_decode_ascii s Hs).
    pose proof (encoded_length (list_ascii_of_string s)) as L.
    rewrite length_list_ascii in L. simpl. lia.
Qed.

Section ContainerFacts.
Context {rt : PyRuntime}.

Lemma scan_once_more_fuel (n : nat) (s : string) (r : json * string) :
  scan_once n s = Some r ->
  forall k, 2 * String.length s <= k -> scan_once k s = Some r.
Proof.
  destruct r as [v rest]. intros H k Hk.
  destruct (scanner_fuel_enough n) as (Hs & _).
  destruct (Hs _ _ _ H) as [_ K]. apply K. lia.
Qed.

Lemma parse_array_more_fuel (n : nat) (s : string) (acc : list json)
    (r : json * string) :
  parse_array n s acc = Some r ->
  forall k, 2 * String.length s <= k -> parse_array k s acc = Some r.
Proof.
  destruct r as [v rest]. intros H k Hk.
  destruct (scanner_fuel_enough n) as (_ & Ha & _).
  destruct (Ha acc _ _ _ H) as [_ K]. apply K. lia.
Qed.

Lemma parse_object_more_fuel (n : nat) (s : string) (acc : dict json)
    (r : json * string) :
  parse_object n s acc = Some r ->
  forall k, 2 * String.length s <= k -> parse_object k s acc = Some r.
Proof.
  destruct r as [v rest]. intros H k Hk.
  destruct (scanner_fuel_enough n) as (_ & _ & Ho).
  destruct (Ho acc _ _ _ H) as [_ K]. apply K. lia.
Qed.

Lemma parse_array_last (n : nat) (s T rest : string) (v : json) (acc : list json) :
  scan_once n s = Some (v, T) ->
  skip_ws T = String "]" rest ->
  parse_array (S n) s acc = Some (JList (acc ++ [v]), rest).
Proof. intros H HT. cbn [parse_array]. now rewrite H, HT. Qed.

Lemma parse_array_next (n : nat) (s T r : string) (v : json) (acc : list json) :
  scan_once n s = Some (v, T) ->
  skip_ws T = String "," r ->
  parse_array (S n) s acc = parse_array n (skip_ws r) (acc ++ [v]).
Proof. intros H HT. cbn [parse_array]. now rewrite H, HT. Qed.

Lemma parse_object_last (n : nat) (r Y T rest key : string) (v : json)
    (acc : dict json) :
  scanstring (String.length r) r = Some (key, String ":" (String " " Y)) ->
  scan_once n (skip_ws Y) = Some (v, T) ->
  skip_ws T = String "}" rest ->
  parse_object (S n) (String dquote r) acc = Some (JDict (dict_set key v acc), rest).
Proof.
  intros Hkey H HT. cbn [parse_object]. rewrite Ascii.eqb_refl, Hkey.
  change (skip_ws (String ":" (String " " Y))) with (String ":" (String " " Y)).
  cbv iota. change (Ascii.eqb ":" ":") with true. cbv iota.
  change (skip_ws (String " " Y)) with (skip_ws Y).
  now rewrite H, HT.
Qed.

Lemma parse_object_next (n : nat) (r Y T r2 key : string) (v : json)
    (acc : dict json) :
  scanstring (String.length r) r = Some (key, String ":" (String " " Y)) ->
  scan_once n (skip_ws Y) = Some (v, T) ->
  skip_ws T = String "," r2 ->
  parse_object (S n) (String dquote r) acc
  = parse_object n (skip_ws r2) (dict_set key v acc).
Proof.
  intros Hkey H HT. cbn [parse_object]. rewrite Ascii.eqb_refl, Hkey.
  change (skip_ws (String ":" (String " " Y))) with (String ":" (String " " Y)).
  cbv iota. change (Ascii.eqb ":" ":") with true. cbv iota.
  change (skip_ws (String " " Y)) with (skip_ws Y).
  now rewrite H, HT.
Qed.

Lemma skip_ws_iterencode (indent : option nat) (level : nat) (v : json) (s : string) :
  json_plain v = true ->
  skip_ws (iterencode indent level v +:+ s) = iterencode indent level v +:+ s.
Proof.
  intros Hv. destruct (iterencode_head indent level v Hv) as (c & r & -> & Hc).
  rewrite str_append_cons. now apply skip_ws_value.
Qed.

Lemma parse_array_items (indent : option nat) (level : nat) (xs : list json) :
  List.Forall read_back xs ->
  forallb json_plain xs = true ->
  forall x acc rest,
    read_back x ->
    json_plain x = true ->
    ends_value rest = true ->
    exists n,
      parse_array n
        (iterencode indent (S level) x
         +:+ items_after (item_separator indent level)
               (newline_indent indent level +:+ "]")
               (map (iterencode indent (S level)) xs)
         +:+ rest) acc
      = Some (JList (acc ++ x :: xs), rest).
Proof.
  induction xs as [|y ys IH]; intros Hall Hplain x acc rest Hx Hpx Hrest.
  - cbn [map items_after].
    destruct (Hx indent (S level) ((newline_indent indent level +:+ "]") +:+ rest))
      as [n Hn].
    { now apply (closing_ends indent level "]"). }
    exists (S n). apply (parse_array_last _ _ _ _ _ _ Hn).
    now rewrite (closing_skip indent level "]").
  - cbn [map items_after].
    apply List.Forall_cons_iff in Hall as [Hy Hys].
    cbn [forallb] in Hplain. apply andb_true_iff in Hplain as [Hpy Hpys].
    destruct (item_separator_shape indent level) as (w & Hw & Hskip).
    destruct (IH Hys Hpys y (acc ++ [x]) rest Hy Hpy Hrest) as [n2 H2].
    rewrite <- app_assoc in H2. cbn [app] in H2.
    rewrite !str_append_assoc, Hw.
    match type of H2 with parse_array _ ?s _ = _ => set (s2 := s) in * end.
    assert (skip_ws s2 = s2) as Hs2
      by (unfold s2; apply skip_ws_iterencode; exact Hpy).
    destruct (Hx indent (S level) (String "," (w +:+ s2))) as [n1 H1];
      [reflexivity|].
    match type of H1 with scan_once _ ?s = _ => set (s1 := s) in * end.
    exists (S (2 * String.length s1 + 2 * String.length s2)).
    erewrite parse_array_next;
      [| apply (scan_once_more_fuel _ _ _ H1); lia | reflexivity].
    rewrite Hskip, Hs2.
    apply (parse_array_more_fuel _ _ _ _ H2). lia.
Qed.

Lemma key_is_fresh (acc : dict json) (k : string) (v : json) (kvs : dict json) :
  List.NoDup (dict_keys (acc ++ (k, v) :: kvs)) -> ~ In k (dict_keys acc).
Proof.
  intros Hkeys. rewrite dict_keys_app in Hkeys.
  apply List.NoDup_remove_2 in Hkeys.
  intros Hin. apply Hkeys, in_or_app. now left.
Qed.

Lemma parse_object_items (indent : option nat) (level : nat) (kvs : dict json) :
  List.Forall (fun kv => read_back (snd kv)) kvs ->
  forallb (fun kv => ascii_only (fst kv) && json_plain (snd kv)) kvs = true ->
  forall k v acc rest,
    read_back v ->
    ascii_only k = true ->
    json_plain v = true ->
    List.NoDup (dict_keys (acc ++ (k, v) :: kvs)) ->
    ends_value rest = true ->
    exists n,
      parse_object n
        ((encode_basestring_ascii k +:+ ": " +:+ iterencode indent (S level) v)
         +:+ items_after (item_separator indent level)
               (newline_indent indent level +:+ "}")
               (map (fun kv => encode_basestring_ascii (fst kv) +:+ ": "
                               +:+ iterencode indent (S level) (snd kv)) kvs)
         +:+ rest) acc
      = Some (JDict (acc ++ (k, v) :: kvs), rest).
Proof.
  induction kvs as [|[k' v'] kvs IH];
    intros Hall Hplain k v acc rest Hv Hk Hpv Hkeys Hrest;
    pose proof (key_is_fresh _ _ _ _ Hkeys) as Hfresh.
  - cbn [map items_after].
    set (T := (newline_indent indent level +:+ "}") +:+ rest).
    destruct (Hv indent (S level) T) as [n Hn].
    { now apply (closing_ends indent level "}"). }
    destruct (encoded_key k
                (String ":" (String " " (iterencode indent (S level) v +:+ T))) Hk)
      as (r & Heq & Hscan).
    match goal with
    | |- exists n, parse_object n ?text acc = _ =>
        replace text with (String dquote r)
          by (rewrite <- Heq; now rewrite !str_append_assoc)
    end.
    exists (S n).
    rewrite (parse_object_last n r _ T rest k v acc Hscan).
    + now rewrite dict_set_fresh.
    + now rewrite skip_ws_iterencode.
    + unfold T. now rewrite (closing_skip indent level "}").
  - cbn [map items_after fst snd].
    apply List.Forall_cons_iff in Hall as [Hv' Hkvs]. cbn [snd] in Hv'.
    cbn [forallb fst snd] in Hplain.
    apply andb_true_iff in Hplain as [[Hk' Hpv']%andb_true_iff Hpkvs].
    destruct (item_separator_shape indent level) as (w & Hw & Hskip).
    destruct (IH Hkvs Hpkvs k' v' (acc ++ [(k, v)]) rest Hv' Hk' Hpv') as [n2 H2].
    { now rewrite <- app_assoc. }
    { exact Hrest. }
    rewrite <- app_assoc in H2. cbn [app] in H2.
    match type of H2 with parse_object _ ?s _ = _ => set (s2 := s) in * end.
    assert (skip_ws s2 = s2) as Hs2.
    { unfold s2. rewrite !str_append_assoc.
      destruct (encoded_key k'
                  (": " +:+ iterencode indent (S level) v'
                   +:+ items_after (item_separator indent level)
                         (newline_indent indent level +:+ "}")
                         (map (fun kv => encode_basestring_ascii (fst kv) +:+ ": "
                                         +:+ iterencode indent (S level) (snd kv))
                            kvs)
                   +:+ rest) Hk') as (r' & -> & _).
      reflexivity. }
    destruct (Hv indent (S level) (String "," (w +:+ s2))) as [n1 H1];
      [reflexivity|].
    destruct (encoded_key k
                (String ":" (String " "
                   (iterencode indent (S level) v +:+ String "," (w +:+ s2)))) Hk)
      as (r & Heq & Hscan).
    match goal with
    | |- exists n, parse_object n ?text acc = _ =>
        replace text with (String dquote r)
    end.
    2:{ rewrite <- Heq. rewrite !str_append_assoc, Hw. unfold s2.
        now rewrite !str_append_assoc. }
    match type of H1 with scan_once _ ?s = _ => set (s1 := s) in * end.
    assert (skip_ws s1 = s1) as Hs1
      by (unfold s1; apply skip_ws_iterencode; exact Hpv).
    exists (S (2 * String.length s1 + 2 * String.length s2)).
    rewrite (parse_object_next _ r _ (String "," (w +:+ s2)) (w +:+ s2) k v acc Hscan).
    + rewrite Hskip, Hs2, dict_set_fresh by exact Hfresh.
      apply (parse_object_more_fuel _ _ _ _ H2). lia.
    + rewrite Hs1.
      apply (scan_once_more_fuel _ _ _ H1). lia.
    + reflexivity.
Qed.

(** Every plain value is read back from what [_iterencode] writes for it. *)
Lemma plain_read_back (v : json) : json_plain v = true -> read_back v.
Proof.
  induction v as [|b|z|f|s|xs IH|kvs IH] using json_nested_ind; intros Hv.
  - intros indent level rest Hrest. exists 1.
    apply (scan_once_constant rest 0).
  - intros indent level rest Hrest. exists 1.
    destruct b; apply (scan_once_constant rest 0).
  - intros indent level rest Hrest. exists 1.
    apply scan_once_number; [apply match_number_pretty | exact Hrest].
  - intros indent level rest Hrest. exists 1.
    apply float_reads_back_spec in Hv as [Hstr Hnum].
    cbn [iterencode]. rewrite Hstr.
    apply scan_once_number; [exact Hnum | exact Hrest].
  - intros indent level rest Hrest. exists 1.
    now apply scan_once_string.
  - cbn [json_plain] in Hv.
    assert (List.Forall read_back xs) as Hall.
    { apply List.Forall_forall. intros x Hin.
      rewrite List.Forall_forall in IH. apply (IH x Hin).
      rewrite forallb_forall in Hv. now apply Hv. }
    intros indent level rest Hrest.
    destruct xs as [|x xs]; [now exists 1|].
    apply List.Forall_cons_iff in Hall as [Hx Hxs].
    cbn [forallb] in Hv. apply andb_true_iff in Hv as [Hpx Hpxs].
    destruct (parse_array_items indent level xs Hxs Hpxs x [] rest Hx Hpx Hrest)
      as [n Hn].
    exists (S n).
    rewrite iterencode_list, str_append_cons, !str_append_assoc.
    cbn [scan_once].
    change (Ascii.eqb "[" dquote) with false.
    change (Ascii.eqb "[" "{") with false.
    change (Ascii.eqb "[" "[") with true. cbv iota.
    rewrite skip_ws_newline_indent, skip_ws_iterencode by exact Hpx.
    destruct (iterencode_head indent (S level) x Hpx) as (c & r & Heq & Hc).
    rewrite Heq in Hn |- *. rewrite str_append_cons in Hn |- *.
    apply value_start_head in Hc as (_ & -> & _). exact Hn.
  - cbn [json_plain] in Hv. apply andb_true_iff in Hv as [Hkeys Hv].
    assert (List.Forall (fun kv => read_back (snd kv)) kvs) as Hall.
    { apply List.Forall_forall. intros kv Hin.
      rewrite List.Forall_forall in IH. apply (IH kv Hin).
      rewrite forallb_forall in Hv. specialize (Hv kv Hin).
      now apply andb_true_iff in Hv as [_ Hv]. }
    intros indent level rest Hrest.
    destruct kvs as [|[k v] kvs]; [now exists 1|].
    apply List.Forall_cons_iff in Hall as [Hx Hxs]. cbn [snd] in Hx.
    cbn [forallb fst snd] in Hv.
    apply andb_true_iff in Hv as [[Hk Hpv]%andb_true_iff Hpkvs].
    apply keys_distinct_NoDup in Hkeys.
    destruct (parse_object_items indent level kvs Hxs Hpkvs k v [] rest Hx Hk Hpv
                Hkeys Hrest) as [n Hn].
    exists (S n).
    rewrite iterencode_dict, str_append_cons, !str_append_assoc.
    rewrite !str_append_assoc in Hn.
    cbn [scan_once].
    change (Ascii.eqb "{" dquote) with false.
    change (Ascii.eqb "{" "{") with true. cbv iota.
    rewrite skip_ws_newline_indent.
    destruct (encoded_key k
                (": " +:+ iterencode indent (S level) v
                 +:+ items_after (item_separator indent level)
                       (newline_indent indent level +:+ "}")
                       (map (fun kv => encode_basestring_ascii (fst kv) +:+ ": "
                                       +:+ iterencode indent (S level) (snd kv))
                          kvs)
                 +:+ rest) Hk) as (r & Heq & _).
    rewrite Heq in Hn |- *. exact Hn.
Qed.

End ContainerFacts.

(** *** The round trip *)

Section RoundTrip.
Context {rt : PyRuntime}.

Lemma json_loads_iterencode (indent : option nat) (v : json) :
  json_plain v = true -> json_loads (iterencode indent 0 v) = Ok v.
Proof.
  intros Hv.
  destruct (plain_read_back v Hv indent 0 EmptyString eq_refl) as [n Hn].
  rewrite str_append_nil in Hn.
  destruct (iterencode_head indent 0 v Hv) as (c & r & Heq & Hc).
  apply (json_loads_complete _ n v EmptyString).
  - rewrite Heq. apply prefix_other_head.
    now apply value_start_head in Hc as (_ & _ & _ & Hbom).
  - rewrite Heq, skip_ws_value by exact Hc. now rewrite <- Heq.
  - reflexivity.
Qed.

End RoundTrip.

(** X13. When the text given to [update_node_input] is what [json.dumps]
    writes for a plain value, every call that returns has set the input to
    that value, not to the text. *)
Theorem update_node_input_parses_dumps {rt : PyRuntime} (workflow workflow' : dict json)
    (node_id input_name : string) (v : json) (fields ins : dict json) :
  json_plain v = true ->
  dict_get node_id workflow = Some (JDict fields) ->
  dict_get "inputs" fields = Some (JDict ins) ->
  update_node_input workflow node_id input_name (json_dumps v) = Ok workflow' ->
  workflow'
  = dict_set node_id
      (JDict (dict_set "inputs" (JDict (dict_set input_name v ins)) fields))
      workflow.
Proof.
  intros Hv Hnode Hins Hcall.
  rewrite (update_node_input_present workflow node_id input_name (json_dumps v)
             fields ins Hnode Hins) in Hcall.
  unfold json_dumps in Hcall.
  rewrite (json_loads_iterencode None v Hv) in Hcall.
  now injection Hcall as <-.
Qed.

Lemma update_node_input_parses_dumps_witness :
  exists workflow',
    update_node_input (rt := sample_runtime) example_graph "2" "y"
      (json_dumps (JList [JStr "1"; JInt 1]))
    = Ok workflow'
    /\ workflow'
       = [("1", JDict [("class_type", JStr "A"); ("inputs", JDict [])]);
          ("2", JDict [("class_type", JStr "B");
                       ("inputs", JDict [("x", JList [JStr "1"; JInt 0]);
                                         ("y", JList [JStr "1"; JInt 1])])])].
Proof.
  eexists. split; [vm_compute; reflexivity|].
  exact (update_node_input_parses_dumps (rt := sample_runtime) example_graph _ "2" "y"
           (JList [JStr "1"; JInt 1]) _ _ eq_refl eq_refl eq_refl eq_refl).
Defined.



(** ** [get_workflow_template] on any catalog *)

(** X15. Whatever the catalog in the store holds: when the entry under the
    name has a plain content, every call of [get_workflow_template] that
    returns gives a graph with that content, built of cells that did not
    exist before the call, and leaves every existing cell as it was. *)
Theorem get_workflow_template_copies_plain {rt : PyRuntime} (name : string)
    (h h' : heap) (templates : dict val) (entry g : val) (tree : json) :
  dict_cell h TEMPLATES_ref = Ok templates ->
  dict_get name templates = Some entry ->
  content h entry = Some tree ->
  json_plain tree = true ->
  get_workflow_template name h = (Ok g, h') ->
  content h' g = Some tree
  /\ (forall l, reaches h' g l -> length h <= l < length h')
  /\ (forall l, l < length h -> h' !! l = h !! l).
Proof.
  intros Hcell Hentry Hcontent Hplain Hcall.
  assert (alloc tree h = (g, h')) as Halloc.
  { unfold get_workflow_template in Hcall. rewrite Hcell in Hcall.
    unfold dict_has in Hcall. rewrite Hentry in Hcall. cbn [negb] in Hcall.
    rewrite Hcontent in Hcall. unfold json_dumps in Hcall.
    rewrite (json_loads_iterencode None tree Hplain) in Hcall.
    destruct (alloc tree h) as [g0 h0]. now injection Hcall as <- <-. }
  split; [|split].
  - apply (alloc_content tree h h' h' g Halloc); [apply agree_on_refl | lia].
  - intros l Hl.
    apply (alloc_reaches_new tree h h' h' g l Halloc); [apply agree_on_refl | exact Hl].
  - apply (alloc_keeps tree h h' g Halloc).
Qed.

Lemma get_workflow_template_copies_plain_witness :
  exists g h',
    get_workflow_template (rt := sample_runtime) "fal-flux-schnell" initial_heap
    = (Ok g, h')
    /\ content h' g = dict_get "fal-flux-schnell" TEMPLATES.
Proof.
  eexists _, _. split; [vm_compute; reflexivity|].
  exact (proj1 (get_workflow_template_copies_plain (rt := sample_runtime)
                  "fal-flux-schnell" initial_heap _ _ _ _ _
                  eq_refl eq_refl eq_refl eq_refl eq_refl)).
Defined.

(** ** Validation of what the model dumps *)

Lemma forallb_map_pred {A B : Type} (f : A -> B) (p : B -> bool) (l : list A) :
  forallb p (map f l) = forallb (fun a => p (f a)) l.
Proof. induction l as [|a l IH]; simpl; [reflexivity | now rewrite IH]. Qed.

Lemma dict_keys_to_api_format (G : Workflow) :
  dict_keys (to_api_format G) = dict_keys (nodes G).
Proof.
  unfold to_api_format, dict_keys. rewrite map_map. reflexivity.
Qed.

(** X16. On a graph that the model dumps, with a string as first element of
    every two-element array among the inputs, [validate_workflow] returns; it
    counts the nodes of the model, and reports the graph valid exactly when
    no such first element is missing among the ids of the model: a dumped
    node never lacks [class_type] or [inputs]. *)
Theorem validate_workflow_on_model {rt : PyRuntime} (G : Workflow) :
  forallb (fun kv => forallb (fun inp => source_is_str (snd inp)) (inputs (snd kv)))
    (nodes G) = true ->
  exists r,
    validate_workflow (to_api_format G) = Ok r
    /\ node_count r = length (nodes G)
    /\ (valid r = true
        <-> forallb (fun kv =>
                       forallb (fun inp => negb (dangling (dict_keys (nodes G)) (snd inp)))
                         (inputs (snd kv)))
              (nodes G) = true).
Proof.
  intros _.
  assert (exists r, validate_workflow (to_api_format G) = Ok r) as [r Hr].
  { apply validate_workflow_returns_nodes. intros item Hin.
    unfold to_api_format in Hin. apply in_map_iff in Hin as (kv & <- & _).
    reflexivity. }
  exists r. split; [exact Hr|].
  destruct (validate_workflow_valid _ _ Hr) as [Hcount Hvalid].
  split.
  - rewrite Hcount. unfold to_api_format. apply length_map.
  - rewrite Hvalid. unfold graph_well_formed.
    rewrite dict_keys_to_api_format.
    unfold to_api_format. rewrite forallb_map_pred. reflexivity.
Qed.

Lemma validate_workflow_on_model_witness :
  exists r,
    validate_workflow (rt := sample_runtime) (to_api_format example_workflow) = Ok r
    /\ node_count r = 2
    /\ valid r = true.
Proof.
  destruct (validate_workflow_on_model (rt := sample_runtime) example_workflow eq_refl)
    as (r & Hr & Hcount & Hvalid).
  exists r. split; [exact Hr|]. split; [exact Hcount|].
  apply Hvalid. reflexivity.
Defined.
